(** * ag3-dash: the weather-damage dashboard's data pipeline

    A shallow embedding of the pipeline of the two dashboard variants

    - [src/components/WeatherDamageDashboard.js] (module [Dashboard], the
      primary variant: classifier, ingestion with date check, filter on the
      derived category, scenario calculator, load state machine), and
    - the earlier single-file variant (module [Prototype]: ingestion that
      trusts the [Year] column, filter on the raw description, the
      aggregate views and the key metrics),

    together with the JavaScript and lodash operations they call (modules
    [JS] and [Lodash]), the parsed rows ([Csv]), the scenario calculator
    that the two variants share ([Scenarios]) and the calendar of the date
    fields ([Calendar]).  The remaining handlers and views follow: the
    scenario selection ([Selection]), the yearly trend ([Trend]), the
    other views and the loading of the earlier variant ([DashboardViews],
    [PrototypeViews], [EventChart]) and the year menu ([YearMenu]), with
    the conversion of Numbers to strings they rest on ([JSText]).  The
    definitions come first; the properties, marked with the claim they
    settle, follow.

    Conventions.  A JavaScript number is an IEEE 754 binary64 value, the
    primitive [float].  A JavaScript string is a [string]; the embedding
    covers strings of ASCII code units (a code unit above 127 is carried
    along unchanged by [toLowerCase] and is never white space).  A field
    of a parsed CSV row is [option string]: [None] is [undefined]. *)

From Stdlib Require Import ZArith List String Ascii Bool Lia DecimalString.
From Stdlib Require Import Floats.
From Stdlib Require Import Sorting.Sorted Sorting.Permutation.
Import ListNotations.

Local Open Scope string_scope.
Local Open Scope bool_scope.

(** Decimal literals such as [0.40] denote the nearest binary64 value, as
    they do in JavaScript. *)
Set Warnings "-inexact-float".

(* ===================================================================== *)
(** * The JavaScript operations used by the dashboards                    *)
(* ===================================================================== *)

Module JS.

(** ** Strings *)

(** White space and line terminators in the ASCII range: TAB, LF, VT, FF,
    CR and SPACE. *)
Definition isWhiteSpace (c : ascii) : bool :=
  let n := nat_of_ascii c in
  (Nat.leb 9 n && Nat.leb n 13) || Nat.eqb n 32.

Fixpoint trimStart (s : string) : string :=
  match s with
  | String c s' => if isWhiteSpace c then trimStart s' else s
  | EmptyString => EmptyString
  end.

(** [trimEnd] keeps a character when it is not white space or when
    something that is kept follows it. *)
Fixpoint trimEnd (s : string) : string :=
  match s with
  | EmptyString => EmptyString
  | String c s' =>
      match trimEnd s' with
      | EmptyString => if isWhiteSpace c then EmptyString else String c EmptyString
      | t => String c t
      end
  end.

(** A string that does not begin with white space. *)
Definition startsClean (s : string) : bool :=
  match s with
  | String c _ => negb (isWhiteSpace c)
  | EmptyString => true
  end.

(** [String.prototype.trim] *)
Definition trim (s : string) : string := trimEnd (trimStart s).

Definition lowerChar (c : ascii) : ascii :=
  let n := nat_of_ascii c in
  if Nat.leb 65 n && Nat.leb n 90 then ascii_of_nat (n + 32) else c.

(** [String.prototype.toLowerCase] *)
Fixpoint toLowerCase (s : string) : string :=
  match s with
  | EmptyString => EmptyString
  | String c s' => String (lowerChar c) (toLowerCase s')
  end.

(** [String.prototype.includes]: [sub] occurs in [s] at some position. *)
Fixpoint includes (s sub : string) : bool :=
  String.prefix sub s ||
  match s with
  | EmptyString => false
  | String _ s' => includes s' sub
  end.

(** Truthiness of a value that is a string or [undefined]. *)
Definition truthy (v : option string) : bool :=
  match v with
  | Some s => negb (String.eqb s "")
  | None => false
  end.

(** [ToString] of a value that is a string or [undefined], as a template
    literal and a property key apply it. *)
Definition toStr (v : option string) : string :=
  match v with
  | Some s => s
  | None => "undefined"
  end.

(** [String.prototype.split] with a one-character separator: the pieces
    between the separators, in order; never empty. *)
Fixpoint split (sep : ascii) (s : string) : list string :=
  match s with
  | EmptyString => [EmptyString]
  | String c s' =>
      if Ascii.eqb c sep then EmptyString :: split sep s'
      else match split sep s' with
           | p :: ps => String c p :: ps
           | [] => [String c EmptyString]
           end
  end.

(** ** Numbers *)

Local Open Scope Z_scope.

(** The binary64 value nearest to an integer (ties to even), as the
    conversion of a mathematical value to a Number. *)
Definition ofZ (z : Z) : float :=
  SF2Prim (binary_normalize prec emax z 0 false).

(** The binary64 value nearest to [n / d] (ties to even).  The quotient is
    computed with 64 bits more than [d] has and a last sticky bit that
    records a remainder, so the one rounding of [binary_round] is the
    rounding of the exact quotient. *)
Definition roundRatio (neg : bool) (n d : positive) : spec_float :=
  let s := Z.log2 (Zpos d) + 65 in
  let num := Zpos n * 2 ^ s in
  let q := num / Zpos d in
  let sticky := if num mod Zpos d =? 0 then 0 else 1 in
  match 2 * q + sticky with
  | Zpos m => binary_round prec emax neg m (- (s + 1))
  | _ => S754_zero neg
  end.

(** The Number value of [m * 10 ^ k], with the sign [neg]. *)
Definition ofDecimal (neg : bool) (m k : Z) : float :=
  SF2Prim
    match m with
    | Zpos p =>
        if 0 <=? k then
          match Zpos p * 10 ^ k with
          | Zpos q => binary_round prec emax neg q 0
          | _ => S754_zero neg
          end
        else roundRatio neg p (Z.to_pos (10 ^ (- k)))
    | _ => S754_zero neg
    end.

(** The global [isNaN] on a Number. *)
Definition isNaN (x : float) : bool := PrimFloat.is_nan x.

(** Strict equality [===] of two Numbers: [NaN] differs from everything,
    the two zeros are equal. *)
Definition strictEq (x y : float) : bool := PrimFloat.eqb x y.

(** The IEEE comparison of two Numbers: [None] when one of them is NaN. *)
Definition compareNumbers (x y : float) : option comparison :=
  SFcompare (Prim2SF x) (Prim2SF y).

(** Two comparisons in a row: the first decides unless it is [Eq]. *)
Definition thenCompare (c1 c2 : comparison) : comparison :=
  match c1 with Eq => c2 | _ => c1 end.

Definition isDigit (c : ascii) : bool :=
  let n := nat_of_ascii c in Nat.leb 48 n && Nat.leb n 57.

Definition digitVal (c : ascii) : Z := Z.of_nat (nat_of_ascii c) - 48.

(** The value of a hexadecimal digit, if [c] is one. *)
Definition hexVal (c : ascii) : option Z :=
  let n := nat_of_ascii c in
  if Nat.leb 48 n && Nat.leb n 57 then Some (Z.of_nat n - 48)
  else if Nat.leb 65 n && Nat.leb n 70 then Some (Z.of_nat n - 55)
  else if Nat.leb 97 n && Nat.leb n 102 then Some (Z.of_nat n - 87)
  else None.

(** The longest prefix of decimal digits: its value read after [acc], the
    number of digits, and the rest of the string. *)
Fixpoint spanDigits (acc : Z) (s : string) : Z * nat * string :=
  match s with
  | String c s' =>
      if isDigit c then
        let '(v, n, r) := spanDigits (10 * acc + digitVal c) s' in (v, S n, r)
      else (acc, O, s)
  | EmptyString => (acc, O, s)
  end.

Fixpoint spanHex (acc : Z) (s : string) : Z * nat :=
  match s with
  | String c s' =>
      match hexVal c with
      | Some d => let '(v, n) := spanHex (16 * acc + d) s' in (v, S n)
      | None => (acc, O)
      end
  | EmptyString => (acc, O)
  end.

(** An optional sign. *)
Definition spanSign (s : string) : bool * string :=
  match s with
  | String "-" s' => (true, s')
  | String "+" s' => (false, s')
  | _ => (false, s)
  end.

(** An optional exponent part [e], [e+] or [e-] followed by at least one
    digit; 0 when there is none. *)
Definition exponentPart (s : string) : Z :=
  match s with
  | String c s' =>
      if Ascii.eqb c "e" || Ascii.eqb c "E" then
        let (neg, s'') := spanSign s' in
        let '(v, n, _) := spanDigits 0 s'' in
        match n with
        | O => 0
        | _ => if neg then - v else v
        end
      else 0
  | EmptyString => 0
  end.

(** The global [parseFloat] on a string: leading white space is skipped,
    the longest prefix that is a decimal literal is read, anything after it
    is ignored; [NaN] when there is no such prefix. *)
Definition parseFloat (input : string) : float :=
  let (neg, s) := spanSign (trimStart input) in
  if String.prefix "Infinity" s then
    (if neg then neg_infinity else infinity)
  else
    let '(ip, ni, r1) := spanDigits 0 s in
    let '(m, nf, r2) :=
      match r1 with
      | String "." r => spanDigits ip r
      | _ => (ip, O, r1)
      end in
    match ni, nf with
    | O, O => nan
    | _, _ => ofDecimal neg m (exponentPart r2 - Z.of_nat nf)
    end.

(** The global [parseInt] without a radix, on a string or [undefined]:
    leading white space is skipped, [0x] selects radix 16, the longest
    prefix of digits is read; [NaN] when there is none. *)
Definition parseInt (input : option string) : float :=
  let (neg, s) := spanSign (trimStart (toStr input)) in
  let '(v, n) :=
    match s with
    | String "0" (String c s') =>
        if Ascii.eqb c "x" || Ascii.eqb c "X" then spanHex 0 s'
        else let '(v, n, _) := spanDigits 0 s in (v, n)
    | _ => let '(v, n, _) := spanDigits 0 s in (v, n)
    end in
  match n with
  | O => nan
  | _ => ofDecimal neg v 0
  end.

(** The integer part of a finite Number (truncation toward zero). *)
Definition truncZ (x : float) : Z :=
  match Prim2SF x with
  | S754_finite s m e =>
      let a := if 0 <=? e then Z.shiftl (Zpos m) e else Z.shiftr (Zpos m) (- e) in
      if s then - a else a
  | _ => 0
  end.

(** [Math.round]: the integer nearest to [x], a tie going up; [NaN] and
    the infinities are returned as they are, and a result of zero keeps
    the sign of [x]. *)
Definition Math_round (x : float) : float :=
  match Prim2SF x with
  | S754_finite s m e =>
      if 0 <=? e then x
      else
        let den := 2 ^ (- e) in
        let num := if s then - Zpos m else Zpos m in
        let r := (2 * num + den) / (2 * den) in
        if r =? 0 then (if s then neg_zero else zero) else ofZ r
  | _ => x
  end.

(** ** Dates

    A [Date] object is its time value: milliseconds since the epoch, or
    [NaN] for an invalid date.  The embedding takes the host's local time
    zone to be UTC, so that the conversions between local time and UTC in
    the constructor and in [getFullYear] are the identity. *)

Definition msPerDay : Z := 86400000.

(** The day number of the first day of year [y]. *)
Definition DayFromYear (y : Z) : Z :=
  365 * (y - 1970) + (y - 1969) / 4 - (y - 1901) / 100 + (y - 1601) / 400.

Definition InLeapYear (y : Z) : bool :=
  (y mod 4 =? 0) && (negb (y mod 100 =? 0) || (y mod 400 =? 0)).

(** The number of days of the year before month [mn] (0 is January). *)
Definition daysBeforeMonth (leap : bool) (mn : Z) : Z :=
  nth (Z.to_nat mn) [0; 31; 59; 90; 120; 151; 181; 212; 243; 273; 304; 334] 0
  + (if leap && (2 <=? mn) then 1 else 0).

(** [MakeDay]: months beyond 0..11 carry into the year, and the day of
    the month is added as a number of days. *)
Definition MakeDay (year month date : Z) : Z :=
  let ym := year + month / 12 in
  let mn := month mod 12 in
  DayFromYear ym + daysBeforeMonth (InLeapYear ym) mn + date - 1.

(** [YearFromTime] on a day number: the largest year that starts on or
    before the day. *)
Definition YearFromDay (day : Z) : Z :=
  let c := 1970 + (day * 400) / 146097 in
  if DayFromYear (c + 1) <=? day then c + 1
  else if DayFromYear c <=? day then c
  else c - 1.

(** [new Date(year, month, date)]: a year from 0 to 99 means 1900 + year;
    a time value beyond 8.64e15 ms in magnitude is invalid. *)
Definition Date_ymd (year month date : float) : float :=
  if is_finite year && is_finite month && is_finite date then
    let yi := truncZ year in
    let yr := if (0 <=? yi) && (yi <=? 99) then 1900 + yi else yi in
    let tv := MakeDay yr (truncZ month) (truncZ date) * msPerDay in
    if Z.abs tv >? 8640000000000000 then nan else ofZ tv
  else nan.

(** [Date.prototype.getFullYear] *)
Definition getFullYear (t : float) : float :=
  if PrimFloat.is_nan t then nan else ofZ (YearFromDay (truncZ t / msPerDay)).

(** ** Arrays *)

(** [Array.prototype.sort] with a comparator, as a stable insertion sort:
    [x] is placed before [y] when [cmp x y <= 0].  For a comparator that
    is a total order every conforming sort returns this array. *)
Fixpoint sortInsert {T : Type} (cmp : T -> T -> Z) (x : T) (l : list T) : list T :=
  match l with
  | [] => [x]
  | y :: l' => if cmp x y <=? 0 then x :: l else y :: sortInsert cmp x l'
  end.

Definition sort {T : Type} (cmp : T -> T -> Z) (l : list T) : list T :=
  fold_right (sortInsert cmp) [] l.

(** The comparator does not place [x] after [y]. *)
Definition precedes {T : Type} (cmp : T -> T -> Z) (x y : T) : Prop := cmp x y <= 0.

(** The elements of an array paired with their positions. *)
Fixpoint indexedFrom {T : Type} (i : Z) (l : list T) : list (Z * T) :=
  match l with
  | [] => []
  | x :: l' => (i, x) :: indexedFrom (i + 1) l'
  end.

(** [Array.prototype.find] *)
Definition find {T : Type} (p : T -> bool) (l : list T) : option T := List.find p l.

(** Dropping the [null] entries of an array: [.filter(x => x !== null)] *)
Fixpoint dropNull {T : Type} (l : list (option T)) : list T :=
  match l with
  | [] => []
  | Some x :: l' => x :: dropNull l'
  | None :: l' => dropNull l'
  end.

End JS.

(* ===================================================================== *)
(** * The event-type classifier                                           *)
(* ===================================================================== *)

Module Classifier.
Import JS.

(** [normalizeWeatherType] of [WeatherDamageDashboard.js]: a cascade of
    substring tests on the lower-cased, trimmed description. *)
Definition normalizeWeatherType (type : option string) : string :=
  if negb (truthy type) then "Other" else
  let lowerType := trim (toLowerCase (toStr type)) in
  if includes lowerType "hurricane" ||
     includes lowerType "tropical" ||
     includes lowerType "cyclone" ||
     includes lowerType "mawar" then "Hurricane/Tropical Storm"
  else if includes lowerType "winter" ||
          includes lowerType "snow" ||
          includes lowerType "arctic" ||
          includes lowerType "ice" then "Winter Storm"
  else if includes lowerType "storm" ||
          includes lowerType "wind" ||
          includes lowerType "nor'easter" ||
          includes lowerType "atmospheric river" then "Severe Storm"
  else if includes lowerType "flood" ||
          includes lowerType "water" ||
          includes lowerType "rain" then "Flooding"
  else if includes lowerType "tornado" ||
          includes lowerType "torando" then "Tornado"
  else if includes lowerType "hail" then "Hail"
  else if includes lowerType "fire" then "Fire"
  else if includes lowerType "earthquake" then "Earthquake"
  else if includes lowerType "wave" then "Wave"
  else "Other".

(** The ten category names the classifier can return. *)
Definition categories : list string :=
  [ "Hurricane/Tropical Storm"; "Winter Storm"; "Severe Storm"; "Flooding";
    "Tornado"; "Hail"; "Fire"; "Earthquake"; "Wave"; "Other" ].

(** The specification's reading of the classifier (section 4.2): an
    ordered list of rules, each a category with its keywords, evaluated by
    one generic first-match function.  This definition follows the words
    of the specification and is compared with [normalizeWeatherType]. *)
Definition rules : list (string * list string) :=
  [ ("Hurricane/Tropical Storm", ["hurricane"; "tropical"; "cyclone"; "mawar"]);
    ("Winter Storm", ["winter"; "snow"; "arctic"; "ice"]);
    ("Severe Storm", ["storm"; "wind"; "nor'easter"; "atmospheric river"]);
    ("Flooding", ["flood"; "water"; "rain"]);
    ("Tornado", ["tornado"; "torando"]);
    ("Hail", ["hail"]);
    ("Fire", ["fire"]);
    ("Earthquake", ["earthquake"]);
    ("Wave", ["wave"]) ].

Fixpoint firstMatch (rs : list (string * list string)) (text : string) : string :=
  match rs with
  | [] => "Other"
  | (category, keywords) :: rs' =>
      if existsb (includes text) keywords then category
      else firstMatch rs' text
  end.

Definition classify_spec (description : option string) : string :=
  match description with
  | None => "Other"
  | Some "" => "Other"
  | Some d => firstMatch rules (trim (toLowerCase d))
  end.

End Classifier.

(* ===================================================================== *)
(** * The lodash operations used by the dashboards                        *)
(* ===================================================================== *)

Module Lodash.
Import JS.
Local Open Scope Z_scope.

(** [_.sumBy]: 0 for an empty array, otherwise the left-to-right sum that
    starts from the first element. *)
Definition sumBy {A : Type} (f : A -> float) (l : list A) : float :=
  match l with
  | [] => 0%float
  | x :: xs => fold_left (fun acc y => (acc + f y)%float) xs (f x)
  end.

(** The buckets of [_.groupBy] in the order in which their keys are first
    met; each bucket lists its elements in the order of the collection. *)
Fixpoint addToGroup {A : Type} (k : string) (x : A) (g : list (string * list A))
  : list (string * list A) :=
  match g with
  | [] => [(k, [x])]
  | (k', xs) :: g' =>
      if String.eqb k k' then (k', (xs ++ [x])%list) :: g'
      else (k', xs) :: addToGroup k x g'
  end.

Definition buckets {A : Type} (key : A -> string) (l : list A)
  : list (string * list A) :=
  fold_left (fun g x => addToGroup (key x) x g) l [].

(** The elements grouped under key [k]; none when there is no such key. *)
Definition groupOf {A : Type} (k : string) (g : list (string * list A)) : list A :=
  match List.find (fun e => String.eqb k (fst e)) g with
  | Some e => snd e
  | None => []
  end.

(** [_.uniq] on strings: the first occurrence of each value, in order. *)
Definition uniqAdd (k : string) (seen : list string) : list string :=
  if existsb (String.eqb k) seen then seen else (seen ++ [k])%list.

Definition uniq (l : list string) : list string :=
  fold_left (fun seen k => uniqAdd k seen) l [].

(** A property key that is an array index: the canonical decimal form of
    an integer from 0 to 2^32 - 2. *)
Definition arrayIndex (k : string) : option Z :=
  let '(v, n, rest) := spanDigits 0 k in
  let canonical :=
    match k with
    | String "0" (String _ _) => false
    | _ => true
    end in
  if negb (Nat.eqb n 0) && String.eqb rest "" && canonical && (v <=? 4294967294)
  then Some v else None.

Definition isIndexKey (k : string) : bool :=
  match arrayIndex k with Some _ => true | None => false end.

Definition indexOfKey (k : string) : Z :=
  match arrayIndex k with Some v => v | None => 0 end.

(** The order in which the own properties of an object are enumerated:
    the array-index keys in ascending numeric order, then the other keys
    in the order in which they were added. *)
Definition ownEntries {B : Type} (o : list (string * B)) : list (string * B) :=
  (sort (fun a b => indexOfKey (fst a) - indexOfKey (fst b))
        (filter (fun e => isIndexKey (fst e)) o)
  ++ filter (fun e => negb (isIndexKey (fst e))) o)%list.

(** [_.groupBy] followed by the enumeration of the resulting object, as
    [_.map] on it sees the groups. *)
Definition groupBy {A : Type} (key : A -> string) (l : list A)
  : list (string * list A) :=
  ownEntries (buckets key l).

(** [compareAscending] on two Numbers. *)
Definition compareAscending (value other : float) : Z :=
  if negb (strictEq value other) then
    if (other <? value)%float || PrimFloat.is_nan value then 1
    else if (value <? other)%float || PrimFloat.is_nan other then -1
    else 0
  else 0.

(** [compareMultiple] with one criterion and one order; the last resort
    is the difference of the positions. *)
Definition compareMultiple {A : Type} (desc : bool)
  (object other : Z * (float * A)) : Z :=
  let result := compareAscending (fst (snd object)) (fst (snd other)) in
  if negb (result =? 0) then (if desc then result * -1 else result)
  else fst object - fst other.

(** The entries that [baseOrderBy] builds: position, criterion, element. *)
Definition entriesOf {A : Type} (iteratee : A -> float) (l : list A)
  : list (Z * (float * A)) :=
  indexedFrom 0 (map (fun x => (iteratee x, x)) l).

(** The criterion of an entry is not NaN. *)
Definition criterionIsNumber {A : Type} (e : Z * (float * A)) : Prop :=
  PrimFloat.is_nan (fst (snd e)) = false.

(** The entries after [baseSortBy] has sorted them. *)
Definition ranked {A : Type} (iteratee : A -> float) (desc : bool) (l : list A)
  : list (Z * (float * A)) :=
  sort (compareMultiple desc) (entriesOf iteratee l).

(** [_.orderBy(collection, [iteratee], [order])] on an array. *)
Definition orderBy {A : Type} (iteratee : A -> float) (desc : bool) (l : list A)
  : list A :=
  map (fun o => snd (snd o)) (ranked iteratee desc l).

(** [.slice(0, n)] *)
Definition slice0 {A : Type} (n : nat) (l : list A) : list A := firstn n l.

End Lodash.

(* ===================================================================== *)
(** * Parsed CSV rows                                                     *)
(* ===================================================================== *)

(** A row as PapaParse delivers it with [header: true]: every field is a
    string, or [undefined] when the row is too short or the column does
    not exist. *)
Module Csv.

Record Row := {
  Branch : option string;
  Weather_Event : option string;
  Named_Storm : option string;
  Date_of_Weather_Event : option string;
  Year : option string;
  Cost : option string;
  Installation : option string;
  State : option string
}.

(** The row with its [Year] column replaced. *)
Definition withYear (y : option string) (r : Row) : Row :=
  {| Branch := Branch r; Weather_Event := Weather_Event r;
     Named_Storm := Named_Storm r;
     Date_of_Weather_Event := Date_of_Weather_Event r;
     Year := y; Cost := Cost r; Installation := Installation r;
     State := State r |}.

End Csv.

(** The scenario catalogue and the scenario calculator; the two variants
    have the same text. *)
Module Scenarios.
Import JS.

Record Scenario := {
  id : string;
  name : string;
  reduction : float;
  cost : float;
  type : string
}.

Definition scenarios : list Scenario :=
  [ {| id := "scenario1"; name := "Enhanced stormwater infrastructure";
       reduction := 0.25; cost := 2000000; type := "flood" |};
    {| id := "scenario2"; name := "Wind-resistant building upgrades";
       reduction := 0.40; cost := 3500000; type := "hurricane" |};
    {| id := "scenario3"; name := "Wildfire prevention measures";
       reduction := 0.30; cost := 1500000; type := "fire" |};
    {| id := "scenario4"; name := "Winter weather preparedness";
       reduction := 0.20; cost := 1000000; type := "winter" |} ].

Record ScenarioResult := {
  currentProjection : float;
  withMitigation : float;
  savings : float;
  resultCost : option float
}.

Definition baseProjection : float := 24500000.

(** The body of the [forEach]: one selected id updates the two running
    totals when the catalogue has a scenario of that id. *)
Definition accumulate (totals : float * float) (scenarioId : string) : float * float :=
  match find (fun s => String.eqb (id s) scenarioId) scenarios with
  | Some scenario =>
      ((fst totals + reduction scenario)%float, (snd totals + cost scenario)%float)
  | None => totals
  end.

(** [totalReduction] and [totalCost] after the loop. *)
Definition totals (selectedScenarios : list string) : float * float :=
  fold_left accumulate selectedScenarios (0%float, 0%float).

Definition totalReduction (selectedScenarios : list string) : float :=
  fst (totals selectedScenarios).

Definition calculateScenarioImpact (selectedScenarios : list string) : ScenarioResult :=
  let totalReduction := fst (totals selectedScenarios) in
  let totalCost := snd (totals selectedScenarios) in
  let reducedCost :=
    (baseProjection *
     (1 - totalReduction / ofZ (Z.of_nat (List.length selectedScenarios))))%float in
  let savings := (baseProjection - reducedCost)%float in
  {| currentProjection := baseProjection;
     withMitigation := reducedCost;
     savings := savings;
     resultCost := Some totalCost |}.

(** The value [useState] gives [scenarioResults] before any calculation. *)
Definition initialScenarioResults : ScenarioResult :=
  {| currentProjection := 24500000;
     withMitigation := 24500000;
     savings := 0;
     resultCost := None |}.

End Scenarios.

(* ===================================================================== *)
(** * The primary variant: [src/components/WeatherDamageDashboard.js]     *)
(* ===================================================================== *)

Module Dashboard.
Import JS.
Export Classifier.
Export Scenarios.

(** An element of [cleanedData]: the row spread into the object, with
    [Cost] and [Year] overwritten by Numbers and two fields added. *)
Record Event := {
  fields : Csv.Row;
  Cost : float;
  Year : float;
  date : float;
  weatherEventFull : option string
}.

(** The callback of the first [filter] of [cleanedData]. *)
Definition keepRow (item : Csv.Row) : bool :=
  let hasCost := truthy (Csv.Cost item)
                 && negb (isNaN (parseFloat (toStr (Csv.Cost item)))) in
  let hasDate := truthy (Csv.Date_of_Weather_Event item) in
  hasCost && hasDate.

(** The date that the [try] block builds from the MM/DD/YY field. *)
Definition parseDate (d : string) : float :=
  let dateParts := split "/" d in
  Date_ymd (2000 + parseInt (nth_error dateParts 2))%float
           (parseInt (nth_error dateParts 0) - 1)%float
           (parseInt (nth_error dateParts 1)).

(** The callback of the [map] of [cleanedData].  The only operation of
    the [try] block that can throw is the call of [split] on an absent
    date; the [catch] then returns [null], here [None]. *)
Definition transformRow (item : Csv.Row) : option Event :=
  match Csv.Date_of_Weather_Event item with
  | None => None
  | Some d =>
      let date := parseDate d in
      Some {| fields := item;
              Cost := parseFloat (toStr (Csv.Cost item));
              Year := getFullYear date;
              date := date;
              weatherEventFull :=
                if truthy (Csv.Named_Storm item)
                then Some (toStr (Csv.Weather_Event item) ++ " ("
                           ++ toStr (Csv.Named_Storm item) ++ ")")
                else Csv.Weather_Event item |}
  end.

Definition cleanedData (data : list Csv.Row) : list Event :=
  dropNull (map transformRow (filter keepRow data)).

(** The callback of [weatherData.filter] that computes [filteredData]. *)
Definition passesFilter (selectedYear selectedWeatherType : string) (item : Event) : bool :=
  if negb (String.eqb selectedYear "all")
     && negb (strictEq (Year item) (parseFloat selectedYear)) then false
  else if negb (String.eqb selectedWeatherType "all")
          && negb (String.eqb (normalizeWeatherType (Csv.Weather_Event (fields item)))
                              selectedWeatherType) then false
  else true.

Definition filteredData (weatherData : list Event)
  (selectedYear selectedWeatherType : string) : list Event :=
  filter (passesFilter selectedYear selectedWeatherType) weatherData.

(** ** Loading *)

(** The three pieces of component state that loading writes. *)
Record State := {
  weatherData : list Event;
  loading : bool;
  error : option string
}.

Definition initialState : State :=
  {| weatherData := []; loading := true; error := None |}.

(** A computation that returns or throws an [Error] with a message. *)
Inductive Outcome (A : Type) : Type :=
| Return (x : A)
| Throw (message : string).
Arguments Return {A} x.
Arguments Throw {A} message.

Definition bind {A B : Type} (c : Outcome A) (k : A -> Outcome B) : Outcome B :=
  match c with
  | Return x => k x
  | Throw m => Throw m
  end.

Notation "x <- c ;; k" := (bind c (fun x => k))
  (at level 61, c at next level, right associativity).

(** What [fetch] and [response.text()] settle to. *)
Record Response := {
  ok : bool;
  status : N;
  text : Outcome string
}.

Definition showNumber (n : N) : string := NilEmpty.string_of_uint (N.to_uint n).

Section Loading.

(** [Papa.parse] with [header: true] on a string: it runs synchronously
    and hands [results.data] to [complete]. *)
Variable parse : string -> list Csv.Row.

(** The [complete] callback. *)
Definition complete (data : list Csv.Row) (st : State) : Outcome State :=
  let cleaned := cleanedData data in
  if Nat.eqb (List.length cleaned) 0 then Throw "No valid data after cleaning"
  else Return {| weatherData := cleaned; loading := false; error := error st |}.

(** The [try] block of [fetchData]. *)
Definition tryFetch (fetched : Outcome Response) (st : State) : Outcome State :=
  response <- fetched ;;
  _ <- (if negb (ok response)
        then Throw ("HTTP error! status: " ++ showNumber (status response))
        else Return tt) ;;
  csvText <- text response ;;
  complete (parse csvText) st.

(** [fetchData]: the [catch] records the message and ends loading. *)
Definition fetchData (fetched : Outcome Response) (st : State) : State :=
  match tryFetch fetched st with
  | Return st' => st'
  | Throw message =>
      {| weatherData := weatherData st;
         loading := false;
         error := Some ("Error fetching data: " ++ message) |}
  end.

End Loading.

(** What the component renders. *)
Inductive View :=
| LoadingView
| ErrorView (message : string)
| DashboardView (data : list Event).

Definition render (st : State) : View :=
  if loading st then LoadingView
  else if truthy (error st) then ErrorView (toStr (error st))
  else DashboardView (weatherData st).

End Dashboard.

(* ===================================================================== *)
(** * The earlier variant (the single-file dashboard)                     *)
(* ===================================================================== *)

Module Prototype.
Import JS Lodash.
Export Scenarios.

Record Event := {
  fields : Csv.Row;
  Cost : float;
  Year : float;
  date : float
}.

Section Ingestion.

(** [Date.parse] of the host: the time value read from a date string, or
    [NaN].  The language leaves it to the implementation for strings such
    as [01/15/23]. *)
Variable hostDateParse : string -> float.

(** [new Date(value)] for a string or [undefined]. *)
Definition Date_value (v : option string) : float :=
  match v with
  | Some s => hostDateParse s
  | None => nan
  end.

Definition keepRow (item : Csv.Row) : bool :=
  truthy (Csv.Cost item) && negb (isNaN (parseFloat (toStr (Csv.Cost item)))).

Definition transformRow (item : Csv.Row) : Event :=
  {| fields := item;
     Cost := parseFloat (toStr (Csv.Cost item));
     Year := if truthy (Csv.Year item) then parseFloat (toStr (Csv.Year item))
             else getFullYear (Date_value (Csv.Date_of_Weather_Event item));
     date := Date_value (Csv.Date_of_Weather_Event item) |}.

Definition cleanedData (data : list Csv.Row) : list Event :=
  map transformRow (filter keepRow data).

End Ingestion.

(** The callback of [weatherData.filter]: the selected type is compared
    with the raw [Weather Event] field. *)
Definition passesFilter (selectedYear selectedWeatherType : string) (item : Event) : bool :=
  if negb (String.eqb selectedYear "all")
     && negb (strictEq (Year item) (parseFloat selectedYear)) then false
  else if negb (String.eqb selectedWeatherType "all")
          && negb (match Csv.Weather_Event (fields item) with
                   | Some w => String.eqb w selectedWeatherType
                   | None => false
                   end) then false
  else true.

Definition filteredData (weatherData : list Event)
  (selectedYear selectedWeatherType : string) : list Event :=
  filter (passesFilter selectedYear selectedWeatherType) weatherData.

(** An entry of an aggregate view; [percentage] is absent from the
    entries of the installation view. *)
Record Bucket := {
  name : string;
  value : float;
  percentage : option float
}.

Definition costByWeatherType (filteredData : list Event) : list Bucket :=
  map (fun g : string * list Event =>
         let (key, items) := g in
         {| name := key;
            value := sumBy Cost items;
            percentage :=
              Some (Math_round (sumBy Cost items / sumBy Cost filteredData * 100)%float) |})
      (groupBy (fun e => toStr (Csv.Weather_Event (fields e))) filteredData).

(** The iteratee of [groupBy('Installation')]: the property, as a key. *)
Definition byInstallation (e : Event) : string := toStr (Csv.Installation (fields e)).

(** The groups of the installation view before they are ordered. *)
Definition installationGroups (filteredData : list Event) : list Bucket :=
  map (fun g : string * list Event =>
         let (key, items) := g in
         {| name := key; value := sumBy Cost items; percentage := None |})
      (groupBy byInstallation filteredData).

Definition costByInstallation (filteredData : list Event) : list Bucket :=
  slice0 10 (orderBy value true (installationGroups filteredData)).

Definition totalCost (filteredData : list Event) : float := sumBy Cost filteredData.

Definition avgCostPerEvent (filteredData : list Event) : float :=
  (totalCost filteredData / ofZ (Z.of_nat (List.length filteredData)))%float.

Definition eventsCount (filteredData : list Event) : nat := List.length filteredData.

End Prototype.

(* ===================================================================== *)
(** * The filter condition in the words of the specification              *)
(* ===================================================================== *)

Module FilterSpec.
Import JS Classifier.

(** The condition of the specification on one event, for the primary
    variant: both selectors are satisfied, the category selector by the
    derived category. *)
Definition selectedByCategory (selectedYear selectedWeatherType : string)
  (item : Dashboard.Event) : bool :=
  (String.eqb selectedYear "all"
   || strictEq (Dashboard.Year item) (parseFloat selectedYear))
  && (String.eqb selectedWeatherType "all"
      || String.eqb (normalizeWeatherType (Csv.Weather_Event (Dashboard.fields item)))
                    selectedWeatherType).

(** The condition the earlier variant applies: the category selector is
    matched against the raw description. *)
Definition selectedByDescription (selectedYear selectedWeatherType : string)
  (item : Prototype.Event) : bool :=
  (String.eqb selectedYear "all"
   || strictEq (Prototype.Year item) (parseFloat selectedYear))
  && (String.eqb selectedWeatherType "all"
      || match Csv.Weather_Event (Prototype.fields item) with
         | Some w => String.eqb w selectedWeatherType
         | None => false
         end).

End FilterSpec.

(* ===================================================================== *)
(** * Calendar dates in the form MM/DD/YY                                 *)
(* ===================================================================== *)

Module Calendar.
Import JS.
Local Open Scope Z_scope.

(** A number from 0 to 99 as two decimal digits. *)
Definition twoDigits (n : Z) : string :=
  String (ascii_of_nat (Z.to_nat (48 + n / 10)))
         (String (ascii_of_nat (Z.to_nat (48 + n mod 10))) EmptyString).

(** The date field for month [m], day [d] and two-digit year [y]. *)
Definition mdy (m d y : Z) : string :=
  (twoDigits m ++ "/" ++ twoDigits d ++ "/" ++ twoDigits y)%string.

(** The number of days of month [m] (1 is January). *)
Definition monthLength (leap : bool) (m : Z) : Z :=
  if m =? 2 then (if leap then 29 else 28)
  else if (m =? 4) || (m =? 6) || (m =? 9) || (m =? 11) then 30
  else 31.

Definition daysInMonth (year m : Z) : Z := monthLength (InLeapYear year) m.

(** The [n] integers from [lo] on. *)
Fixpoint range (lo : Z) (n : nat) : list Z :=
  match n with
  | O => []
  | S n' => lo :: range (lo + 1) n'
  end.

(** Checks that are settled by evaluation on a finite range. *)

(** [parseInt] reads a two-digit field as its number, and the field has
    no separator in it. *)
Definition twoDigitsOk (n : Z) : bool :=
  PrimFloat.Leibniz.eqb (parseInt (Some (twoDigits n))) (ofZ n)
  && match twoDigits n with
     | String a (String b EmptyString) => negb (Ascii.eqb a "/") && negb (Ascii.eqb b "/")
     | _ => false
     end.

(** The sum [2000 + YY] is exact. *)
Definition centuryOk (y : Z) : bool :=
  PrimFloat.Leibniz.eqb (2000 + ofZ y)%float (ofZ (2000 + y)).

(** The difference [MM - 1] is exact. *)
Definition monthOk (m : Z) : bool :=
  PrimFloat.Leibniz.eqb (ofZ m - 1)%float (ofZ (m - 1)).

(** A small integer is a Number that is finite and is its own integer
    part. *)
Definition integerOk (n : Z) : bool :=
  is_finite (ofZ n) && (truncZ (ofZ n) =? n).

(** The time value of the start of a day is a Number that is its own
    integer part. *)
Definition dayOk (day : Z) : bool :=
  negb (PrimFloat.is_nan (ofZ (day * msPerDay)))
  && (truncZ (ofZ (day * msPerDay)) =? day * msPerDay).

End Calendar.

(* ===================================================================== *)
(** * Sample inputs                                                       *)
(* ===================================================================== *)

Module Samples.

Definition mkRow (event date year cost installation : option string) : Csv.Row :=
  {| Csv.Branch := None; Csv.Weather_Event := event; Csv.Named_Storm := None;
     Csv.Date_of_Weather_Event := date; Csv.Year := year; Csv.Cost := cost;
     Csv.Installation := installation; Csv.State := None |}.

(** The two rows of the end-to-end scenario of the specification. *)
Definition rowIan : Csv.Row :=
  mkRow (Some "Hurricane Ian") (Some "01/15/23") None (Some "1000") (Some "Fort Bragg").

Definition rowBadCost : Csv.Row :=
  mkRow (Some "Flood") (Some "02/01/23") None (Some "abc") (Some "Fort Hood").

(** A row with a cost and a date field that is not a date. *)
Definition rowBadDate : Csv.Row :=
  mkRow (Some "Flood") (Some "not a date") None (Some "1000") (Some "Fort Hood").


(** A row whose literal [Year] column disagrees with its date. *)
Definition rowYear1999 : Csv.Row :=
  mkRow (Some "Hurricane Ian") (Some "01/15/23") (Some "1999") (Some "1000")
        (Some "Fort Bragg").

(** A row of cost zero. *)
Definition rowZeroCost : Csv.Row :=
  mkRow (Some "Flood") (Some "02/01/23") (Some "2023") (Some "0") (Some "Fort Hood").

(** Two installations of equal cost; the second is named by a number. *)
Definition rowsTied : list Csv.Row :=
  [ mkRow (Some "Flood") (Some "02/01/23") (Some "2023") (Some "5") (Some "Fort Bragg");
    mkRow (Some "Flood") (Some "02/02/23") (Some "2023") (Some "5") (Some "7") ].

(** A host whose [Date.parse] rejects every string. *)
Definition hostRejects : string -> float := fun _ => nan.

(** The events of [rowsTied] in the earlier variant. *)
Definition eventsTied : list Prototype.Event :=
  Prototype.cleanedData hostRejects rowsTied.

(** An event of the earlier variant whose description is "Hurricane Ian". *)
Definition eventIan : list Prototype.Event :=
  Prototype.cleanedData hostRejects [rowIan].

(** The event of the primary variant for [rowIan]. *)
Definition eventIanPrimary : Dashboard.Event :=
  {| Dashboard.fields := rowIan;
     Dashboard.Cost := 1000;
     Dashboard.Year := 2023;
     Dashboard.date := 1673740800000;
     Dashboard.weatherEventFull := Some "Hurricane Ian" |}.

(** The two entries of the installation view of [eventsTied]. *)
Definition bucketSeven : Prototype.Bucket :=
  {| Prototype.name := "7"; Prototype.value := 5; Prototype.percentage := None |}.

Definition bucketBragg : Prototype.Bucket :=
  {| Prototype.name := "Fort Bragg"; Prototype.value := 5; Prototype.percentage := None |}.

(** A response that delivers a CSV text. *)
Definition okResponse (csvText : string) : Dashboard.Outcome Dashboard.Response :=
  Dashboard.Return
    {| Dashboard.ok := true; Dashboard.status := 200%N;
       Dashboard.text := Dashboard.Return csvText |}.

End Samples.

(* ===================================================================== *)
(** * More JavaScript and lodash operations                               *)
(* ===================================================================== *)

Module JSText.
Import JS.
Local Open Scope Z_scope.

(** The decimal digits of a non-negative integer. *)
Definition digitsOf (n : Z) : string := NilEmpty.string_of_uint (N.to_uint (Z.to_N n)).

Fixpoint zeros (n : nat) : string :=
  match n with
  | O => EmptyString
  | S n' => String "0" (zeros n')
  end.

(** The positive rational [num / den] times [10 ^ p], as a fraction. *)
Definition scaled (num den p : Z) : Z * Z :=
  if 0 <=? p then (num * 10 ^ p, den) else (num, den * 10 ^ (- p)).

(** For [num / den] below 1: the least [n] with [num / den < 10 ^ n],
    searched downwards from [n]. *)
Fixpoint magnitudeDown (fuel : nat) (num den n : Z) : Z :=
  match fuel with
  | O => n
  | S f => if num * 10 ^ (1 - n) <? den then magnitudeDown f num den (n - 1) else n
  end.

(** The least [n] with [num / den < 10 ^ n]. *)
Definition magnitude (num den : Z) : Z :=
  let q := num / den in
  if 1 <=? q then Z.of_nat (String.length (digitsOf q))
  else magnitudeDown 400 num den 0.

(** The integer [s] of [k] digits, with its exponent [n], such that
    [s * 10 ^ (n - k)] reads back as [x], if there is one: the neighbour
    of the exact value that is closer, the even one on a tie. *)
Definition candidate (x : float) (num den n k : Z) : option (Z * Z) :=
  let '(a, b) := scaled num den (k - n) in
  let lo := a / b in
  let hi := lo + 1 in
  let reads s := PrimFloat.Leibniz.eqb (ofDecimal false s (n - k)) x in
  let pick s := if s =? 10 ^ k then Some (10 ^ (k - 1), n + 1) else Some (s, n) in
  if a mod b =? 0 then (if reads lo then Some (lo, n) else None)
  else if reads lo && reads hi then
    (if 2 * (a mod b) <? b then Some (lo, n)
     else if b <? 2 * (a mod b) then pick hi
     else if Z.even lo then Some (lo, n) else pick hi)
  else if reads lo then Some (lo, n)
  else if reads hi then pick hi
  else None.

(** The shortest digit string that reads back as [x]: digits, exponent
    and number of digits. *)
Fixpoint shortest (fuel : nat) (x : float) (num den n k : Z) : Z * Z * Z :=
  match fuel with
  | O => (0, n, k)
  | S f =>
      match candidate x num den n k with
      | Some (s, n') => (s, n', k)
      | None => shortest f x num den n (k + 1)
      end
  end.

(** The layout of the digits: plain, with a decimal point, with leading
    zeros, or with an exponent. *)
Definition formatDigits (s n k : Z) : string :=
  let d := digitsOf s in
  if (k <=? n) && (n <=? 21) then d ++ zeros (Z.to_nat (n - k))
  else if (0 <? n) && (n <=? 21) then
    substring 0 (Z.to_nat n) d ++ "." ++ substring (Z.to_nat n) (Z.to_nat (k - n)) d
  else if (-6 <? n) && (n <=? 0) then "0." ++ zeros (Z.to_nat (- n)) ++ d
  else
    let e := n - 1 in
    let sign := if e <? 0 then "-" else "+" in
    let mant := if k =? 1 then d
                else substring 0 1 d ++ "." ++ substring 1 (Z.to_nat (k - 1)) d in
    mant ++ "e" ++ sign ++ digitsOf (Z.abs e).

(** [ToString] of a Number, as a property key and [toString()] give it. *)
Definition numberToString (x : float) : string :=
  match Prim2SF x with
  | S754_nan => "NaN"
  | S754_zero _ => "0"
  | S754_infinity s => if s then "-Infinity" else "Infinity"
  | S754_finite sg m e =>
      let num := if 0 <=? e then Zpos m * 2 ^ e else Zpos m in
      let den := if 0 <=? e then 1 else 2 ^ (- e) in
      let n := magnitude num den in
      let '(s, n', k) := shortest 17 (abs x) num den n 1 in
      (if sg then "-" else "") ++ formatDigits s n' k
  end.

(** The comparison of two strings by their code units, as the relational
    operators and the default order of [Array.prototype.sort] make it. *)
Definition compareStrings (x y : string) : Z :=
  match String.compare x y with
  | Lt => -1
  | Eq => 0
  | Gt => 1
  end.

(** A string that does not end with white space. *)
Fixpoint endsClean (s : string) : bool :=
  match s with
  | EmptyString => true
  | String c EmptyString => negb (isWhiteSpace c)
  | String _ s' => endsClean s'
  end.

(** [Array.prototype.includes] on an array of strings. *)
Definition includesString (l : list string) (x : string) : bool :=
  existsb (String.eqb x) l.

(** [compareAscending] on two strings. *)
Definition compareAscendingStrings (value other : string) : Z :=
  if negb (String.eqb value other) then
    if compareStrings value other =? 1 then 1
    else if compareStrings value other =? -1 then -1
    else 0
  else 0.

(** [compareMultiple] with one string criterion and no order given: the
    order is ascending; the last resort is the difference of the
    positions. *)
Definition compareNames {A : Type} (object other : Z * (string * A)) : Z :=
  let result := compareAscendingStrings (fst (snd object)) (fst (snd other)) in
  if negb (result =? 0) then result else fst object - fst other.

(** [_.sortBy(collection, iteratee)] with a string criterion. *)
Definition sortByString {A : Type} (iteratee : A -> string) (l : list A) : list A :=
  map (fun o => snd (snd o))
      (sort compareNames (indexedFrom 0 (map (fun x => (iteratee x, x)) l))).

End JSText.

(* ===================================================================== *)
(** * The scenario selection and its handlers                             *)
(* ===================================================================== *)

Module Selection.
Import JS JSText Scenarios.

(** The new selection of [handleScenarioChange]: a selected id is
    removed, another id is appended. *)
Definition toggle (selectedScenarios : list string) (scenarioId : string) : list string :=
  if includesString selectedScenarios scenarioId
  then filter (fun id => negb (String.eqb id scenarioId)) selectedScenarios
  else (selectedScenarios ++ [scenarioId])%list.

(** The two pieces of state of the scenario tab. *)
Record State := {
  selectedScenarios : list string;
  scenarioResults : ScenarioResult
}.

Definition initialState : State :=
  {| selectedScenarios := []; scenarioResults := initialScenarioResults |}.

(** [runScenario] and [applyOptimalScenario]; the two variants agree. *)
Definition runScenario (st : State) : State :=
  {| selectedScenarios := selectedScenarios st;
     scenarioResults := calculateScenarioImpact (selectedScenarios st) |}.

Definition applyOptimalScenario (st : State) : State :=
  {| selectedScenarios := map id scenarios;
     scenarioResults := calculateScenarioImpact (map id scenarios) |}.

(** [handleScenarioChange] of the primary variant: the results follow the
    new selection at once. *)
Definition handleScenarioChange (st : State) (scenarioId : string) : State :=
  let newSelection := toggle (selectedScenarios st) scenarioId in
  {| selectedScenarios := newSelection;
     scenarioResults := calculateScenarioImpact newSelection |}.

(** [handleScenarioChange] of the earlier variant: only the selection
    changes. *)
Definition handleScenarioChangeEarlier (st : State) (scenarioId : string) : State :=
  {| selectedScenarios := toggle (selectedScenarios st) scenarioId;
     scenarioResults := scenarioResults st |}.

(** All the lists over [alphabet] of length [n], and of length at most
    [n]. *)
Fixpoint listsOfLength (n : nat) (alphabet : list string) : list (list string) :=
  match n with
  | O => [[]]
  | S n' => flat_map (fun l => map (fun a => a :: l) alphabet) (listsOfLength n' alphabet)
  end.

Fixpoint listsUpTo (n : nat) (alphabet : list string) : list (list string) :=
  match n with
  | O => [[]]
  | S n' => (listsUpTo n' alphabet ++ listsOfLength n alphabet)%list
  end.

(** No string occurs twice. *)
Fixpoint distinct (l : list string) : bool :=
  match l with
  | [] => true
  | x :: l' => negb (includesString l' x) && distinct l'
  end.

(** For a selection that is not empty and names no scenario twice: the
    results are Numbers, the savings lie between 20% and 40% of the
    baseline and do not exceed those of scenario 2 alone, and the
    implementation cost is the exact sum, at most 8000000. *)
Definition resultsInRange (selected : list string) : bool :=
  let r := calculateScenarioImpact selected in
  implb (distinct selected && negb (Nat.eqb (List.length selected) 0))
        (negb (isNaN (withMitigation r)) && negb (isNaN (savings r))
         && (4900000 <=? savings r)%float && (savings r <=? 9800000)%float
         && (14700000 <=? withMitigation r)%float
         && (withMitigation r <=? 19600000)%float
         && (savings r <=? savings (calculateScenarioImpact ["scenario2"]))%float
         && match resultCost r with
            | Some c => (1000000 <=? c)%float && (c <=? 8000000)%float
            | None => false
            end).

End Selection.

(* ===================================================================== *)
(** * The remaining views                                                 *)
(* ===================================================================== *)

(** The yearly trend; its text is the same in the two variants. *)
Module Trend.
Import JS JSText Lodash.

Record Entry := {
  name : string;
  value : float;
  count : nat
}.

Section View.
Context {E : Type} (Year Cost : E -> float).

(** The iteratee of [groupBy(item => item.Year)]: the year, as a key. *)
Definition byYear (item : E) : string := numberToString (Year item).

(** The groups of the trend view before they are sorted. *)
Definition trendGroups (filteredData : list E) : list Entry :=
  map (fun g : string * list E =>
         let (year, items) := g in
         {| name := year; value := sumBy Cost items; count := List.length items |})
      (groupBy byYear filteredData).

Definition costTrend (filteredData : list E) : list Entry :=
  sortByString name (trendGroups filteredData).

End View.

(** The year named by the insight of the primary variant: the entry that
    [reduce] keeps, a later entry replacing it only when its count is
    greater; [undefined] for an empty trend. *)
Definition busiest (costTrend : list Entry) : option Entry :=
  match costTrend with
  | [] => None
  | first :: _ =>
      Some (fold_left (fun max current =>
                         if Nat.ltb (count max) (count current) then current else max)
                      costTrend first)
  end.

Definition busiestYear (costTrend : list Entry) : option string :=
  option_map name (busiest costTrend).

End Trend.

Module DashboardViews.
Import JS JSText Lodash Classifier.

(** The iteratee of the category view: the derived category. *)
Definition byCategory (item : Dashboard.Event) : string :=
  normalizeWeatherType (Csv.Weather_Event (Dashboard.fields item)).

(** The groups of [typeData] before they are ordered. *)
Definition typeGroups (filteredData : list Dashboard.Event) : list Prototype.Bucket :=
  map (fun g : string * list Dashboard.Event =>
         let (key, items) := g in
         {| Prototype.name := key;
            Prototype.value := sumBy Dashboard.Cost items;
            Prototype.percentage :=
              Some (Math_round (sumBy Dashboard.Cost items
                                / sumBy Dashboard.Cost filteredData * 100)%float) |})
      (groupBy byCategory filteredData).

(** [typeData], the value given to [costByWeatherType]. *)
Definition typeData (filteredData : list Dashboard.Event) : list Prototype.Bucket :=
  orderBy Prototype.value true (typeGroups filteredData).

(** [trendData], the value given to [costTrend]. *)
Definition trendData (filteredData : list Dashboard.Event) : list Trend.Entry :=
  Trend.costTrend Dashboard.Year Dashboard.Cost filteredData.

(** The options of the type menu. *)
Definition weatherTypes (weatherData : list Dashboard.Event) : list string :=
  sort compareStrings (uniq (map byCategory weatherData)).

End DashboardViews.

Module PrototypeViews.
Import JS JSText Lodash.

Definition costTrend (filteredData : list Prototype.Event) : list Trend.Entry :=
  Trend.costTrend Prototype.Year Prototype.Cost filteredData.

(** The bar chart of the event types: the category view ordered by cost,
    reduced to name and value. *)
Definition weatherEventsByCost (filteredData : list Prototype.Event)
  : list Prototype.Bucket :=
  map (fun item => {| Prototype.name := Prototype.name item;
                      Prototype.value := Prototype.value item;
                      Prototype.percentage := None |})
      (orderBy Prototype.value true (Prototype.costByWeatherType filteredData)).

(** The installation named by the recommendation, when there is one. *)
Definition recommended (filteredData : list Prototype.Event) : option string :=
  match Prototype.costByInstallation filteredData with
  | first :: _ => Some (Prototype.name first)
  | [] => None
  end.

(** ** Loading in the earlier variant *)

Record State := {
  weatherData : list Prototype.Event;
  loading : bool;
  error : option string
}.

Definition initialState : State :=
  {| weatherData := []; loading := true; error := None |}.

Section Loading.

Variable hostDateParse : string -> float.
Variable parse : string -> list Csv.Row.

(** The [complete] callback: it never throws. *)
Definition complete (data : list Csv.Row) (st : State) : State :=
  {| weatherData := Prototype.cleanedData hostDateParse data;
     loading := false;
     error := error st |}.

(** [fetchData]: the status of the response is not looked at. *)
Definition fetchData (fetched : Dashboard.Outcome Dashboard.Response) (st : State) : State :=
  match Dashboard.bind fetched (fun response => Dashboard.text response) with
  | Dashboard.Return csvText => complete (parse csvText) st
  | Dashboard.Throw message =>
      {| weatherData := weatherData st;
         loading := false;
         error := Some ("Error fetching data: " ++ message) |}
  end.

End Loading.

End PrototypeViews.

(** The bar chart of the events in the primary variant. *)
Module EventChart.
Import JS JSText Lodash Classifier.

(** An entry of the bar chart of the events. *)
Record Entry := {
  name : string;
  value : float;
  normalizedType : string
}.

(** The iteratee of [groupBy(item => item.weatherEventFull)]: the full
    name, as a key. *)
Definition byFullName (item : Dashboard.Event) : string :=
  toStr (Dashboard.weatherEventFull item).

(** The groups of [eventsByCost] before they are ordered.  A group of
    [groupBy] is never empty, so [items[0]] is an event. *)
Definition eventGroups (filteredData : list Dashboard.Event) : list Entry :=
  map (fun g : string * list Dashboard.Event =>
         let (key, items) := g in
         {| name := key;
            value := sumBy Dashboard.Cost items;
            normalizedType :=
              normalizeWeatherType
                (match items with
                 | first :: _ => Csv.Weather_Event (Dashboard.fields first)
                 | [] => None
                 end) |})
      (groupBy byFullName filteredData).

(** [eventsByCost], the value given to [weatherEventsByCost]. *)
Definition eventsByCost (filteredData : list Dashboard.Event) : list Entry :=
  orderBy value true (eventGroups filteredData).

End EventChart.

(** The year menu of the earlier variant. *)
Module YearMenu.
Import JS JSText.

(** The value of the menu entry of a year: React writes the Number into
    the attribute as a string, and the change handler reads it back. *)
Definition optionValue (year : float) : string := numberToString year.

(** The entry of an integer year is read back by [parseFloat] as that
    year, it is not the entry "all", and the year is equal to itself. *)
Definition yearOk (y : Z) : bool :=
  PrimFloat.Leibniz.eqb (parseFloat (optionValue (ofZ y))) (ofZ y)
  && negb (String.eqb (optionValue (ofZ y)) "all")
  && strictEq (ofZ y) (ofZ y).

End YearMenu.

(* ===================================================================== *)
(** * The embedded operations on known values                             *)
(* ===================================================================== *)

Section KnownValues.
Import JS Lodash Samples.

Example parseFloat_known :
  parseFloat "1000" = 1000%float /\
  parseFloat "0.1" = 0.1%float /\
  parseFloat "  -3.5e2 USD" = (-350)%float /\
  parseFloat "12abc" = 12%float /\
  parseFloat ".5" = 0.5%float /\
  parseFloat "1.7976931348623157e308" = 1.7976931348623157e308%float /\
  parseFloat "5e-324" = 5e-324%float /\
  parseFloat "9007199254740993" = 9007199254740992%float /\
  parseFloat "Infinity" = infinity /\
  isNaN (parseFloat "abc") = true /\
  isNaN (parseFloat "") = true /\
  isNaN (parseFloat ".") = true /\
  isNaN (parseFloat "undefined") = true.
Proof. repeat split; vm_compute; reflexivity. Qed.

Example parseInt_known :
  parseInt (Some "23") = 23%float /\
  parseInt (Some " 015") = 15%float /\
  parseInt (Some "0x1F") = 31%float /\
  parseInt (Some "12.7") = 12%float /\
  isNaN (parseInt (Some "")) = true /\
  isNaN (parseInt None) = true.
Proof. repeat split; vm_compute; reflexivity. Qed.

Example Math_round_known :
  Math_round 2.5 = 3%float /\
  Math_round (-2.5) = (-2)%float /\
  Math_round 0.49999999999999994 = 0%float /\
  Math_round 33.3333 = 33%float /\
  Math_round 100 = 100%float /\
  isNaN (Math_round nan) = true /\
  Math_round infinity = infinity.
Proof. repeat split; vm_compute; reflexivity. Qed.

Example Date_known :
  Date_ymd 1970 0 1 = 0%float /\
  Date_ymd 2023 0 15 = 1673740800000%float /\
  getFullYear (Date_ymd 2023 0 15) = 2023%float /\
  getFullYear (Date_ymd 2023 11 31) = 2023%float /\
  getFullYear (Date_ymd 2023 12 1) = 2024%float /\
  getFullYear (Date_ymd 2024 1 29) = 2024%float /\
  getFullYear (Date_ymd 99 0 1) = 1999%float /\
  isNaN (getFullYear (Date_ymd nan 0 1)) = true /\
  isNaN (Date_ymd 275760 8 14) = true /\
  getFullYear (Dashboard.parseDate "01/15/23") = 2023%float /\
  isNaN (getFullYear (Dashboard.parseDate "not a date")) = true.
Proof. repeat split; vm_compute; reflexivity. Qed.

Example split_known :
  split "/" "01/15/23" = ["01"; "15"; "23"] /\
  split "/" "" = [""] /\
  split "/" "a//b/" = ["a"; ""; "b"; ""].
Proof. repeat split. Qed.

Example arrayIndex_known :
  arrayIndex "7" = Some 7%Z /\
  arrayIndex "0" = Some 0%Z /\
  arrayIndex "07" = None /\
  arrayIndex "4294967295" = None /\
  arrayIndex "Fort Bragg" = None /\
  arrayIndex "" = None.
Proof. repeat split. Qed.

(** The end-to-end scenario of the specification, as far as ingestion and
    classification: of the two rows only the first becomes an event, with
    cost 1000, year 2023 and category Hurricane/Tropical Storm. *)
Example ingestion_end_to_end :
  map (fun e => (Dashboard.Cost e, Dashboard.Year e,
                 Classifier.normalizeWeatherType (Csv.Weather_Event (Dashboard.fields e))))
      (Dashboard.cleanedData [rowIan; rowBadCost])
  = [(1000%float, 2023%float, "Hurricane/Tropical Storm")].
Proof. vm_compute. reflexivity. Qed.

End KnownValues.

(* ===================================================================== *)
(** * Properties of the classifier                                        *)
(* ===================================================================== *)

Section ClassifierFacts.
Import JS Classifier.

Lemma lowerChar_idem (c : ascii) : lowerChar (lowerChar c) = lowerChar c.
Proof.
  destruct c as [[] [] [] [] [] [] [] []]; reflexivity.
Qed.

Lemma lowerChar_white (c : ascii) : isWhiteSpace (lowerChar c) = isWhiteSpace c.
Proof.
  destruct c as [[] [] [] [] [] [] [] []]; reflexivity.
Qed.

Lemma lowerChar_of_white (c : ascii) : isWhiteSpace c = true -> lowerChar c = c.
Proof.
  destruct c as [[] [] [] [] [] [] [] []]; simpl; intro H; try reflexivity; discriminate H.
Qed.

Lemma toLowerCase_idem (s : string) : toLowerCase (toLowerCase s) = toLowerCase s.
Proof.
  induction s as [|c s IH]; simpl; [reflexivity|].
  now rewrite lowerChar_idem, IH.
Qed.

Lemma toLowerCase_trimStart (s : string) :
  toLowerCase (trimStart s) = trimStart (toLowerCase s).
Proof.
  induction s as [|c s IH]; simpl; [reflexivity|].
  rewrite lowerChar_white. destruct (isWhiteSpace c); [exact IH | reflexivity].
Qed.

Lemma toLowerCase_trimEnd (s : string) :
  toLowerCase (trimEnd s) = trimEnd (toLowerCase s).
Proof.
  induction s as [|c s IH]; simpl; [reflexivity|].
  rewrite <- IH, lowerChar_white.
  destruct (trimEnd s); simpl; [destruct (isWhiteSpace c)|]; reflexivity.
Qed.

Lemma toLowerCase_trim (s : string) : toLowerCase (trim s) = trim (toLowerCase s).
Proof.
  unfold trim. now rewrite toLowerCase_trimEnd, toLowerCase_trimStart.
Qed.

Lemma trimStart_clean (s : string) : startsClean (trimStart s) = true.
Proof.
  induction s as [|c s IH]; simpl; [reflexivity|].
  destruct (isWhiteSpace c) eqn:E; [exact IH | simpl; now rewrite E].
Qed.

Lemma trimStart_of_clean (s : string) : startsClean s = true -> trimStart s = s.
Proof.
  destruct s as [|c s]; simpl; [reflexivity|].
  now destruct (isWhiteSpace c).
Qed.

Lemma trimEnd_clean (s : string) : startsClean s = true -> startsClean (trimEnd s) = true.
Proof.
  destruct s as [|c s]; simpl; [reflexivity|].
  intro H. destruct (trimEnd s); simpl; [|exact H].
  destruct (isWhiteSpace c) eqn:W; [reflexivity | simpl; now rewrite W].
Qed.

Lemma trimEnd_idem (s : string) : trimEnd (trimEnd s) = trimEnd s.
Proof.
  induction s as [|c s IH]; simpl; [reflexivity|].
  destruct (trimEnd s) as [|d t] eqn:E.
  - destruct (isWhiteSpace c) eqn:W; simpl; [reflexivity | now rewrite W].
  - simpl in *. now rewrite IH.
Qed.

Lemma trim_idem (s : string) : trim (trim s) = trim s.
Proof.
  unfold trim.
  rewrite (trimStart_of_clean (trimEnd (trimStart s))).
  - apply trimEnd_idem.
  - apply trimEnd_clean, trimStart_clean.
Qed.

Lemma normalizeWeatherType_refines (d : option string) :
  normalizeWeatherType d = classify_spec d.
Proof.
  destruct d as [[|c s]|]; try reflexivity.
  unfold normalizeWeatherType, classify_spec.
  change (truthy (Some (String c s))) with true.
  cbv [toStr negb firstMatch rules existsb].
  generalize (trim (toLowerCase (String c s))) as text. intro text.
  repeat match goal with
         | |- context [includes text ?k] =>
             destruct (includes text k); simpl; try reflexivity
         end.
Qed.

Lemma normalizeWeatherType_blank (s : string) :
  trim (toLowerCase s) = "" -> normalizeWeatherType (Some s) = "Other".
Proof.
  intro H. unfold normalizeWeatherType. simpl toStr. rewrite H.
  destruct (negb (truthy (Some s))); reflexivity.
Qed.

(** C5: [normalizeWeatherType] is the first-match evaluation of the
    ordered rule list of section 4.2 on the lower-cased, trimmed
    description; the category does not change when the description is
    lower-cased or trimmed beforehand; and "Tropical Storm with high wind",
    which also contains the Severe Storm keyword "storm", is classified by
    the earlier rule as Hurricane/Tropical Storm. *)
Theorem classifier_first_match_wins :
  (forall d, normalizeWeatherType d = classify_spec d) /\
  (forall s, normalizeWeatherType (Some (toLowerCase s)) = normalizeWeatherType (Some s)) /\
  (forall s, normalizeWeatherType (Some (trim s)) = normalizeWeatherType (Some s)) /\
  normalizeWeatherType (Some "Tropical Storm with high wind") = "Hurricane/Tropical Storm" /\
  includes (trim (toLowerCase "Tropical Storm with high wind")) "storm" = true /\
  normalizeWeatherType (Some "Tropical Storm with high wind") <> "Severe Storm".
Proof.
  split; [exact normalizeWeatherType_refines|].
  split.
  { intro s. unfold normalizeWeatherType. simpl toStr.
    rewrite toLowerCase_idem. destruct s; reflexivity. }
  split.
  { intro s. destruct (trim s) as [|c t] eqn:E.
    - symmetry. apply normalizeWeatherType_blank.
      now rewrite <- toLowerCase_trim, E.
    - rewrite <- E. unfold normalizeWeatherType. simpl toStr.
      rewrite toLowerCase_trim, trim_idem.
      assert (Hs : truthy (Some s) = true) by (destruct s; [discriminate E | reflexivity]).
      assert (Ht : truthy (Some (trim s)) = true) by (rewrite E; reflexivity).
      now rewrite Hs, Ht. }
  split; [reflexivity|].
  split; [reflexivity|].
  intro H. vm_compute in H. discriminate H.
Qed.

(** C6: [normalizeWeatherType] is a function defined on every description,
    present or absent; its value is always one of the ten category names,
    which are pairwise different; equal inputs give equal categories; an
    absent or empty description gives Other; and the misspelt
    "TORANDO warning" gives Tornado. *)
Theorem classifier_total_deterministic :
  (forall d, In (normalizeWeatherType d) categories) /\
  List.length categories = 10%nat /\
  NoDup categories /\
  (forall d1 d2, d1 = d2 -> normalizeWeatherType d1 = normalizeWeatherType d2) /\
  normalizeWeatherType None = "Other" /\
  normalizeWeatherType (Some "") = "Other" /\
  normalizeWeatherType (Some "TORANDO warning") = "Tornado".
Proof.
  split.
  { intro d. unfold normalizeWeatherType.
    repeat match goal with
           | |- context [if ?c then _ else _] => destruct c
           end; simpl; tauto. }
  split; [reflexivity|].
  split.
  { unfold categories.
    repeat (constructor; [simpl; intuition discriminate|]). constructor. }
  split; [intros d1 d2 ->; reflexivity|].
  repeat split.
Qed.

Lemma classifier_total_deterministic_witness :
  normalizeWeatherType (Some "Hail storm") = normalizeWeatherType (Some "Hail storm").
Proof.
  apply (proj1 (proj2 (proj2 (proj2 classifier_total_deterministic)))).
  reflexivity.
Defined.

End ClassifierFacts.

(* ===================================================================== *)
(** * Properties of the scenario calculator                               *)
(* ===================================================================== *)

Section ScenarioFacts.
Import JS Scenarios.

(** Two Numbers that [===] tells apart are different values. *)
Lemma strictEq_false_neq (x y : float) : strictEq x y = false -> is_nan x = false -> x <> y.
Proof.
  intros H Hn E. subst y. unfold is_nan in Hn. unfold strictEq in H.
  rewrite H in Hn. discriminate Hn.
Qed.

(** C1: for the empty selection [calculateScenarioImpact] divides 0 by 0:
    [withMitigation] and [savings] are both NaN, although the initial
    state of [scenarioResults], which stands for the same empty selection,
    holds the baseline 24500000 and savings 0. *)
Theorem scenario_empty_selection_nan :
  isNaN (withMitigation (calculateScenarioImpact [])) = true /\
  isNaN (savings (calculateScenarioImpact [])) = true /\
  currentProjection (calculateScenarioImpact []) = 24500000%float /\
  withMitigation initialScenarioResults = 24500000%float /\
  savings initialScenarioResults = 0%float.
Proof.
  repeat split; vm_compute; reflexivity.
Qed.

Lemma totalReduction_snoc (selected : list string) (scenarioId : string) :
  totalReduction (selected ++ [scenarioId]) =
  match find (fun s => String.eqb (id s) scenarioId) scenarios with
  | Some scenario => (totalReduction selected + reduction scenario)%float
  | None => totalReduction selected
  end.
Proof.
  unfold totalReduction, totals. rewrite fold_left_app. cbn [fold_left].
  generalize (fold_left accumulate selected (0%float, 0%float)) as acc. intro acc.
  unfold accumulate.
  destruct (find (fun s => String.eqb (id s) scenarioId) scenarios); reflexivity.
Qed.

(** C9, the claim as stated fails: with scenarios 1 and 2 selected the
    mitigated cost is not 16537500 and the savings are not 7962500. *)
Lemma scenario_two_selected_not_exact :
  withMitigation (calculateScenarioImpact ["scenario1"; "scenario2"]) <> 16537500%float /\
  savings (calculateScenarioImpact ["scenario1"; "scenario2"]) <> 7962500%float.
Proof.
  split; apply strictEq_false_neq; vm_compute; reflexivity.
Qed.

(** C9, amended: the reductions of the selected scenarios are added one
    after the other, starting from 0, with no compounding and no cap (all
    four together exceed 1); with the reductions 0.25 and 0.40 selected
    the total is the binary64 value of 0.65, and in binary64 arithmetic
    the mitigated cost is 16537500.000000002 and the savings are
    7962499.9999999981, each 2^-29 away from the exact 16537500 and
    7962500. *)
Theorem scenario_additive_two_selected :
  (forall selected scenarioId,
      totalReduction (selected ++ [scenarioId]) =
      match find (fun s => String.eqb (id s) scenarioId) scenarios with
      | Some scenario => (totalReduction selected + reduction scenario)%float
      | None => totalReduction selected
      end) /\
  totalReduction [] = 0%float /\
  (1 <? totalReduction ["scenario1"; "scenario2"; "scenario3"; "scenario4"])%float = true /\
  totalReduction ["scenario1"; "scenario2"] = 0.65%float /\
  withMitigation (calculateScenarioImpact ["scenario1"; "scenario2"])
    = 16537500.000000002%float /\
  savings (calculateScenarioImpact ["scenario1"; "scenario2"])
    = 7962499.9999999981%float /\
  (withMitigation (calculateScenarioImpact ["scenario1"; "scenario2"]) - 16537500
    = 0x1p-29)%float /\
  (7962500 - savings (calculateScenarioImpact ["scenario1"; "scenario2"])
    = 0x1p-29)%float.
Proof.
  split; [exact totalReduction_snoc|].
  repeat split; vm_compute; reflexivity.
Qed.

End ScenarioFacts.

(* ===================================================================== *)
(** * Properties of the key metrics and of the category view              *)
(* ===================================================================== *)

Section DegenerateAggregation.
Import JS Lodash Prototype Samples.

(** C2: the guard the claim asks for is missing.  For the empty filtered
    set the average cost per event is 0 / 0, which is NaN (the category
    view is then empty, so it holds no percentage); and for a filtered set
    whose costs sum to zero, such as the one row of cost 0, the
    percentage of its category is NaN as well. *)
Theorem degenerate_aggregation_nan :
  isNaN (avgCostPerEvent []) = true /\
  costByWeatherType [] = [] /\
  filteredData (cleanedData hostRejects [rowZeroCost]) "all" "all"
    = cleanedData hostRejects [rowZeroCost] /\
  map (fun b => option_map isNaN (percentage b))
      (costByWeatherType (cleanedData hostRejects [rowZeroCost])) = [Some true] /\
  isNaN (avgCostPerEvent (filteredData (cleanedData hostRejects [rowZeroCost]) "1999" "all"))
    = true.
Proof.
  repeat split; vm_compute; reflexivity.
Qed.

End DegenerateAggregation.

(* ===================================================================== *)
(** * Properties of the filter stage                                      *)
(* ===================================================================== *)

Section FilterFacts.
Import JS Classifier Samples FilterSpec.

Lemma Dashboard_passesFilter_spec y t item :
  Dashboard.passesFilter y t item = selectedByCategory y t item.
Proof.
  unfold Dashboard.passesFilter, selectedByCategory.
  destruct (String.eqb y "all"), (strictEq _ _), (String.eqb t "all"), (String.eqb _ t);
    reflexivity.
Qed.

Lemma Prototype_passesFilter_spec y t item :
  Prototype.passesFilter y t item = selectedByDescription y t item.
Proof.
  unfold Prototype.passesFilter, selectedByDescription.
  destruct (String.eqb y "all"), (strictEq _ _), (String.eqb t "all"),
    (Csv.Weather_Event (Prototype.fields item)) as [w|];
    try destruct (String.eqb w t); reflexivity.
Qed.

(** C8, the claim as stated fails for the earlier variant: its filter
    compares the selector with the raw description.  The selector
    "Hurricane Ian", which its menu offers, retains the event although the
    derived category of the event is not "Hurricane Ian"; and the derived
    category as selector retains nothing. *)
Lemma filter_prototype_matches_description :
  map Prototype.fields (Prototype.filteredData eventIan "all" "Hurricane Ian") = [rowIan] /\
  normalizeWeatherType (Csv.Weather_Event rowIan) = "Hurricane/Tropical Storm" /\
  Prototype.filteredData eventIan "all" "Hurricane/Tropical Storm" = [].
Proof.
  repeat split; vm_compute; reflexivity.
Qed.

(** C8, amended: in both variants the filter is a pure function that
    builds a new sequence, decides each event on its own and keeps the
    retained events in input order; an event is retained exactly when the
    year selector is "all" or [===] its year, and the category selector is
    "all" or equal, in the primary variant, to the category derived by
    [normalizeWeatherType] and, in the earlier variant, to the raw
    description. *)
Theorem filter_retains_exactly :
  (forall y t l1 e l2,
      Dashboard.filteredData (l1 ++ e :: l2) y t
      = (Dashboard.filteredData l1 y t
         ++ (if selectedByCategory y t e then [e] else [])
         ++ Dashboard.filteredData l2 y t)%list) /\
  (forall y t, Dashboard.filteredData [] y t = []) /\
  (forall y t data e,
      In e (Dashboard.filteredData data y t) <->
      In e data /\
      (y = "all" \/ strictEq (Dashboard.Year e) (parseFloat y) = true) /\
      (t = "all" \/
       normalizeWeatherType (Csv.Weather_Event (Dashboard.fields e)) = t)) /\
  (forall y t l1 e l2,
      Prototype.filteredData (l1 ++ e :: l2) y t
      = (Prototype.filteredData l1 y t
         ++ (if selectedByDescription y t e then [e] else [])
         ++ Prototype.filteredData l2 y t)%list) /\
  (forall y t, Prototype.filteredData [] y t = []) /\
  (forall y t data e,
      In e (Prototype.filteredData data y t) <->
      In e data /\
      (y = "all" \/ strictEq (Prototype.Year e) (parseFloat y) = true) /\
      (t = "all" \/ Csv.Weather_Event (Prototype.fields e) = Some t)).
Proof.
  split.
  { intros y t l1 e l2. unfold Dashboard.filteredData.
    rewrite filter_app. simpl. rewrite Dashboard_passesFilter_spec.
    destruct (selectedByCategory y t e); reflexivity. }
  split; [reflexivity|].
  split.
  { intros y t data e. unfold Dashboard.filteredData.
    rewrite filter_In, Dashboard_passesFilter_spec. unfold selectedByCategory.
    rewrite andb_true_iff, !orb_true_iff, !String.eqb_eq. reflexivity. }
  split.
  { intros y t l1 e l2. unfold Prototype.filteredData.
    rewrite filter_app. simpl. rewrite Prototype_passesFilter_spec.
    destruct (selectedByDescription y t e); reflexivity. }
  split; [reflexivity|].
  intros y t data e. unfold Prototype.filteredData.
  rewrite filter_In, Prototype_passesFilter_spec. unfold selectedByDescription.
  destruct (Csv.Weather_Event (Prototype.fields e)) as [w|];
    rewrite andb_true_iff, !orb_true_iff, !String.eqb_eq;
    intuition congruence.
Qed.

Lemma filter_retains_exactly_witness :
  In eventIanPrimary
     (Dashboard.filteredData (Dashboard.cleanedData [rowIan]) "2023"
                             "Hurricane/Tropical Storm").
Proof.
  apply (proj2 (proj1 (proj2 (proj2 filter_retains_exactly)) _ _ _ eventIanPrimary)).
  split; [left; vm_compute; reflexivity|].
  split; right; vm_compute; reflexivity.
Defined.

End FilterFacts.

(* ===================================================================== *)
(** * Properties of loading                                               *)
(* ===================================================================== *)

Section LoadingFacts.
Import JS Samples Dashboard.

Lemma fetchData_cases parse fetched :
  let st := fetchData parse fetched initialState in
  (exists message, st = {| weatherData := []; loading := false;
                           error := Some ("Error fetching data: " ++ message) |})
  \/ (exists csvText, cleanedData (parse csvText) <> []
                      /\ st = {| weatherData := cleanedData (parse csvText);
                                 loading := false; error := None |}).
Proof.
  unfold fetchData, tryFetch, complete, bind.
  destruct fetched as [response|m]; simpl; [|left; now exists m].
  destruct (ok response); simpl; [|left; eexists; reflexivity].
  destruct (text response) as [csvText|m]; [|left; now exists m].
  destruct (cleanedData (parse csvText)) as [|e l] eqn:E; simpl.
  - left. eexists. reflexivity.
  - right. exists csvText. rewrite E. split; [discriminate | reflexivity].
Qed.

(** C10: in the primary variant, when the response is delivered and every
    parsed row fails the row-level filter, [complete] throws 'No valid
    data after cleaning', the [catch] of [fetchData] stores the message
    and ends loading, and the component renders the error; and whatever
    [fetch] and the parser deliver, a session that gets past loading to
    the dashboard holds a non-empty event set. *)
Theorem empty_cleaned_set_is_fatal :
  forall (parse : string -> list Csv.Row) (fetched : Outcome Response),
    let st := fetchData parse fetched initialState in
    (forall response csvText,
        fetched = Return response -> ok response = true ->
        text response = Return csvText ->
        cleanedData (parse csvText) = [] ->
        complete (parse csvText) initialState = Throw "No valid data after cleaning" /\
        st = {| weatherData := []; loading := false;
                error := Some "Error fetching data: No valid data after cleaning" |} /\
        render st = ErrorView "Error fetching data: No valid data after cleaning") /\
    (forall data, render st = DashboardView data -> data <> []) /\
    render st <> LoadingView.
Proof.
  intros parse fetched st. split; [|split].
  - intros response csvText -> Hok Htext Hempty. subst st.
    unfold fetchData, tryFetch, complete, bind. rewrite Hok, Htext, Hempty. simpl.
    repeat split.
  - intros data Hr.
    destruct (fetchData_cases parse fetched) as [(m & E)|(csvText & Hne & E)];
      fold st in E; rewrite E in Hr; unfold render in Hr; simpl in Hr.
    + discriminate Hr.
    + injection Hr as <-. exact Hne.
  - destruct (fetchData_cases parse fetched) as [(m & E)|(csvText & Hne & E)];
      fold st in E; rewrite E; unfold render; simpl; discriminate.
Qed.

Lemma empty_cleaned_set_is_fatal_witness :
  render (fetchData (fun _ => [rowBadCost]) (okResponse "csv") initialState)
  = ErrorView "Error fetching data: No valid data after cleaning".
Proof.
  refine (proj2 (proj2 (proj1 (empty_cleaned_set_is_fatal (fun _ => [rowBadCost])
                                 (okResponse "csv")) _ "csv" eq_refl eq_refl eq_refl _))).
  vm_compute. reflexivity.
Defined.

End LoadingFacts.

(* ===================================================================== *)
(** * The order of Numbers                                                *)
(* ===================================================================== *)

Section NumberOrder.
Import JS.

Lemma SFcompare_sym (x y : spec_float) :
  SFcompare y x = option_map CompOpp (SFcompare x y).
Proof.
  destruct x as [sx|sx| |sx mx ex], y as [sy|sy| |sy my ey]; simpl;
    try destruct sx; try destruct sy; try reflexivity;
    change (Pos.compare_cont Eq mx my) with (Pos.compare mx my);
    change (Pos.compare_cont Eq my mx) with (Pos.compare my mx);
    destruct (Z.compare_spec ex ey), (Z.compare_spec ey ex); try lia;
    destruct (Pos.compare_spec mx my), (Pos.compare_spec my mx); try lia;
    reflexivity.
Qed.

Lemma SFcompare_refl (x : spec_float) : x <> S754_nan -> SFcompare x x = Some Eq.
Proof.
  destruct x as [s|s| |s m e]; simpl; intro H; try congruence;
    try (destruct s; reflexivity).
  change (Pos.compare_cont Eq m m) with (Pos.compare m m).
  rewrite Z.compare_refl, Pos.compare_refl. destruct s; reflexivity.
Qed.

Lemma SFcompare_none (x y : spec_float) :
  SFcompare x y = None -> x = S754_nan \/ y = S754_nan.
Proof.
  destruct x as [sx|sx| |sx mx ex], y as [sy|sy| |sy my ey]; simpl;
    try destruct sx; try destruct sy; try discriminate; auto.
Qed.

Lemma SFcompare_trans (x y z : spec_float) (c1 c2 : comparison) :
  SFcompare x y = Some c1 -> SFcompare y z = Some c2 ->
  c1 <> Gt -> c2 <> Gt ->
  SFcompare x z = Some (thenCompare c1 c2).
Proof.
  destruct x as [sx|sx| |sx mx ex], y as [sy|sy| |sy my ey], z as [sz|sz| |sz mz ez];
    simpl; try discriminate;
    try destruct sx; try destruct sy; try destruct sz; simpl;
    repeat match goal with
           | |- context [Pos.compare_cont Eq ?a ?b] =>
               change (Pos.compare_cont Eq a b) with (Pos.compare a b)
           end;
    repeat match goal with
           | |- context [Z.compare ?a ?b] => destruct (Z.compare_spec a b)
           end;
    repeat match goal with
           | |- context [Pos.compare ?a ?b] => destruct (Pos.compare_spec a b)
           end;
    intros Hxy Hyz Nxy Nyz;
    try (injection Hxy as <-); try (injection Hyz as <-);
    simpl; try discriminate; try reflexivity; try congruence; try lia.
Qed.

Lemma is_nan_false_spec (x : float) : PrimFloat.is_nan x = false -> Prim2SF x <> S754_nan.
Proof.
  unfold PrimFloat.is_nan. rewrite eqb_spec. unfold SFeqb. intros H E.
  rewrite E in H. discriminate H.
Qed.

Lemma compareNumbers_some (x y : float) :
  PrimFloat.is_nan x = false -> PrimFloat.is_nan y = false ->
  exists c, compareNumbers x y = Some c.
Proof.
  intros Hx Hy. unfold compareNumbers.
  destruct (SFcompare (Prim2SF x) (Prim2SF y)) as [c|] eqn:E; [now exists c|].
  apply SFcompare_none in E as [E|E];
    [apply is_nan_false_spec in Hx | apply is_nan_false_spec in Hy]; contradiction.
Qed.

Lemma compareNumbers_sym (x y : float) :
  compareNumbers y x = option_map CompOpp (compareNumbers x y).
Proof. apply SFcompare_sym. Qed.

Lemma ltb_compare (x y : float) :
  (x <? y)%float = match compareNumbers x y with Some Lt => true | _ => false end.
Proof. rewrite ltb_spec. reflexivity. Qed.

Lemma leb_compare (x y : float) :
  (x <=? y)%float = match compareNumbers x y with Some (Lt | Eq) => true | _ => false end.
Proof. rewrite leb_spec. reflexivity. Qed.

Lemma strictEq_compare (x y : float) :
  strictEq x y = match compareNumbers x y with Some Eq => true | _ => false end.
Proof. unfold strictEq. rewrite eqb_spec. reflexivity. Qed.

End NumberOrder.

(* ===================================================================== *)
(** * Properties of sorting                                               *)
(* ===================================================================== *)

Section SortFacts.
Import JS.

Context {T : Type} (cmp : T -> T -> Z) (P : T -> Prop).

Hypothesis cmp_total : forall x y, P x -> P y -> (0 < cmp x y)%Z -> (cmp y x <= 0)%Z.
Hypothesis cmp_trans :
  forall x y z, P x -> P y -> P z ->
                (cmp x y <= 0)%Z -> (cmp y z <= 0)%Z -> (cmp x z <= 0)%Z.

Lemma sortInsert_perm (x : T) (l : list T) : Permutation (sortInsert cmp x l) (x :: l).
Proof.
  induction l as [|y l IH]; simpl; [reflexivity|].
  destruct (cmp x y <=? 0)%Z; [reflexivity|].
  rewrite IH. apply perm_swap.
Qed.

Lemma sort_perm (l : list T) : Permutation (sort cmp l) l.
Proof.
  induction l as [|x l IH]; simpl; [reflexivity|].
  rewrite sortInsert_perm. now constructor.
Qed.

Lemma sortInsert_sorted (x : T) (l : list T) :
  P x -> Forall P l -> StronglySorted (precedes cmp) l ->
  StronglySorted (precedes cmp) (sortInsert cmp x l).
Proof.
  intros Px Pl Hs. induction Hs as [|y l Hs IH Hy]; simpl.
  - repeat constructor.
  - inversion Pl as [|? ? Py Pl']; subst.
    rewrite Forall_forall in Hy, Pl'.
    destruct (Z.leb_spec (cmp x y) 0) as [Hle|Hgt].
    + constructor; [constructor; [exact Hs | now apply Forall_forall]|].
      constructor; [exact Hle|].
      apply Forall_forall. intros z Hz.
      apply (cmp_trans x y z); auto. apply Hy, Hz.
    + constructor; [apply IH; now apply Forall_forall|].
      apply Forall_forall. intros z Hz.
      apply (Permutation_in _ (sortInsert_perm x l)) in Hz. destruct Hz as [<-|Hz].
      * now apply cmp_total.
      * now apply Hy.
Qed.

Lemma sort_sorted (l : list T) : Forall P l -> StronglySorted (precedes cmp) (sort cmp l).
Proof.
  induction 1 as [|x l Px Pl IH]; simpl; [constructor|].
  apply sortInsert_sorted; auto.
  rewrite Forall_forall in Pl |- *. intros z Hz.
  apply Pl. now apply (Permutation_in _ (sort_perm l)).
Qed.

End SortFacts.

Lemma StronglySorted_nth {T : Type} (R : T -> T -> Prop) (l : list T) :
  StronglySorted R l ->
  forall i j a b, (i < j)%nat -> nth_error l i = Some a -> nth_error l j = Some b -> R a b.
Proof.
  induction 1 as [|x l Hs IH Hx]; intros i j a b Hij Hi Hj.
  - destruct i; discriminate Hi.
  - destruct j as [|j]; [lia|]. simpl in Hj.
    destruct i as [|i]; simpl in Hi.
    + injection Hi as <-. rewrite Forall_forall in Hx. apply Hx.
      eapply nth_error_In, Hj.
    + apply (IH i j); auto. lia.
Qed.

(* ===================================================================== *)
(** * Properties of grouping and ordering                                 *)
(* ===================================================================== *)

Section GroupFacts.
Import JS Lodash.

Context {A : Type} (key : A -> string).

Lemma addToGroup_keys (k : string) (x : A) (g : list (string * list A)) :
  map fst (addToGroup k x g) = uniqAdd k (map fst g).
Proof.
  unfold uniqAdd. induction g as [|[k' xs] g IH]; simpl; [reflexivity|].
  destruct (String.eqb k k'); simpl; [reflexivity|].
  rewrite IH. destruct (existsb (String.eqb k) (map fst g)); reflexivity.
Qed.

Lemma buckets_keys_from (l : list A) (g : list (string * list A)) :
  map fst (fold_left (fun g x => addToGroup (key x) x g) l g)
  = fold_left (fun seen k => uniqAdd k seen) (map key l) (map fst g).
Proof.
  revert g. induction l as [|x l IH]; intro g; simpl; [reflexivity|].
  now rewrite IH, addToGroup_keys.
Qed.

(** The keys of the buckets are the distinct keys in the order in which
    they are first met. *)
Lemma buckets_keys (l : list A) : map fst (buckets key l) = uniq (map key l).
Proof. apply buckets_keys_from. Qed.

Lemma uniqAdd_NoDup (k : string) (seen : list string) :
  NoDup seen -> NoDup (uniqAdd k seen).
Proof.
  intro H. unfold uniqAdd. destruct (existsb (String.eqb k) seen) eqn:E; [exact H|].
  apply NoDup_app; [exact H | repeat constructor; intros [] |].
  intros y Hy [Ek|[]]. subst y.
  assert (existsb (String.eqb k) seen = true); [|congruence].
  apply existsb_exists. exists k. split; [exact Hy | apply String.eqb_refl].
Qed.

Lemma uniq_NoDup_from (l seen : list string) :
  NoDup seen -> NoDup (fold_left (fun seen k => uniqAdd k seen) l seen).
Proof.
  revert seen. induction l as [|k l IH]; intros seen H; simpl; [exact H|].
  apply IH, uniqAdd_NoDup, H.
Qed.

Lemma uniq_NoDup (l : list string) : NoDup (uniq l).
Proof. apply uniq_NoDup_from. constructor. Qed.

Lemma uniqAdd_incl (k : string) (seen : list string) (y : string) :
  In y (uniqAdd k seen) -> y = k \/ In y seen.
Proof.
  unfold uniqAdd. destruct (existsb (String.eqb k) seen); [now right|].
  rewrite in_app_iff. simpl. intuition.
Qed.

Lemma uniq_incl_from (l seen : list string) (y : string) :
  In y (fold_left (fun seen k => uniqAdd k seen) l seen) -> In y l \/ In y seen.
Proof.
  revert seen. induction l as [|k l IH]; intros seen H; simpl in *; [now right|].
  apply IH in H as [H|H]; [now (left; right)|].
  apply uniqAdd_incl in H as [->|H]; auto.
Qed.

Lemma uniq_incl (l : list string) (y : string) : In y (uniq l) -> In y l.
Proof.
  intro H. apply uniq_incl_from in H as [H|[]]. exact H.
Qed.

Lemma groupOf_addToGroup (k' k : string) (x : A) (g : list (string * list A)) :
  groupOf k' (addToGroup k x g)
  = if String.eqb k' k then (groupOf k g ++ [x])%list else groupOf k' g.
Proof.
  unfold groupOf. induction g as [|[k0 xs] g IH]; simpl.
  - destruct (String.eqb k' k); reflexivity.
  - destruct (String.eqb k k0) eqn:E; simpl.
    + apply String.eqb_eq in E. subst k0.
      destruct (String.eqb k' k) eqn:E'; simpl; try reflexivity;
        try (rewrite String.eqb_refl; reflexivity).
    + destruct (String.eqb k' k0) eqn:E0; simpl.
      * destruct (String.eqb k' k) eqn:E'; [|reflexivity].
        apply String.eqb_eq in E', E0. subst. rewrite String.eqb_refl in E. discriminate E.
      * exact IH.
Qed.

Lemma groupOf_buckets_from (k : string) (l : list A) (g : list (string * list A)) :
  groupOf k (fold_left (fun g x => addToGroup (key x) x g) l g)
  = (groupOf k g ++ filter (fun x => String.eqb k (key x)) l)%list.
Proof.
  revert g. induction l as [|x l IH]; intro g; simpl.
  - now rewrite app_nil_r.
  - rewrite IH, groupOf_addToGroup.
    destruct (String.eqb k (key x)) eqn:E; [|reflexivity].
    apply String.eqb_eq in E. subst k. now rewrite <- app_assoc.
Qed.

Lemma groupOf_In (k : string) (xs : list A) (g : list (string * list A)) :
  NoDup (map fst g) -> In (k, xs) g -> groupOf k g = xs.
Proof.
  unfold groupOf. induction g as [|[k0 ys] g IH]; simpl; intros Hnd H; [contradiction|].
  destruct H as [H|H].
  - injection H as -> ->. now rewrite String.eqb_refl.
  - inversion Hnd as [|? ? Hnot Hnd']; subst.
    destruct (String.eqb k k0) eqn:E.
    + apply String.eqb_eq in E. subst k0. exfalso. apply Hnot.
      change k with (fst (k, xs)). now apply in_map.
    + now apply IH.
Qed.

(** Each bucket holds the elements of its key, in the order of the
    collection. *)
Lemma buckets_content (l : list A) (k : string) (xs : list A) :
  In (k, xs) (buckets key l) -> xs = filter (fun x => String.eqb k (key x)) l.
Proof.
  intro H. rewrite <- (groupOf_In k xs (buckets key l)); [|now rewrite buckets_keys; apply uniq_NoDup|exact H].
  unfold buckets. now rewrite groupOf_buckets_from.
Qed.

End GroupFacts.

Section EnumerationFacts.
Import JS Lodash.

Context {B : Type}.

Lemma filter_partition_perm {C : Type} (p : C -> bool) (l : list C) :
  Permutation (filter p l ++ filter (fun x => negb (p x)) l) l.
Proof.
  induction l as [|x l IH]; simpl; [reflexivity|].
  destruct (p x); simpl.
  - now constructor.
  - rewrite <- Permutation_middle. now constructor.
Qed.

(** Enumerating an object permutes its entries. *)
Lemma ownEntries_perm (o : list (string * B)) : Permutation (ownEntries o) o.
Proof.
  unfold ownEntries. rewrite sort_perm.
  apply (filter_partition_perm (fun e => isIndexKey (fst e))).
Qed.

(** An object without array-index keys is enumerated in insertion order. *)
Lemma ownEntries_no_index (o : list (string * B)) :
  forallb (fun e => negb (isIndexKey (fst e))) o = true -> ownEntries o = o.
Proof.
  intro H. unfold ownEntries.
  assert (E1 : filter (fun e => isIndexKey (fst e)) o = []).
  { induction o as [|e o IH]; simpl in *; [reflexivity|].
    apply andb_prop in H as [He Ho]. apply negb_true_iff in He. rewrite He. auto. }
  assert (E2 : filter (fun e => negb (isIndexKey (fst e))) o = o).
  { induction o as [|e o IH]; simpl in *; [reflexivity|].
    apply andb_prop in H as [He Ho]. rewrite He. f_equal.
    apply IH; [exact Ho|].
    apply negb_true_iff in He. rewrite He in E1. exact E1. }
  rewrite E1, E2. reflexivity.
Qed.

End EnumerationFacts.

Section OrderByFacts.
Import JS Lodash.
Local Open Scope Z_scope.

Context {A : Type} (iteratee : A -> float).

Lemma orderBy_ranked (desc : bool) (l : list A) :
  orderBy iteratee desc l = map (fun o => snd (snd o)) (ranked iteratee desc l).
Proof. reflexivity. Qed.

Lemma indexedFrom_In {T : Type} (l : list T) (s i : Z) (x : T) :
  In (i, x) (indexedFrom s l) -> s <= i /\ nth_error l (Z.to_nat (i - s)) = Some x.
Proof.
  revert s. induction l as [|y l IH]; intros s H; simpl in H; [contradiction|].
  destruct H as [H|H].
  - injection H as -> ->. split; [lia|]. now rewrite Z.sub_diag.
  - apply IH in H as [Hle Hn]. split; [lia|].
    replace (Z.to_nat (i - s)) with (S (Z.to_nat (i - (s + 1)))) by lia. exact Hn.
Qed.

Lemma indexedFrom_NoDup {T : Type} (l : list T) (s : Z) : NoDup (indexedFrom s l).
Proof.
  revert s. induction l as [|y l IH]; intro s; simpl; constructor; [|apply IH].
  intro H. apply indexedFrom_In in H as [H _]. lia.
Qed.

Lemma indexedFrom_snd {T : Type} (l : list T) (s : Z) : map snd (indexedFrom s l) = l.
Proof.
  revert s. induction l as [|y l IH]; intro s; simpl; [reflexivity|]. now rewrite IH.
Qed.

Lemma entriesOf_In (l : list A) (e : Z * (float * A)) :
  In e (entriesOf iteratee l) ->
  0 <= fst e /\ fst (snd e) = iteratee (snd (snd e)) /\
  nth_error l (Z.to_nat (fst e)) = Some (snd (snd e)).
Proof.
  destruct e as [i [v x]]. unfold entriesOf. intro H. simpl.
  apply indexedFrom_In in H as [Hle Hn]. rewrite Z.sub_0_r in Hn.
  rewrite nth_error_map in Hn.
  destruct (nth_error l (Z.to_nat i)) as [y|]; [|discriminate Hn].
  injection Hn as <- <-. auto.
Qed.

Lemma ranked_perm (desc : bool) (l : list A) : Permutation (ranked iteratee desc l) (entriesOf iteratee l).
Proof. apply sort_perm. Qed.

(** [orderBy] permutes the collection. *)
Lemma orderBy_perm (desc : bool) (l : list A) : Permutation (orderBy iteratee desc l) l.
Proof.
  rewrite orderBy_ranked, (ranked_perm desc l). unfold entriesOf.
  rewrite <- map_map, indexedFrom_snd, map_map. simpl. now rewrite map_id.
Qed.

(** The comparator of a descending [orderBy] on two entries whose
    criteria are not NaN: the larger criterion first, then the position. *)
Lemma compareMultiple_desc (a b : Z * (float * A)) :
  PrimFloat.is_nan (fst (snd a)) = false -> PrimFloat.is_nan (fst (snd b)) = false ->
  compareMultiple true a b =
  match compareNumbers (fst (snd a)) (fst (snd b)) with
  | Some Gt => -1
  | Some Lt => 1
  | _ => fst a - fst b
  end.
Proof.
  intros Ha Hb. unfold compareMultiple, compareAscending.
  rewrite strictEq_compare, !ltb_compare, Ha, Hb.
  rewrite (compareNumbers_sym (fst (snd a)) (fst (snd b))).
  destruct (compareNumbers_some _ _ Ha Hb) as [c ->].
  destruct c; reflexivity.
Qed.

Lemma compareMultiple_desc_total (x y : Z * (float * A)) :
  criterionIsNumber x -> criterionIsNumber y ->
  0 < compareMultiple true x y -> compareMultiple true y x <= 0.
Proof.
  intros Hx Hy. rewrite (compareMultiple_desc x y Hx Hy), (compareMultiple_desc y x Hy Hx).
  rewrite (compareNumbers_sym (fst (snd x)) (fst (snd y))).
  destruct (compareNumbers_some _ _ Hx Hy) as [c ->].
  destruct c; simpl; lia.
Qed.

Lemma compareMultiple_desc_trans (x y z : Z * (float * A)) :
  criterionIsNumber x -> criterionIsNumber y -> criterionIsNumber z ->
  compareMultiple true x y <= 0 -> compareMultiple true y z <= 0 ->
  compareMultiple true x z <= 0.
Proof.
  intros Hx Hy Hz.
  rewrite (compareMultiple_desc x y Hx Hy), (compareMultiple_desc y z Hy Hz),
    (compareMultiple_desc x z Hx Hz).
  destruct (compareNumbers_some _ _ Hx Hy) as [c1 E1].
  destruct (compareNumbers_some _ _ Hy Hz) as [c2 E2].
  rewrite E1, E2.
  (* the comparisons are read from larger to smaller *)
  pose proof (compareNumbers_sym (fst (snd x)) (fst (snd y))) as S1.
  pose proof (compareNumbers_sym (fst (snd y)) (fst (snd z))) as S2.
  pose proof (compareNumbers_sym (fst (snd x)) (fst (snd z))) as S3.
  rewrite E1 in S1. rewrite E2 in S2. simpl in S1, S2.
  intros H1 H2.
  assert (N1 : CompOpp c1 <> Gt) by (destruct c1; simpl; [discriminate | lia | discriminate]).
  assert (N2 : CompOpp c2 <> Gt) by (destruct c2; simpl; [discriminate | lia | discriminate]).
  pose proof (SFcompare_trans _ _ _ _ _ S2 S1 N2 N1) as T.
  fold (compareNumbers (fst (snd z)) (fst (snd x))) in T.
  rewrite T in S3. 
  destruct (compareNumbers (fst (snd x)) (fst (snd z))) as [c3|]; [|discriminate S3].
  destruct c1, c2, c3; simpl in *; try discriminate; lia.
Qed.

Lemma ranked_forall_valid (l : list A) :
  Forall (fun x => PrimFloat.is_nan (iteratee x) = false) l ->
  Forall criterionIsNumber (entriesOf iteratee l).
Proof.
  intro H. rewrite Forall_forall in H |- *. intros e He.
  pose proof (entriesOf_In l e He) as (_ & Hv & Hn).
  unfold criterionIsNumber. rewrite Hv. apply H. eapply nth_error_In, Hn.
Qed.

(** The outcome of a descending [orderBy] when no criterion is NaN: of
    two elements the earlier one has the larger or an equal criterion,
    and when the criteria are equal the earlier one stood earlier in the
    collection. *)
Lemma orderBy_desc_sorted (l : list A) :
  Forall (fun x => PrimFloat.is_nan (iteratee x) = false) l ->
  forall i j a b,
    (i < j)%nat ->
    nth_error (orderBy iteratee true l) i = Some a ->
    nth_error (orderBy iteratee true l) j = Some b ->
    (iteratee b <=? iteratee a)%float = true /\
    (strictEq (iteratee a) (iteratee b) = true ->
     exists p q, (p < q)%nat /\ nth_error l p = Some a /\ nth_error l q = Some b).
Proof.
  intros Hl i j a b Hij Hi Hj.
  rewrite orderBy_ranked, nth_error_map in Hi, Hj.
  destruct (nth_error (ranked iteratee true l) i) as [ea|] eqn:Ei; [|discriminate Hi].
  destruct (nth_error (ranked iteratee true l) j) as [eb|] eqn:Ej; [|discriminate Hj].
  injection Hi as <-. injection Hj as <-.
  pose proof (ranked_forall_valid l Hl) as Hv.
  pose proof (sort_sorted (compareMultiple true) criterionIsNumber
                compareMultiple_desc_total compareMultiple_desc_trans
                (entriesOf iteratee l) Hv) as Hs.
  pose proof (StronglySorted_nth _ _ Hs i j ea eb Hij Ei Ej) as Hle.
  unfold precedes in Hle.
  assert (Ia : In ea (entriesOf iteratee l))
    by (apply (Permutation_in _ (ranked_perm true l)); eapply nth_error_In, Ei).
  assert (Ib : In eb (entriesOf iteratee l))
    by (apply (Permutation_in _ (ranked_perm true l)); eapply nth_error_In, Ej).
  rewrite Forall_forall in Hv.
  pose proof (Hv _ Ia) as Va. pose proof (Hv _ Ib) as Vb.
  destruct (entriesOf_In l ea Ia) as (Pa & Ca & Na).
  destruct (entriesOf_In l eb Ib) as (Pb & Cb & Nb).
  rewrite (compareMultiple_desc ea eb Va Vb) in Hle.
  rewrite <- Ca, <- Cb.
  rewrite leb_compare, strictEq_compare, (compareNumbers_sym (fst (snd ea)) (fst (snd eb))).
  destruct (compareNumbers_some _ _ Va Vb) as [c Ec]. rewrite Ec in Hle |- *.
  destruct c; simpl; [| exfalso; lia | split; [reflexivity | discriminate]].
  split; [reflexivity|]. intros _.
  exists (Z.to_nat (fst ea)), (Z.to_nat (fst eb)). split; [|split; assumption].
  assert (fst ea <> fst eb); [|lia].
  intro E.
  assert (Eab : ea = eb).
  { destruct ea as [p [va xa]], eb as [q [vb xb]]. simpl in *. subst q.
    rewrite Na in Nb. injection Nb as <-. congruence. }
  assert (NoDup (ranked iteratee true l)) as Hnd.
  { apply (Permutation_NoDup (Permutation_sym (ranked_perm true l))).
    apply indexedFrom_NoDup. }
  rewrite NoDup_nth_error in Hnd.
  assert (i = j); [|lia].
  apply Hnd; [apply nth_error_Some; congruence | congruence].
Qed.

End OrderByFacts.

(* ===================================================================== *)
(** * Properties of the installation view                                 *)
(* ===================================================================== *)

Section InstallationView.
Import JS Lodash Prototype Samples.

Lemma firstn_In {T : Type} (n : nat) (l : list T) (x : T) : In x (firstn n l) -> In x l.
Proof.
  intro H. rewrite <- (firstn_skipn n l). apply in_or_app. now left.
Qed.

Lemma firstn_NoDup {T : Type} (n : nat) (l : list T) : NoDup l -> NoDup (firstn n l).
Proof.
  intro H. rewrite <- (firstn_skipn n l) in H. now apply NoDup_app_remove_r in H.
Qed.

Lemma installationGroups_names (data : list Event) :
  map name (installationGroups data) = map fst (groupBy byInstallation data).
Proof.
  unfold installationGroups. rewrite map_map. apply map_ext. now intros [k items].
Qed.

Lemma groupBy_keys_perm (data : list Event) :
  Permutation (map fst (groupBy byInstallation data)) (uniq (map byInstallation data)).
Proof.
  unfold groupBy. rewrite <- buckets_keys. apply Permutation_map, ownEntries_perm.
Qed.

Lemma installationGroups_In (data : list Event) (b : Bucket) :
  In b (installationGroups data) ->
  In (name b) (map byInstallation data) /\
  value b = sumBy Cost (filter (fun e => String.eqb (name b) (byInstallation e)) data).
Proof.
  unfold installationGroups. rewrite in_map_iff. intros ([k items] & <- & Hg). simpl.
  unfold groupBy in Hg. apply (Permutation_in _ (ownEntries_perm _)) in Hg.
  split.
  - apply uniq_incl. rewrite <- (buckets_keys byInstallation).
    change k with (fst (k, items)). now apply in_map.
  - now rewrite <- (buckets_content byInstallation data k items Hg).
Qed.

(** C7, the claim as stated fails: of two installations with the same
    total, "Fort Bragg" met first and "7" met second, the view lists "7"
    first, because a key that is an array index is enumerated before the
    other keys of the grouping object; and the two totals are equal, so
    the view is not strictly descending. *)
Lemma installation_view_tie_not_discovery_order :
  map byInstallation eventsTied = ["Fort Bragg"; "7"] /\
  map name (costByInstallation eventsTied) = ["7"; "Fort Bragg"] /\
  map value (costByInstallation eventsTied) = [5%float; 5%float] /\
  (5 <? 5)%float = false.
Proof.
  repeat split; vm_compute; reflexivity.
Qed.

End InstallationView.

(* ===================================================================== *)
(** * Properties of the year rule                                         *)
(* ===================================================================== *)

Section YearFacts.
Import JS Samples Calendar.
Local Open Scope Z_scope.

(** [YearFromDay] is the year that contains the day. *)
Lemma YearFromDay_spec (d : Z) :
  DayFromYear (YearFromDay d) <= d < DayFromYear (YearFromDay d + 1).
Proof.
  unfold YearFromDay.
  destruct (Z.leb_spec (DayFromYear (1970 + d * 400 / 146097 + 1)) d) as [H1|H1];
    [|destruct (Z.leb_spec (DayFromYear (1970 + d * 400 / 146097)) d) as [H2|H2]];
    revert H1; try revert H2; unfold DayFromYear; intros;
    Z.div_mod_to_equations; lia.
Qed.

(** A year has 365 days, or 366 when it is a leap year. *)
Lemma DayFromYear_succ (Y : Z) :
  DayFromYear (Y + 1) = DayFromYear Y + 365 + (if InLeapYear Y then 1 else 0).
Proof.
  unfold DayFromYear, InLeapYear.
  destruct (Z.eqb_spec (Y mod 4) 0), (Z.eqb_spec (Y mod 100) 0), (Z.eqb_spec (Y mod 400) 0);
    cbn [andb orb negb]; Z.div_mod_to_equations; lia.
Qed.

Lemma DayFromYear_mono (a b : Z) : a <= b -> DayFromYear a <= DayFromYear b.
Proof.
  unfold DayFromYear. intro H. Z.div_mod_to_equations. lia.
Qed.

Lemma YearFromDay_unique (Y day : Z) :
  DayFromYear Y <= day < DayFromYear (Y + 1) -> YearFromDay day = Y.
Proof.
  intro H. pose proof (YearFromDay_spec day) as S.
  destruct (Z.lt_trichotomy (YearFromDay day) Y) as [L|[E|G]]; [|exact E|].
  - pose proof (DayFromYear_mono (YearFromDay day + 1) Y). lia.
  - pose proof (DayFromYear_mono (Y + 1) (YearFromDay day)). lia.
Qed.

Lemma month_table (leap : bool) (m : Z) :
  1 <= m <= 12 ->
  0 <= daysBeforeMonth leap (m - 1) /\
  daysBeforeMonth leap (m - 1) + monthLength leap m <= 365 + (if leap then 1 else 0).
Proof.
  intro Hm.
  assert (Hc : m = 1 \/ m = 2 \/ m = 3 \/ m = 4 \/ m = 5 \/ m = 6 \/ m = 7 \/ m = 8 \/
               m = 9 \/ m = 10 \/ m = 11 \/ m = 12) by lia.
  destruct leap;
    repeat (destruct Hc as [->|Hc]; [vm_compute; split; discriminate|]);
    subst; vm_compute; split; discriminate.
Qed.

Lemma MakeDay_in_year (Y m d : Z) :
  1 <= m <= 12 -> 1 <= d <= daysInMonth Y m ->
  DayFromYear Y <= MakeDay Y (m - 1) d < DayFromYear (Y + 1).
Proof.
  intros Hm Hd. rewrite DayFromYear_succ. unfold MakeDay.
  replace ((m - 1) / 12) with 0 by (Z.div_mod_to_equations; lia).
  replace ((m - 1) mod 12) with (m - 1) by (Z.div_mod_to_equations; lia).
  rewrite Z.add_0_r. unfold daysInMonth in Hd.
  pose proof (month_table (InLeapYear Y) m Hm). lia.
Qed.

Lemma range_In (n : nat) (lo z : Z) :
  lo <= z < lo + Z.of_nat n -> In z (range lo n).
Proof.
  revert lo. induction n as [|n IH]; intros lo H; [lia|].
  cbn [range]. destruct (Z.eq_dec z lo) as [->|Hne]; [now left | right].
  apply IH. lia.
Qed.

Lemma range_check (check : Z -> bool) (lo : Z) (n : nat) :
  forallb check (range lo n) = true ->
  forall z, lo <= z < lo + Z.of_nat n -> check z = true.
Proof.
  intros H z Hz. rewrite forallb_forall in H. apply H, range_In, Hz.
Qed.

Lemma twoDigits_checked : forallb twoDigitsOk (range 0 100) = true.
Proof. vm_compute. reflexivity. Qed.

Lemma century_checked : forallb centuryOk (range 0 100) = true.
Proof. vm_compute. reflexivity. Qed.

Lemma month_checked : forallb monthOk (range 1 12) = true.
Proof. vm_compute. reflexivity. Qed.

Lemma integer_checked : forallb integerOk (range 0 2100) = true.
Proof. vm_compute. reflexivity. Qed.

Lemma day_checked : forallb dayOk (range 10957 (Z.to_nat 36525)) = true.
Proof. vm_compute. reflexivity. Qed.

(** The three parts of an MM/DD/YY field. *)
Lemma split_mdy (m d y : Z) :
  0 <= m < 100 -> 0 <= d < 100 -> 0 <= y < 100 ->
  split "/" (mdy m d y) = [twoDigits m; twoDigits d; twoDigits y].
Proof.
  intros Hm Hd Hy.
  pose proof (range_check _ _ _ twoDigits_checked m Hm) as Cm.
  pose proof (range_check _ _ _ twoDigits_checked d Hd) as Cd.
  pose proof (range_check _ _ _ twoDigits_checked y Hy) as Cy.
  unfold twoDigitsOk in Cm, Cd, Cy. unfold mdy.
  apply andb_prop in Cm as [_ Cm]. apply andb_prop in Cd as [_ Cd].
  apply andb_prop in Cy as [_ Cy].
  destruct (twoDigits m) as [|a1 [|a2 [|]]]; try discriminate Cm.
  destruct (twoDigits d) as [|b1 [|b2 [|]]]; try discriminate Cd.
  destruct (twoDigits y) as [|c1 [|c2 [|]]]; try discriminate Cy.
  apply andb_prop in Cm as [Ca1 Ca2]. apply andb_prop in Cd as [Cb1 Cb2].
  apply andb_prop in Cy as [Cc1 Cc2].
  apply negb_true_iff in Ca1, Ca2, Cb1, Cb2, Cc1, Cc2.
  cbn [append split]. rewrite Ca1, Ca2, Cb1, Cb2, Cc1, Cc2. reflexivity.
Qed.

Lemma parseInt_twoDigits (n : Z) : 0 <= n < 100 -> parseInt (Some (twoDigits n)) = ofZ n.
Proof.
  intro H. pose proof (range_check _ _ _ twoDigits_checked n H) as C.
  unfold twoDigitsOk in C. apply andb_prop in C as [C _].
  now apply FloatAxioms.Leibniz.eqb_spec in C.
Qed.

(** The constructor on small integers: the time value of the day. *)
Lemma Date_ymd_exact (Y M D : Z) :
  100 <= Y < 2100 -> 0 <= M < 12 -> 0 <= D < 100 ->
  Date_ymd (ofZ Y) (ofZ M) (ofZ D) = ofZ (MakeDay Y M D * msPerDay).
Proof.
  intros HY HM HD.
  pose proof (range_check _ _ _ integer_checked Y ltac:(lia)) as CY.
  pose proof (range_check _ _ _ integer_checked M ltac:(lia)) as CM.
  pose proof (range_check _ _ _ integer_checked D ltac:(lia)) as CD.
  unfold integerOk in CY, CM, CD.
  apply andb_prop in CY as [FY TY]. apply andb_prop in CM as [FM TM].
  apply andb_prop in CD as [FD TD].
  apply Z.eqb_eq in TY, TM, TD.
  unfold Date_ymd. rewrite FY, FM, FD, TY, TM, TD. cbn [andb].
  replace ((0 <=? Y) && (Y <=? 99)) with false by lia.
  assert (B : DayFromYear Y - 1 <= MakeDay Y M D < DayFromYear Y + 500).
  { unfold MakeDay.
    replace (M / 12) with 0 by (Z.div_mod_to_equations; lia).
    replace (M mod 12) with M by (Z.div_mod_to_equations; lia).
    rewrite Z.add_0_r.
    pose proof (month_table (InLeapYear Y) (M + 1) ltac:(lia)) as T.
    replace (M + 1 - 1) with M in T by lia.
    assert (0 <= monthLength (InLeapYear Y) (M + 1) <= 31).
    { unfold monthLength. repeat match goal with |- context [if ?c then _ else _] => destruct c end; lia. }
    destruct (InLeapYear Y); lia. }
  assert (BY : -700000 <= DayFromYear Y <= 50000).
  { unfold DayFromYear. Z.div_mod_to_equations. lia. }
  replace (Z.abs (MakeDay Y M D * msPerDay) >? 8640000000000000) with false; [reflexivity|].
  symmetry. rewrite Z.gtb_ltb. apply Z.ltb_ge. unfold msPerDay. lia.
Qed.

(** The year the primary variant reads from a calendar date MM/DD/YY. *)
Lemma parseDate_year (m d y : Z) :
  1 <= m <= 12 -> 1 <= d <= daysInMonth (2000 + y) m -> 0 <= y <= 99 ->
  getFullYear (Dashboard.parseDate (mdy m d y)) = ofZ (2000 + y).
Proof.
  intros Hm Hd Hy.
  assert (Hd' : 1 <= d <= 31).
  { unfold daysInMonth, monthLength in Hd.
    revert Hd. repeat match goal with |- context [if ?c then _ else _] => destruct c end; lia. }
  unfold Dashboard.parseDate. rewrite split_mdy by lia. cbn [nth_error].
  rewrite !parseInt_twoDigits by lia.
  pose proof (range_check _ _ _ century_checked y ltac:(lia)) as Cy.
  pose proof (range_check _ _ _ month_checked m ltac:(lia)) as Cm.
  apply FloatAxioms.Leibniz.eqb_spec in Cy, Cm. rewrite Cy, Cm.
  rewrite Date_ymd_exact by lia.
  pose proof (MakeDay_in_year (2000 + y) m d Hm Hd) as Hin.
  assert (Hr : 10957 <= MakeDay (2000 + y) (m - 1) d < 10957 + Z.of_nat (Z.to_nat 36525)).
  { pose proof (DayFromYear_mono 2000 (2000 + y) ltac:(lia)).
    pose proof (DayFromYear_mono (2000 + y + 1) 2100 ltac:(lia)).
    change (DayFromYear 2000) with 10957 in *. change (DayFromYear 2100) with 47482 in *. lia. }
  pose proof (range_check _ _ _ day_checked _ Hr) as Cday.
  unfold dayOk in Cday. apply andb_prop in Cday as [Cn Ct].
  apply negb_true_iff in Cn. apply Z.eqb_eq in Ct.
  unfold getFullYear. rewrite Cn, Ct.
  rewrite Z.div_mul by (unfold msPerDay; lia).
  now rewrite (YearFromDay_unique (2000 + y)).
Qed.
(** C4, the claim as stated fails: on a row whose [Year] column says 1999
    and whose date is 01/15/23 the primary variant computes the year 2023
    and the earlier variant the year 1999. *)
Lemma year_rules_disagree :
  map Dashboard.Year (Dashboard.cleanedData [rowYear1999]) = [2023%float] /\
  map Prototype.Year (Prototype.cleanedData hostRejects [rowYear1999]) = [1999%float] /\
  strictEq 2023 1999 = false.
Proof.
  repeat split; vm_compute; reflexivity.
Qed.

(** C4, amended: the two variants implement different year rules.  The
    primary variant never reads the [Year] column: its year is the year of
    the date built from the MM/DD/YY field, which is 2000 + YY for every
    calendar date.  The earlier variant takes [parseFloat] of the [Year]
    column whenever the column is present and not empty, and otherwise the
    year of the date the host reads from the date field.  On a row with a
    calendar date and a [Year] column the two years are [===] exactly when
    the column reads as 2000 + YY. *)
Theorem year_rules_of_the_variants :
  (forall r yr,
      Dashboard.keepRow r = true ->
      map Dashboard.Year (Dashboard.cleanedData [Csv.withYear yr r])
      = map Dashboard.Year (Dashboard.cleanedData [r])) /\
  (forall r m d y,
      1 <= m <= 12 -> 1 <= d <= daysInMonth (2000 + y) m -> 0 <= y <= 99 ->
      Csv.Date_of_Weather_Event r = Some (mdy m d y) ->
      Dashboard.keepRow r = true ->
      map Dashboard.Year (Dashboard.cleanedData [r]) = [ofZ (2000 + y)]) /\
  (forall host r,
      Prototype.keepRow r = true ->
      map Prototype.Year (Prototype.cleanedData host [r])
      = [if truthy (Csv.Year r) then parseFloat (toStr (Csv.Year r))
         else getFullYear (Prototype.Date_value host (Csv.Date_of_Weather_Event r))]) /\
  (forall host r m d y,
      1 <= m <= 12 -> 1 <= d <= daysInMonth (2000 + y) m -> 0 <= y <= 99 ->
      Csv.Date_of_Weather_Event r = Some (mdy m d y) ->
      Dashboard.keepRow r = true ->
      truthy (Csv.Year r) = true ->
      map (fun p => strictEq (Dashboard.Year (fst p)) (Prototype.Year (snd p)))
          (combine (Dashboard.cleanedData [r]) (Prototype.cleanedData host [r]))
      = [strictEq (ofZ (2000 + y)) (parseFloat (toStr (Csv.Year r)))]).
Proof.
  split; [|split; [|split]].
  - intros r yr Hk.
    assert (Hk' : Dashboard.keepRow (Csv.withYear yr r) = true) by exact Hk.
    unfold Dashboard.cleanedData. simpl. rewrite Hk, Hk'. simpl.
    unfold Dashboard.transformRow. simpl.
    destruct (Csv.Date_of_Weather_Event r); reflexivity.
  - intros r m d y Hm Hd Hy Hdate Hk.
    unfold Dashboard.cleanedData. simpl. rewrite Hk. simpl.
    unfold Dashboard.transformRow. rewrite Hdate. simpl.
    now rewrite parseDate_year.
  - intros host r Hk. unfold Prototype.cleanedData. simpl. rewrite Hk. reflexivity.
  - intros host r m d y Hm Hd Hy Hdate Hk Hyear.
    assert (Hp : Prototype.keepRow r = true).
    { unfold Dashboard.keepRow in Hk. now apply andb_prop in Hk as [Hk _]. }
    unfold Dashboard.cleanedData, Prototype.cleanedData. simpl. rewrite Hk, Hp. simpl.
    unfold Dashboard.transformRow. rewrite Hdate. simpl.
    now rewrite parseDate_year, Hyear.
Qed.

Lemma year_rules_of_the_variants_witness :
  map Dashboard.Year (Dashboard.cleanedData [rowIan]) = [ofZ (2000 + 23)] /\
  map Prototype.Year (Prototype.cleanedData hostRejects [rowYear1999])
  = [parseFloat "1999"] /\
  map (fun p => strictEq (Dashboard.Year (fst p)) (Prototype.Year (snd p)))
      (combine (Dashboard.cleanedData [rowYear1999])
               (Prototype.cleanedData hostRejects [rowYear1999]))
  = [strictEq (ofZ (2000 + 23)) (parseFloat "1999")].
Proof.
  destruct year_rules_of_the_variants as (_ & Hd & Hp & Ha).
  split; [|split].
  - apply (Hd rowIan 1 15 23);
      try (vm_compute; intuition discriminate); reflexivity.
  - apply (Hp hostRejects rowYear1999). vm_compute. reflexivity.
  - apply (Ha hostRejects rowYear1999 1 15 23);
      try (vm_compute; intuition discriminate); reflexivity.
Defined.

End YearFacts.

(* ===================================================================== *)
(** * Properties of ingestion                                             *)
(* ===================================================================== *)

Section IngestionFacts.
Import JS Samples Calendar.




(** A row that passes the first filter of the primary variant is never
    turned into [null]: the [catch] branch is dead. *)
Lemma Dashboard_transformRow_kept (r : Csv.Row) :
  Dashboard.keepRow r = true ->
  exists e, Dashboard.transformRow r = Some e /\ Dashboard.fields e = r /\
            Dashboard.Cost e = parseFloat (toStr (Csv.Cost r)).
Proof.
  unfold Dashboard.keepRow, Dashboard.transformRow. intro H.
  apply andb_prop in H as [_ H].
  destruct (Csv.Date_of_Weather_Event r) as [d|]; [|discriminate H].
  eexists. split; [reflexivity|]. split; reflexivity.
Qed.





End IngestionFacts.

(* ===================================================================== *)
(** * Number to string on known values                                  *)
(* ===================================================================== *)

Section TextFacts.
Import JS JSText.

Example numberToString_known :
  map numberToString
      [0; -0; 2023; 1999.5; 0.1; 0.30000000000000004; 1e21; 123456789012345680000;
       1.5e-7; 0.000001; 5e-324; 1.7976931348623157e308; -350; 0.000123]%float
  = [ "0"; "0"; "2023"; "1999.5"; "0.1"; "0.30000000000000004"; "1e+21";
      "123456789012345680000"; "1.5e-7"; "0.000001"; "5e-324";
      "1.7976931348623157e+308"; "-350"; "0.000123" ] /\
  map numberToString [nan; infinity; neg_infinity] = ["NaN"; "Infinity"; "-Infinity"].
Proof. split; vm_compute; reflexivity. Qed.

End TextFacts.

(* ===================================================================== *)
(** * Further properties of the filter stage                              *)
(* ===================================================================== *)

Section FilterComposition.
Import JS Classifier Samples FilterSpec.

Lemma filter_filter_and {A : Type} (f g : A -> bool) (l : list A) :
  filter f (filter g l) = filter (fun x => g x && f x) l.
Proof.
  induction l as [|x l IH]; simpl; [reflexivity|].
  destruct (g x); simpl; [destruct (f x); now rewrite IH | exact IH].
Qed.

Lemma filter_true {A : Type} (f : A -> bool) (l : list A) :
  (forall x, f x = true) -> filter f l = l.
Proof.
  intro H. induction l as [|x l IH]; simpl; [reflexivity|]. now rewrite H, IH.
Qed.

Lemma selectedByCategory_split y t e :
  selectedByCategory y t e = selectedByCategory y "all" e && selectedByCategory "all" t e.
Proof.
  unfold selectedByCategory. change (String.eqb "all" "all") with true.
  destruct (String.eqb y "all"), (strictEq _ _), (String.eqb t "all"), (String.eqb _ t);
    reflexivity.
Qed.

Lemma selectedByDescription_split y t e :
  selectedByDescription y t e
  = selectedByDescription y "all" e && selectedByDescription "all" t e.
Proof.
  unfold selectedByDescription. change (String.eqb "all" "all") with true.
  destruct (String.eqb y "all"), (strictEq _ _), (String.eqb t "all"),
    (Csv.Weather_Event (Prototype.fields e)) as [w|];
    try destruct (String.eqb w t); reflexivity.
Qed.

(** X1: in both variants, with both selectors at "all" the filter returns
    its input; filtering by year and then by type, or by type and then by
    year, is filtering by both at once; and filtering again with the same
    selectors changes nothing. *)
Theorem filter_composes :
  (forall data, Dashboard.filteredData data "all" "all" = data) /\
  (forall data y t,
      Dashboard.filteredData (Dashboard.filteredData data y "all") "all" t
      = Dashboard.filteredData data y t) /\
  (forall data y t,
      Dashboard.filteredData (Dashboard.filteredData data "all" t) y "all"
      = Dashboard.filteredData data y t) /\
  (forall data y t,
      Dashboard.filteredData (Dashboard.filteredData data y t) y t
      = Dashboard.filteredData data y t) /\
  (forall data, Prototype.filteredData data "all" "all" = data) /\
  (forall data y t,
      Prototype.filteredData (Prototype.filteredData data y "all") "all" t
      = Prototype.filteredData data y t) /\
  (forall data y t,
      Prototype.filteredData (Prototype.filteredData data "all" t) y "all"
      = Prototype.filteredData data y t) /\
  (forall data y t,
      Prototype.filteredData (Prototype.filteredData data y t) y t
      = Prototype.filteredData data y t).
Proof.
  repeat split; intros; unfold Dashboard.filteredData, Prototype.filteredData;
    try (apply filter_true; intro x; reflexivity);
    rewrite filter_filter_and; apply filter_ext; intro x;
    rewrite ?Dashboard_passesFilter_spec, ?Prototype_passesFilter_spec;
    try (rewrite (selectedByCategory_split y t x));
    try (rewrite (selectedByDescription_split y t x));
    try reflexivity; try apply andb_comm; try apply andb_diag.
Qed.

Lemma strictEq_nan (x y : float) : PrimFloat.is_nan x = true -> strictEq x y = false.
Proof.
  unfold PrimFloat.is_nan, strictEq. rewrite !eqb_spec. unfold SFeqb.
  destruct (Prim2SF x) as [s|s| |s m e] eqn:E.
  - rewrite SFcompare_refl; discriminate.
  - rewrite SFcompare_refl; discriminate.
  - reflexivity.
  - rewrite SFcompare_refl; discriminate.
Qed.

(** X2: an event whose year is NaN (its date could not be read) is shown
    only while the year selector is "all": every other year selection,
    whatever it is, leaves it out, in both variants. *)
Theorem invalid_year_hidden :
  (forall data y t e,
      y <> "all" -> isNaN (Dashboard.Year e) = true ->
      ~ In e (Dashboard.filteredData data y t)) /\
  (forall data y t e,
      y <> "all" -> isNaN (Prototype.Year e) = true ->
      ~ In e (Prototype.filteredData data y t)).
Proof.
  split; intros data y t e Hy Hn Hin.
  - unfold Dashboard.filteredData in Hin. apply filter_In in Hin as [_ Hp].
    unfold Dashboard.passesFilter in Hp.
    apply String.eqb_neq in Hy. rewrite Hy, (strictEq_nan _ _ Hn) in Hp. discriminate Hp.
  - unfold Prototype.filteredData in Hin. apply filter_In in Hin as [_ Hp].
    unfold Prototype.passesFilter in Hp.
    apply String.eqb_neq in Hy. rewrite Hy, (strictEq_nan _ _ Hn) in Hp. discriminate Hp.
Qed.

Lemma invalid_year_hidden_witness :
  Dashboard.cleanedData [rowBadDate]
  = [ {| Dashboard.fields := rowBadDate; Dashboard.Cost := 1000;
         Dashboard.Year := nan; Dashboard.date := nan;
         Dashboard.weatherEventFull := Some "Flood" |} ] /\
  ~ In {| Dashboard.fields := rowBadDate; Dashboard.Cost := 1000;
          Dashboard.Year := nan; Dashboard.date := nan;
          Dashboard.weatherEventFull := Some "Flood" |}
       (Dashboard.filteredData (Dashboard.cleanedData [rowBadDate]) "2023" "Flooding").
Proof.
  split; [vm_compute; reflexivity|].
  apply (proj1 invalid_year_hidden); [discriminate | reflexivity].
Defined.

End FilterComposition.

(* ===================================================================== *)
(** * Further properties of the classifier                                *)
(* ===================================================================== *)

Section ClassifierMore.
Import JS JSText Classifier.

Lemma normalizeWeatherType_category (d : option string) :
  In (normalizeWeatherType d) categories.
Proof.
  unfold normalizeWeatherType.
  repeat match goal with
         | |- context [if ?c then _ else _] => destruct c
         end; simpl; tauto.
Qed.

(** X3: the classifier maps each of its ten category names to itself, so
    classifying a category name again changes nothing. *)
Theorem classifier_idempotent :
  forall d, normalizeWeatherType (Some (normalizeWeatherType d)) = normalizeWeatherType d.
Proof.
  intro d. pose proof (normalizeWeatherType_category d) as H.
  unfold categories in H. simpl in H.
  repeat (destruct H as [<-|H]; [reflexivity|]). contradiction.
Qed.

Lemma toLowerCase_app (a b : string) :
  toLowerCase (a ++ b) = toLowerCase a ++ toLowerCase b.
Proof.
  induction a as [|c a IH]; simpl; [reflexivity|]. now rewrite IH.
Qed.

Lemma prefix_app (w b : string) : String.prefix w (w ++ b) = true.
Proof.
  induction w as [|c w IH]; simpl; [now destruct b|].
  destruct (ascii_dec c c) as [_|N]; [exact IH | contradiction].
Qed.

Lemma includes_prefix (s w : string) : String.prefix w s = true -> includes s w = true.
Proof.
  intro H. destruct s as [|c s].
  - change (includes "" w) with (String.prefix w "" || false). now rewrite H.
  - change (includes (String c s) w) with (String.prefix w (String c s) || includes s w).
    now rewrite H.
Qed.

Lemma includes_app (a w b : string) : includes (a ++ w ++ b) w = true.
Proof.
  induction a as [|c a IH].
  - change ("" ++ w ++ b) with (w ++ b). apply includes_prefix, prefix_app.
  - simpl. rewrite IH. apply orb_true_r.
Qed.

Lemma trimStart_keyword (a w b : string) :
  w <> "" -> startsClean w = true ->
  exists a', trimStart (a ++ w ++ b) = a' ++ w ++ b.
Proof.
  intros Hw Hs. induction a as [|c a IH].
  - exists "". change ("" ++ w ++ b) with (w ++ b). apply trimStart_of_clean.
    destruct w as [|c w]; [contradiction | exact Hs].
  - simpl. destruct (isWhiteSpace c); [exact IH|]. now exists (String c a).
Qed.

Lemma trimEnd_keyword_end (w b : string) :
  w <> "" -> endsClean w = true ->
  exists b', trimEnd (w ++ b) = w ++ b'.
Proof.
  intros Hw He. induction w as [|c w IH]; [contradiction|].
  destruct w as [|c' w].
  - simpl in *. destruct (trimEnd b) as [|d t].
    + exists "". apply negb_true_iff in He. now rewrite He.
    + now exists (String d t).
  - destruct IH as [b' Hb]; [discriminate | exact He|].
    exists b'. change (String c (String c' w) ++ b) with (String c (String c' w ++ b)).
    cbn [trimEnd]. rewrite Hb. reflexivity.
Qed.

Lemma trimEnd_keyword (a w b : string) :
  w <> "" -> endsClean w = true ->
  exists b', trimEnd (a ++ w ++ b) = a ++ w ++ b'.
Proof.
  intros Hw He. induction a as [|c a IH].
  - change ("" ++ w ++ b) with (w ++ b).
    destruct (trimEnd_keyword_end w b Hw He) as [b' Hb]. now exists b'.
  - destruct IH as [b' Hb]. exists b'. simpl. rewrite Hb.
    destruct (a ++ w ++ b') eqn:E; [|reflexivity].
    destruct a; [destruct w; [contradiction | discriminate E] | discriminate E].
Qed.

(** A word without white space at its ends survives trimming. *)
Lemma includes_trim_keyword (a w b : string) :
  w <> "" -> startsClean w = true -> endsClean w = true ->
  includes (trim (a ++ w ++ b)) w = true.
Proof.
  intros Hw Hs He. unfold trim.
  destruct (trimStart_keyword a w b Hw Hs) as [a' ->].
  destruct (trimEnd_keyword a' w b Hw He) as [b' ->].
  apply includes_app.
Qed.

(** X4: a description that contains one of the words hurricane, tropical,
    cyclone or mawar, in any mix of upper and lower case and whatever
    surrounds it, is classified as Hurricane/Tropical Storm: no other
    keyword in the description can override the first rule. *)
Theorem classifier_first_rule_overrides :
  forall pre word post,
    In (toLowerCase word) ["hurricane"; "tropical"; "cyclone"; "mawar"] ->
    normalizeWeatherType (Some (pre ++ word ++ post)) = "Hurricane/Tropical Storm".
Proof.
  intros pre word post Hin.
  assert (Hne : word <> "") by (intros ->; simpl in Hin; intuition discriminate).
  assert (Ht : truthy (Some (pre ++ word ++ post)) = true).
  { destruct pre; [destruct word; [contradiction | reflexivity] | reflexivity]. }
  unfold normalizeWeatherType. rewrite Ht. cbn [negb toStr].
  rewrite !toLowerCase_app.
  set (a := toLowerCase pre). set (b := toLowerCase post).
  simpl in Hin. destruct Hin as [E|[E|[E|[E|[]]]]]; rewrite <- E.
  - rewrite includes_trim_keyword by (try discriminate; reflexivity). reflexivity.
  - rewrite (includes_trim_keyword a "tropical" b) by (try discriminate; reflexivity).
    now rewrite orb_true_r.
  - rewrite (includes_trim_keyword a "cyclone" b) by (try discriminate; reflexivity).
    now rewrite !orb_true_r.
  - rewrite (includes_trim_keyword a "mawar" b) by (try discriminate; reflexivity).
    now rewrite !orb_true_r.
Qed.

Lemma classifier_first_rule_overrides_witness :
  normalizeWeatherType (Some ("Winter flooding after " ++ "HURRICANE" ++ " Ian, hail and fire"))
  = "Hurricane/Tropical Storm".
Proof.
  apply classifier_first_rule_overrides. left. reflexivity.
Defined.

End ClassifierMore.

(* ===================================================================== *)
(** * Properties of the scenario selection                                *)
(* ===================================================================== *)

Section SelectionFacts.
Import JS JSText Scenarios Selection.

Lemma includesString_In (l : list string) (x : string) :
  includesString l x = true <-> In x l.
Proof.
  unfold includesString. rewrite existsb_exists. split.
  - intros (y & Hy & E). apply String.eqb_eq in E. now subst.
  - intro H. exists x. split; [exact H | apply String.eqb_refl].
Qed.

Lemma includesString_not_In (l : list string) (x : string) :
  includesString l x = false <-> ~ In x l.
Proof.
  rewrite <- includesString_In. destruct (includesString l x); split; congruence.
Qed.

Lemma toggle_In (selected : list string) (scenarioId x : string) :
  In x (toggle selected scenarioId) <->
  (x = scenarioId /\ ~ In scenarioId selected) \/ (x <> scenarioId /\ In x selected).
Proof.
  unfold toggle. destruct (includesString selected scenarioId) eqn:E.
  - apply includesString_In in E. rewrite filter_In, negb_true_iff, String.eqb_neq.
    intuition.
  - apply includesString_not_In in E. rewrite in_app_iff. simpl.
    destruct (string_dec x scenarioId) as [->|N]; intuition congruence.
Qed.

Lemma toggle_NoDup (selected : list string) (scenarioId : string) :
  NoDup selected -> NoDup (toggle selected scenarioId).
Proof.
  intro H. unfold toggle. destruct (includesString selected scenarioId) eqn:E.
  - now apply NoDup_filter.
  - apply includesString_not_In in E. apply NoDup_app; [exact H | repeat constructor; intros [] |].
    intros x Hx [<-|[]]. contradiction.
Qed.

(** X5: [handleScenarioChange] flips the membership of the id it is given
    and of no other: afterwards that id is selected exactly if it was not
    before, every other id is selected exactly if it was before, and a
    selection without repetitions stays without repetitions.  The two
    variants change the selection in the same way. *)
Theorem toggle_flips_one :
  forall st scenarioId x,
    (In x (selectedScenarios (handleScenarioChange st scenarioId)) <->
     (x = scenarioId /\ ~ In scenarioId (selectedScenarios st)) \/
     (x <> scenarioId /\ In x (selectedScenarios st))) /\
    (NoDup (selectedScenarios st) ->
     NoDup (selectedScenarios (handleScenarioChange st scenarioId))) /\
    selectedScenarios (handleScenarioChangeEarlier st scenarioId)
    = selectedScenarios (handleScenarioChange st scenarioId).
Proof.
  intros st scenarioId x. cbn [handleScenarioChange handleScenarioChangeEarlier selectedScenarios].
  split; [apply toggle_In|]. split; [apply toggle_NoDup | reflexivity].
Qed.

Lemma toggle_flips_one_witness :
  NoDup (selectedScenarios (handleScenarioChange initialState "scenario1")).
Proof.
  apply (proj1 (proj2 (toggle_flips_one initialState "scenario1" "scenario1"))).
  constructor.
Defined.

Lemma clicks_selection (clicks : list string) (st : State) :
  selectedScenarios (fold_left handleScenarioChange clicks st)
  = fold_left toggle clicks (selectedScenarios st).
Proof.
  revert st. induction clicks as [|c clicks IH]; intro st; simpl; [reflexivity|].
  now rewrite IH.
Qed.

Lemma clicks_selection_earlier (clicks : list string) (st : State) :
  selectedScenarios (fold_left handleScenarioChangeEarlier clicks st)
  = fold_left toggle clicks (selectedScenarios st).
Proof.
  revert st. induction clicks as [|c clicks IH]; intro st; simpl; [reflexivity|].
  now rewrite IH.
Qed.

Lemma toggles_invariant (clicks selected : list string) :
  NoDup selected ->
  NoDup (fold_left toggle clicks selected) /\
  incl (fold_left toggle clicks selected) (selected ++ clicks).
Proof.
  revert selected. induction clicks as [|c clicks IH]; intros selected H; simpl.
  - split; [exact H|]. rewrite app_nil_r. apply incl_refl.
  - destruct (IH (toggle selected c) (toggle_NoDup _ _ H)) as [Hn Hi].
    split; [exact Hn|]. intros x Hx. apply Hi in Hx.
    apply in_app_iff in Hx as [Hx|Hx].
    + apply toggle_In in Hx as [[-> _]|[_ Hx]]; apply in_app_iff; simpl; auto.
    + apply in_app_iff. simpl. auto.
Qed.

(** X6: whatever sequence of check boxes is clicked from the initial
    state, the selection never names a scenario twice and names only
    scenarios that were clicked; when the clicks are on the four scenarios
    of the catalogue, as the page offers, it has at most four entries. *)
Theorem selection_reachable :
  forall clicks : list string,
    NoDup (selectedScenarios (fold_left handleScenarioChange clicks initialState)) /\
    incl (selectedScenarios (fold_left handleScenarioChange clicks initialState)) clicks /\
    (incl clicks (map id scenarios) ->
     (List.length (selectedScenarios (fold_left handleScenarioChange clicks initialState))
      <= 4)%nat) /\
    selectedScenarios (fold_left handleScenarioChangeEarlier clicks initialState)
    = selectedScenarios (fold_left handleScenarioChange clicks initialState).
Proof.
  intro clicks. rewrite clicks_selection, clicks_selection_earlier.
  destruct (toggles_invariant clicks [] (NoDup_nil _)) as [Hn Hi].
  split; [exact Hn|]. split; [exact Hi|]. split; [|reflexivity].
  intro Hc. change 4%nat with (List.length (map id scenarios)).
  apply NoDup_incl_length; [exact Hn|]. intros x Hx. apply Hc, Hi, Hx.
Qed.

Lemma selection_reachable_witness :
  (List.length (selectedScenarios
                  (fold_left handleScenarioChange
                             ["scenario1"; "scenario3"; "scenario1"; "scenario2"]
                             initialState)) <= 4)%nat.
Proof.
  apply (proj1 (proj2 (proj2 (selection_reachable
                                ["scenario1"; "scenario3"; "scenario1"; "scenario2"])))).
  intros x Hx. simpl in Hx |- *. intuition.
Defined.

Lemma listsOfLength_In (alphabet : list string) (l : list string) :
  incl l alphabet -> In l (listsOfLength (List.length l) alphabet).
Proof.
  induction l as [|x l IH]; intro H; simpl; [now left|].
  apply in_flat_map. exists l. split.
  - apply IH. intros y Hy. apply H. now right.
  - apply (in_map (fun a => a :: l)). apply H. now left.
Qed.

Lemma listsUpTo_In (alphabet : list string) (n : nat) (l : list string) :
  incl l alphabet -> (List.length l <= n)%nat -> In l (listsUpTo n alphabet).
Proof.
  intros H. induction n as [|n IH]; intro Hl.
  - destruct l; [now left | simpl in Hl; lia].
  - cbn [listsUpTo]. apply in_or_app.
    destruct (Nat.eq_dec (List.length l) (S n)) as [E|N].
    + right. rewrite <- E. now apply listsOfLength_In.
    + left. apply IH. lia.
Qed.

Lemma distinct_NoDup (l : list string) : NoDup l -> distinct l = true.
Proof.
  induction 1 as [|x l Hx Hl IH]; simpl; [reflexivity|].
  rewrite IH, andb_true_r. apply negb_true_iff, includesString_not_In, Hx.
Qed.

Lemma catalogue_in_range :
  forallb resultsInRange (listsUpTo 4 (map id scenarios)) = true.
Proof. vm_compute. reflexivity. Qed.

(** X7: for every selection the page can reach that is not empty (no
    scenario twice, only scenarios of the catalogue), the calculator
    returns Numbers: the savings lie between 4900000 and 9800000 (20% and
    40% of the baseline), the mitigated cost between 14700000 and
    19600000, and the implementation cost between 1000000 and 8000000.
    The reductions are averaged, so no selection saves more than scenario
    2 alone, and "apply optimal", which selects all four, saves strictly
    less than that. *)
Theorem reachable_results_in_range :
  forall selected : list string,
    NoDup selected -> incl selected (map id scenarios) -> selected <> [] ->
    isNaN (withMitigation (calculateScenarioImpact selected)) = false /\
    isNaN (savings (calculateScenarioImpact selected)) = false /\
    (4900000 <=? savings (calculateScenarioImpact selected))%float = true /\
    (savings (calculateScenarioImpact selected) <=? 9800000)%float = true /\
    (14700000 <=? withMitigation (calculateScenarioImpact selected))%float = true /\
    (withMitigation (calculateScenarioImpact selected) <=? 19600000)%float = true /\
    (savings (calculateScenarioImpact selected)
     <=? savings (calculateScenarioImpact ["scenario2"]))%float = true /\
    (exists c, resultCost (calculateScenarioImpact selected) = Some c /\
               (1000000 <=? c)%float = true /\ (c <=? 8000000)%float = true) /\
    (savings (scenarioResults (applyOptimalScenario initialState))
     <? savings (calculateScenarioImpact ["scenario2"]))%float = true.
Proof.
  intros selected Hn Hi Hne.
  assert (Hl : (List.length selected <= 4)%nat).
  { change 4%nat with (List.length (map id scenarios)). now apply NoDup_incl_length. }
  pose proof (listsUpTo_In _ 4 selected Hi Hl) as Hin.
  pose proof catalogue_in_range as Hall. rewrite forallb_forall in Hall.
  specialize (Hall _ Hin). unfold resultsInRange in Hall.
  rewrite (distinct_NoDup _ Hn) in Hall.
  assert (Hlen : Nat.eqb (List.length selected) 0 = false).
  { destruct selected; [contradiction | reflexivity]. }
  rewrite Hlen in Hall. cbn [negb andb implb] in Hall.
  repeat (apply andb_prop in Hall as [Hall ?]).
  apply negb_true_iff in Hall.
  match goal with H : negb _ = true |- _ => apply negb_true_iff in H end.
  destruct (resultCost (calculateScenarioImpact selected)) as [c|];
    [|discriminate].
  match goal with H : (_ && _) = true |- _ => apply andb_prop in H as [? ?] end.
  repeat (split; [assumption|]).
  split; [exists c; repeat split; assumption | vm_compute; reflexivity].
Qed.

Lemma reachable_results_in_range_witness :
  (savings (calculateScenarioImpact ["scenario3"; "scenario1"]) <=? 9800000)%float = true.
Proof.
  refine (proj1 (proj2 (proj2 (proj2
            (reachable_results_in_range ["scenario3"; "scenario1"] _ _ _))))).
  - repeat constructor; simpl; intuition discriminate.
  - intros x Hx. simpl in Hx |- *. intuition.
  - discriminate.
Defined.

Lemma clicks_results (clicks : list string) (st : State) :
  clicks <> [] ->
  scenarioResults (fold_left handleScenarioChange clicks st)
  = calculateScenarioImpact (selectedScenarios (fold_left handleScenarioChange clicks st)).
Proof.
  revert st. induction clicks as [|c clicks IH]; intros st H; [contradiction|].
  simpl. destruct clicks as [|c' clicks]; [reflexivity|]. apply IH. discriminate.
Qed.

Lemma clicks_results_earlier (clicks : list string) (st : State) :
  scenarioResults (fold_left handleScenarioChangeEarlier clicks st) = scenarioResults st.
Proof.
  revert st. induction clicks as [|c clicks IH]; intro st; simpl; [reflexivity|].
  now rewrite IH.
Qed.

(** X8: in the primary variant the results follow every click, so any
    clicks that end with nothing selected (ticking a scenario and
    unticking it again, say) leave the mitigated cost and the savings NaN,
    not the 24500000 and 0 of the initial state with the same empty
    selection.  In the earlier variant clicks never change the results;
    there [runScenario] with nothing selected produces the NaN. *)
Theorem empty_selection_after_clicks :
  forall clicks : list string,
    clicks <> [] ->
    selectedScenarios (fold_left handleScenarioChange clicks initialState) = [] ->
    isNaN (withMitigation
             (scenarioResults (fold_left handleScenarioChange clicks initialState))) = true /\
    isNaN (savings
             (scenarioResults (fold_left handleScenarioChange clicks initialState))) = true /\
    scenarioResults (fold_left handleScenarioChangeEarlier clicks initialState)
    = initialScenarioResults /\
    isNaN (withMitigation
             (scenarioResults
                (runScenario (fold_left handleScenarioChangeEarlier clicks initialState))))
    = true.
Proof.
  intros clicks Hne Hsel.
  rewrite (clicks_results clicks initialState Hne), Hsel.
  split; [vm_compute; reflexivity|]. split; [vm_compute; reflexivity|].
  split; [apply clicks_results_earlier|].
  cbn [runScenario scenarioResults].
  rewrite clicks_selection_earlier, <- clicks_selection, Hsel. vm_compute. reflexivity.
Qed.

Lemma empty_selection_after_clicks_witness :
  isNaN (withMitigation
           (scenarioResults
              (fold_left handleScenarioChange ["scenario2"; "scenario2"] initialState)))
  = true.
Proof.
  apply (empty_selection_after_clicks ["scenario2"; "scenario2"]).
  - discriminate.
  - reflexivity.
Defined.

End SelectionFacts.

(* ===================================================================== *)
(** * Properties of the ingested set and of loading                       *)
(* ===================================================================== *)

Section IngestedSet.
Import JS.

Lemma Dashboard_cleanedData_cons (r : Csv.Row) (rows : list Csv.Row) :
  Dashboard.cleanedData (r :: rows)
  = if Dashboard.keepRow r
    then match Dashboard.transformRow r with
         | Some e => e :: Dashboard.cleanedData rows
         | None => Dashboard.cleanedData rows
         end
    else Dashboard.cleanedData rows.
Proof.
  unfold Dashboard.cleanedData. simpl. destruct (Dashboard.keepRow r); [|reflexivity].
  simpl. destruct (Dashboard.transformRow r); reflexivity.
Qed.

Lemma Dashboard_cleanedData_fields (rows : list Csv.Row) :
  map Dashboard.fields (Dashboard.cleanedData rows) = filter Dashboard.keepRow rows.
Proof.
  induction rows as [|r rows IH]; [reflexivity|].
  rewrite Dashboard_cleanedData_cons. simpl.
  destruct (Dashboard.keepRow r) eqn:K; [|exact IH].
  destruct (Dashboard_transformRow_kept r K) as (e & -> & <- & _).
  simpl. now rewrite IH.
Qed.

Lemma Dashboard_cleanedData_valid (rows : list Csv.Row) :
  Forall (fun e => isNaN (Dashboard.Cost e) = false /\
                   Dashboard.Cost e = parseFloat (toStr (Csv.Cost (Dashboard.fields e))) /\
                   truthy (Csv.Date_of_Weather_Event (Dashboard.fields e)) = true)
         (Dashboard.cleanedData rows).
Proof.
  induction rows as [|r rows IH]; [constructor|].
  rewrite Dashboard_cleanedData_cons.
  destruct (Dashboard.keepRow r) eqn:K; [|exact IH].
  destruct (Dashboard_transformRow_kept r K) as (e & -> & Hf & Hc).
  constructor; [|exact IH].
  rewrite Hf, Hc. unfold Dashboard.keepRow in K.
  apply andb_prop in K as [K Kd]. apply andb_prop in K as [_ K].
  apply negb_true_iff in K. auto.
Qed.

Lemma Prototype_cleanedData_fields host (rows : list Csv.Row) :
  map Prototype.fields (Prototype.cleanedData host rows) = filter Prototype.keepRow rows.
Proof.
  unfold Prototype.cleanedData. rewrite map_map. simpl. apply map_id.
Qed.

Lemma Prototype_cleanedData_valid host (rows : list Csv.Row) :
  Forall (fun e => isNaN (Prototype.Cost e) = false /\
                   Prototype.Cost e = parseFloat (toStr (Csv.Cost (Prototype.fields e))))
         (Prototype.cleanedData host rows).
Proof.
  unfold Prototype.cleanedData. apply Forall_forall. intros e He.
  apply in_map_iff in He as (r & <- & Hr). apply filter_In in Hr as [_ K].
  simpl. unfold Prototype.keepRow in K. apply andb_prop in K as [_ K].
  apply negb_true_iff in K. auto.
Qed.

Lemma filter_length_le {T : Type} (p : T -> bool) (l : list T) :
  (List.length (filter p l) <= List.length l)%nat.
Proof.
  induction l as [|x l IH]; simpl; [lia|]. destruct (p x); simpl; lia.
Qed.

(** X9: the events that ingestion delivers are the rows that pass the
    row filter, in the order of the file and one event per row; every
    event carries a cost that is a Number (never NaN), read from the cost
    field of its own row.  The primary variant keeps exactly those rows
    of the earlier variant that have a date field that is not empty, so
    it never delivers more events than the earlier one, and neither
    delivers more events than there are rows. *)
Theorem ingested_events_are_kept_rows :
  forall (host : string -> float) (rows : list Csv.Row),
    map Dashboard.fields (Dashboard.cleanedData rows) = filter Dashboard.keepRow rows /\
    Forall (fun e => isNaN (Dashboard.Cost e) = false /\
                     Dashboard.Cost e = parseFloat (toStr (Csv.Cost (Dashboard.fields e))) /\
                     truthy (Csv.Date_of_Weather_Event (Dashboard.fields e)) = true)
           (Dashboard.cleanedData rows) /\
    map Prototype.fields (Prototype.cleanedData host rows) = filter Prototype.keepRow rows /\
    Forall (fun e => isNaN (Prototype.Cost e) = false /\
                     Prototype.Cost e = parseFloat (toStr (Csv.Cost (Prototype.fields e))))
           (Prototype.cleanedData host rows) /\
    map Dashboard.fields (Dashboard.cleanedData rows)
    = filter (fun r => truthy (Csv.Date_of_Weather_Event r))
             (map Prototype.fields (Prototype.cleanedData host rows)) /\
    (List.length (Dashboard.cleanedData rows)
     <= List.length (Prototype.cleanedData host rows) <= List.length rows)%nat.
Proof.
  intros host rows.
  pose proof (Dashboard_cleanedData_fields rows) as H1.
  pose proof (Prototype_cleanedData_fields host rows) as H2.
  assert (H3 : map Dashboard.fields (Dashboard.cleanedData rows)
               = filter (fun r => truthy (Csv.Date_of_Weather_Event r))
                        (map Prototype.fields (Prototype.cleanedData host rows))).
  { rewrite H1, H2, filter_filter_and. reflexivity. }
  split; [exact H1|]. split; [apply Dashboard_cleanedData_valid|].
  split; [exact H2|]. split; [apply Prototype_cleanedData_valid|].
  split; [exact H3|].
  rewrite <- (length_map Dashboard.fields), H3.
  rewrite <- (length_map Prototype.fields (Prototype.cleanedData host rows)).
  split; [apply filter_length_le|]. rewrite H2. apply filter_length_le.
Qed.

End IngestedSet.

Section EarlierLoading.
Import JS Samples.

(** X10: in the earlier variant loading always ends, and an error is
    recorded exactly when [fetch] or the reading of the body fails.  The
    status of the response is not looked at: the body of a response that
    is not ok is parsed like any other, where the primary variant records
    the HTTP status as an error.  A file without a single valid row
    leaves the earlier variant on the dashboard with an empty event set,
    on which the average cost per event is NaN and no installation is
    recommended. *)
Theorem earlier_loading_accepts_any_response :
  forall (host : string -> float) (parse : string -> list Csv.Row)
         (fetched : Dashboard.Outcome Dashboard.Response),
    let st := PrototypeViews.fetchData host parse fetched PrototypeViews.initialState in
    PrototypeViews.loading st = false /\
    (PrototypeViews.error st = None <->
     exists response csvText,
       fetched = Dashboard.Return response /\
       Dashboard.text response = Dashboard.Return csvText) /\
    (forall response csvText,
        fetched = Dashboard.Return response ->
        Dashboard.text response = Dashboard.Return csvText ->
        PrototypeViews.error st = None /\
        PrototypeViews.weatherData st = Prototype.cleanedData host (parse csvText) /\
        (Dashboard.ok response = false ->
         Dashboard.fetchData parse fetched Dashboard.initialState
         = {| Dashboard.weatherData := [];
              Dashboard.loading := false;
              Dashboard.error :=
                Some ("Error fetching data: HTTP error! status: "
                      ++ Dashboard.showNumber (Dashboard.status response)) |}) /\
        (Prototype.cleanedData host (parse csvText) = [] ->
         forall y t,
           isNaN (Prototype.avgCostPerEvent
                    (Prototype.filteredData (PrototypeViews.weatherData st) y t)) = true /\
           PrototypeViews.recommended
             (Prototype.filteredData (PrototypeViews.weatherData st) y t) = None)).
Proof.
  intros host parse fetched st. subst st. unfold PrototypeViews.fetchData.
  destruct fetched as [response|m]; simpl.
  - destruct (Dashboard.text response) as [csvText|m] eqn:Et; simpl.
    + split; [reflexivity|]. split.
      * split; [intros _; now exists response, csvText | reflexivity].
      * intros response' csvText' E Et'. injection E as <-.
        rewrite Et in Et'. injection Et' as <-.
        split; [reflexivity|]. split; [reflexivity|]. split.
        -- intro Hok. unfold Dashboard.fetchData, Dashboard.tryFetch, Dashboard.bind.
           rewrite Hok. reflexivity.
        -- intros -> y t. split; vm_compute; reflexivity.
    + split; [reflexivity|]. split.
      * split; [discriminate|]. intros (r & c & E & Et'). injection E as <-.
        rewrite Et in Et'. discriminate Et'.
      * intros response' csvText' E Et'. injection E as <-.
        rewrite Et in Et'. discriminate Et'.
  - split; [reflexivity|]. split.
    + split; [discriminate|]. intros (r & c & E & _). discriminate E.
    + intros response' csvText' E. discriminate E.
Qed.

Lemma earlier_loading_accepts_any_response_witness :
  PrototypeViews.error
    (PrototypeViews.fetchData hostRejects (fun _ => [rowBadCost])
       (Dashboard.Return {| Dashboard.ok := false; Dashboard.status := 404%N;
                            Dashboard.text := Dashboard.Return "Not Found" |})
       PrototypeViews.initialState) = None /\
  Dashboard.error
    (Dashboard.fetchData (fun _ => [rowBadCost])
       (Dashboard.Return {| Dashboard.ok := false; Dashboard.status := 404%N;
                            Dashboard.text := Dashboard.Return "Not Found" |})
       Dashboard.initialState)
  = Some "Error fetching data: HTTP error! status: 404".
Proof.
  pose proof (proj2 (proj2 (earlier_loading_accepts_any_response
                hostRejects (fun _ => [rowBadCost])
                (Dashboard.Return {| Dashboard.ok := false; Dashboard.status := 404%N;
                                     Dashboard.text := Dashboard.Return "Not Found" |})))
                _ "Not Found" eq_refl eq_refl) as (He & _ & Hp & _).
  split; [exact He|]. rewrite (Hp eq_refl). reflexivity.
Defined.

End EarlierLoading.

(* ===================================================================== *)
(** * Properties of the grouped views                                     *)
(* ===================================================================== *)

Section GroupByFacts.
Import JS Lodash.

Context {A : Type} (key : A -> string).

Lemma uniqAdd_keeps (k : string) (seen : list string) (y : string) :
  In y seen -> In y (uniqAdd k seen).
Proof.
  intro H. unfold uniqAdd. destruct (existsb (String.eqb k) seen); [exact H|].
  apply in_or_app. now left.
Qed.

Lemma uniqAdd_adds (k : string) (seen : list string) : In k (uniqAdd k seen).
Proof.
  unfold uniqAdd. destruct (existsb (String.eqb k) seen) eqn:E.
  - apply existsb_exists in E as (y & Hy & E). apply String.eqb_eq in E. now subst.
  - apply in_or_app. right. now left.
Qed.

Lemma uniq_complete_from (l seen : list string) (y : string) :
  In y l \/ In y seen -> In y (fold_left (fun seen k => uniqAdd k seen) l seen).
Proof.
  revert seen. induction l as [|k l IH]; intros seen H; simpl.
  - destruct H as [[]|H]. exact H.
  - apply IH. destruct H as [[->|H]|H]; auto.
    + right. apply uniqAdd_adds.
    + right. now apply uniqAdd_keeps.
Qed.

Lemma uniq_complete (l : list string) (y : string) : In y l -> In y (uniq l).
Proof. intro H. apply uniq_complete_from. now left. Qed.

(** The keys of the groups are the distinct keys of the collection. *)
Lemma groupBy_keys (l : list A) :
  Permutation (map fst (groupBy key l)) (uniq (map key l)).
Proof.
  unfold groupBy. rewrite <- buckets_keys. apply Permutation_map, ownEntries_perm.
Qed.

Lemma groupBy_NoDup (l : list A) : NoDup (map fst (groupBy key l)).
Proof.
  apply (Permutation_NoDup (Permutation_sym (groupBy_keys l))), uniq_NoDup.
Qed.

(** A group holds the elements of its key, in the order of the
    collection, and there is at least one. *)
Lemma groupBy_In (l : list A) (k : string) (xs : list A) :
  In (k, xs) (groupBy key l) ->
  In k (map key l) /\ xs = filter (fun x => String.eqb k (key x)) l /\ xs <> [].
Proof.
  intro Hg. unfold groupBy in Hg. apply (Permutation_in _ (ownEntries_perm _)) in Hg.
  assert (Hk : In k (map key l)).
  { apply uniq_incl. rewrite <- (buckets_keys key).
    change k with (fst (k, xs)). now apply in_map. }
  pose proof (buckets_content key l k xs Hg) as Hx.
  split; [exact Hk|]. split; [exact Hx|].
  apply in_map_iff in Hk as (x & Ex & Hin).
  assert (In x xs); [|now destruct xs].
  rewrite Hx. apply filter_In. split; [exact Hin|]. rewrite Ex. apply String.eqb_refl.
Qed.

(** Every element falls into a group. *)
Lemma groupBy_complete (l : list A) (x : A) :
  In x l -> In (key x) (map fst (groupBy key l)).
Proof.
  intro H. apply (Permutation_in _ (Permutation_sym (groupBy_keys l))).
  apply uniq_complete. now apply in_map.
Qed.

Lemma list_sum_perm (l1 l2 : list nat) : Permutation l1 l2 -> list_sum l1 = list_sum l2.
Proof.
  induction 1; simpl; lia.
Qed.

Lemma addToGroup_size (k : string) (x : A) (g : list (string * list A)) :
  list_sum (map (fun e => List.length (snd e)) (addToGroup k x g))
  = S (list_sum (map (fun e => List.length (snd e)) g)).
Proof.
  induction g as [|[k' xs] g IH]; simpl; [reflexivity|].
  destruct (String.eqb k k'); simpl.
  - rewrite length_app. simpl. lia.
  - rewrite IH. lia.
Qed.

(** The groups divide the collection: their sizes add up to its length. *)
Lemma groupBy_size (l : list A) :
  list_sum (map (fun e => List.length (snd e)) (groupBy key l)) = List.length l.
Proof.
  unfold groupBy. rewrite (list_sum_perm _ _ (Permutation_map _ (ownEntries_perm _))).
  unfold buckets.
  assert (G : forall g,
             list_sum (map (fun e : string * list A => List.length (snd e))
                           (fold_left (fun g x => addToGroup (key x) x g) l g))
             = (list_sum (map (fun e => List.length (snd e)) g) + List.length l)%nat).
  { induction l as [|x l IH]; intro g; simpl; [lia|].
    rewrite IH, addToGroup_size. lia. }
  apply G.
Qed.

End GroupByFacts.

Section StringOrder.
Import JS JSText.
Local Open Scope Z_scope.

Lemma Ascii_compare_refl (a : ascii) : Ascii.compare a a = Eq.
Proof. unfold Ascii.compare. apply N.compare_refl. Qed.

Lemma String_compare_refl (s : string) : String.compare s s = Eq.
Proof.
  induction s as [|a s IH]; simpl; [reflexivity|]. now rewrite Ascii_compare_refl.
Qed.

Lemma String_compare_trans (a b c : string) :
  String.compare a b = Lt -> String.compare b c = Lt -> String.compare a c = Lt.
Proof.
  revert b c. induction a as [|x a IH]; intros [|y b] [|z c]; simpl;
    try discriminate; try reflexivity.
  unfold Ascii.compare.
  destruct (N.compare_spec (N_of_ascii x) (N_of_ascii y)) as [Exy|Lxy|Gxy];
    try discriminate;
    destruct (N.compare_spec (N_of_ascii y) (N_of_ascii z)) as [Eyz|Lyz|Gyz];
    try discriminate; intros H1 H2.
  - rewrite Exy, <- Eyz, N.compare_refl. now apply (IH b c).
  - rewrite Exy. now apply N.compare_lt_iff in Lyz as ->.
  - rewrite <- Eyz. now apply N.compare_lt_iff in Lxy as ->.
  - assert (L : (N_of_ascii x < N_of_ascii z)%N) by lia.
    now apply N.compare_lt_iff in L as ->.
Qed.






Context {T : Type} (iteratee : T -> string).

Lemma compareAscendingStrings_compare (x y : string) :
  compareAscendingStrings x y = compareStrings x y.
Proof.
  unfold compareAscendingStrings, compareStrings.
  destruct (String.eqb x y) eqn:E; simpl.
  - apply String.eqb_eq in E. subst. now rewrite String_compare_refl.
  - destruct (String.compare x y); reflexivity.
Qed.

Lemma compareNames_le (x y : Z * (string * T)) :
  compareNames x y <= 0 <->
  String.compare (fst (snd x)) (fst (snd y)) = Lt \/
  (String.compare (fst (snd x)) (fst (snd y)) = Eq /\ fst x <= fst y).
Proof.
  unfold compareNames. rewrite compareAscendingStrings_compare. unfold compareStrings.
  destruct (String.compare (fst (snd x)) (fst (snd y))); simpl; split; intro H;
    try lia; try (destruct H as [H|[H _]]; discriminate H); auto.
  - right. split; [reflexivity | lia].
  - destruct H as [H|[_ H]]; [discriminate H | lia].
Qed.

Lemma compareNames_total (x y : Z * (string * T)) :
  True -> True -> 0 < compareNames x y -> compareNames y x <= 0.
Proof.
  intros _ _. unfold compareNames. rewrite !compareAscendingStrings_compare.
  unfold compareStrings. rewrite (String.compare_antisym (fst (snd y)) (fst (snd x))).
  destruct (String.compare (fst (snd x)) (fst (snd y))); simpl; lia.
Qed.

Lemma compareNames_trans (x y z : Z * (string * T)) :
  True -> True -> True ->
  compareNames x y <= 0 -> compareNames y z <= 0 -> compareNames x z <= 0.
Proof.
  intros _ _ _. rewrite !compareNames_le.
  intros [H1|[H1 L1]] [H2|[H2 L2]].
  - left. now apply (String_compare_trans _ _ _ H1 H2).
  - left. apply String.compare_eq_iff in H2. now rewrite <- H2.
  - left. apply String.compare_eq_iff in H1. now rewrite H1.
  - right. apply String.compare_eq_iff in H1, H2. rewrite H1, H2.
    split; [apply String_compare_refl | lia].
Qed.

(** [sortBy] permutes the collection. *)
Lemma sortByString_perm (l : list T) : Permutation (sortByString iteratee l) l.
Proof.
  unfold sortByString. rewrite (sort_perm compareNames).
  rewrite <- map_map, indexedFrom_snd, map_map. simpl. now rewrite map_id.
Qed.

(** After [sortBy] no element stands before one with a smaller
    criterion. *)
Lemma sortByString_sorted (l : list T) :
  forall i j a b,
    (i < j)%nat ->
    nth_error (sortByString iteratee l) i = Some a ->
    nth_error (sortByString iteratee l) j = Some b ->
    String.compare (iteratee a) (iteratee b) <> Gt.
Proof.
  intros i j a b Hij Hi Hj. unfold sortByString in Hi, Hj.
  set (entries := indexedFrom 0 (map (fun x => (iteratee x, x)) l)) in *.
  rewrite nth_error_map in Hi, Hj.
  destruct (nth_error (sort compareNames entries) i) as [ea|] eqn:Ei; [|discriminate Hi].
  destruct (nth_error (sort compareNames entries) j) as [eb|] eqn:Ej; [|discriminate Hj].
  injection Hi as <-. injection Hj as <-.
  pose proof (sort_sorted compareNames (fun _ => True)
                compareNames_total compareNames_trans entries
                (proj2 (Forall_forall _ entries) (fun _ _ => I))) as Hs.
  pose proof (StronglySorted_nth _ _ Hs i j ea eb Hij Ei Ej) as Hle.
  unfold precedes in Hle. apply compareNames_le in Hle.
  assert (V : forall e, In e (sort compareNames entries) ->
                        fst (snd e) = iteratee (snd (snd e))).
  { intros [p [v x]] He. apply (Permutation_in _ (sort_perm compareNames entries)) in He.
    apply indexedFrom_In in He as [_ Hn]. rewrite nth_error_map in Hn.
    destruct (nth_error l (Z.to_nat (p - 0))); [|discriminate Hn].
    injection Hn as <- <-. reflexivity. }
  rewrite <- (V ea (nth_error_In _ _ Ei)), <- (V eb (nth_error_In _ _ Ej)).
  destruct Hle as [H|[H _]]; rewrite H; discriminate.
Qed.

End StringOrder.

(* ===================================================================== *)
(** * The installation view as a whole                                    *)
(* ===================================================================== *)

Section InstallationViewTop.
Import JS Lodash Prototype Samples.

(** C7, amended: the installation view groups the filtered events by
    installation key: every filtered event falls into the group of its
    key, and the view shows the first ten of the groups in their order,
    all of them when there are at most ten.  So the view has min(10,
    number of distinct keys) entries, each for a different installation
    key that occurs in the filtered events, with the sum of the costs of
    the events of exactly that key as its total.  When no total is NaN,
    the totals are in non-increasing order, and of two entries with equal
    totals the earlier one is the one whose group lodash enumerates
    first; a group that the view leaves out has a total that is at most
    the total of every entry shown, and where it is equal the group is
    enumerated after that entry.  The groups are enumerated in the order
    in which their keys are first met whenever no key is an array
    index. *)
Theorem installation_view_top10 :
  forall data : list Event,
    (List.length (costByInstallation data) <= 10)%nat /\
    NoDup (map name (costByInstallation data)) /\
    (forall b, In b (costByInstallation data) ->
               In (name b) (map byInstallation data) /\
               value b = sumBy Cost
                           (filter (fun e => String.eqb (name b) (byInstallation e)) data)) /\
    (Forall (fun b => isNaN (value b) = false) (installationGroups data) ->
     forall i j a b,
       (i < j)%nat ->
       nth_error (costByInstallation data) i = Some a ->
       nth_error (costByInstallation data) j = Some b ->
       (value b <=? value a)%float = true /\
       (strictEq (value a) (value b) = true ->
        exists p q, (p < q)%nat /\
                    nth_error (installationGroups data) p = Some a /\
                    nth_error (installationGroups data) q = Some b)) /\
    (forallb (fun k => negb (isIndexKey k)) (map byInstallation data) = true ->
     map name (installationGroups data) = uniq (map byInstallation data)) /\
    List.length (costByInstallation data)
    = Nat.min 10 (List.length (uniq (map byInstallation data))) /\
    (forall e, In e data ->
       exists g, In g (installationGroups data) /\ name g = byInstallation e /\
                 value g = sumBy Cost
                             (filter (fun x => String.eqb (byInstallation e)
                                                          (byInstallation x)) data)) /\
    (forall b, In b (costByInstallation data) -> In b (installationGroups data)) /\
    ((List.length (uniq (map byInstallation data)) <= 10)%nat ->
     Permutation (map name (costByInstallation data)) (uniq (map byInstallation data))) /\
    (Forall (fun b => isNaN (value b) = false) (installationGroups data) ->
     forall g b,
       In g (installationGroups data) -> ~ In g (costByInstallation data) ->
       In b (costByInstallation data) ->
       List.length (costByInstallation data) = 10%nat /\
       (value g <=? value b)%float = true /\
       (strictEq (value b) (value g) = true ->
        exists p q, (p < q)%nat /\
                    nth_error (installationGroups data) p = Some b /\
                    nth_error (installationGroups data) q = Some g)).
Proof.
  intro data. unfold costByInstallation, slice0.
  pose proof (orderBy_perm value true (installationGroups data)) as Hp.
  assert (Hlen : List.length (orderBy value true (installationGroups data))
                 = List.length (uniq (map byInstallation data))).
  { rewrite (Permutation_length Hp), <- (length_map name), installationGroups_names.
    apply Permutation_length, groupBy_keys. }
  split; [apply firstn_le_length|].
  split.
  { rewrite <- firstn_map. apply firstn_NoDup.
    apply (Permutation_NoDup
             (Permutation_sym (Permutation_map name (orderBy_perm value true _)))).
    rewrite installationGroups_names.
    apply (Permutation_NoDup (Permutation_sym (groupBy_keys_perm data))).
    apply uniq_NoDup. }
  split.
  { intros b Hb. apply firstn_In in Hb.
    apply (Permutation_in _ (orderBy_perm value true _)) in Hb.
    now apply installationGroups_In. }
  split.
  { intros Hnan i j a b Hij Hi Hj.
    rewrite nth_error_firstn in Hi, Hj.
    destruct (Nat.ltb i 10); [|discriminate Hi].
    destruct (Nat.ltb j 10); [|discriminate Hj].
    exact (orderBy_desc_sorted value (installationGroups data) Hnan i j a b Hij Hi Hj). }
  split.
  { intro Hkeys. rewrite installationGroups_names. unfold groupBy.
    rewrite ownEntries_no_index; [apply buckets_keys|].
    rewrite forallb_forall in Hkeys |- *. intros [k items] Hin. simpl.
    apply Hkeys, uniq_incl. rewrite <- (buckets_keys byInstallation).
    change k with (fst (k, items)). now apply in_map. }
  split.
  { rewrite length_firstn, Hlen. reflexivity. }
  split.
  { intros e He.
    pose proof (groupBy_complete byInstallation data e He) as Hg.
    rewrite <- installationGroups_names in Hg.
    apply in_map_iff in Hg as (g & Eg & Hg). exists g.
    split; [exact Hg|]. split; [exact Eg|].
    rewrite <- Eg. now apply installationGroups_In. }
  split.
  { intros b Hb. apply firstn_In in Hb. now apply (Permutation_in _ Hp). }
  split.
  { intro Hle. rewrite firstn_all2 by (rewrite Hlen; exact Hle).
    rewrite (Permutation_map name Hp), installationGroups_names. apply groupBy_keys. }
  intros Hnan g b Hg Hout Hb.
  apply (Permutation_in _ (Permutation_sym Hp)) in Hg.
  apply In_nth_error in Hg as (j & Hj).
  apply In_nth_error in Hb as (i & Hi).
  rewrite nth_error_firstn in Hi.
  destruct (Nat.ltb_spec i 10) as [Hi10|]; [|discriminate Hi].
  assert (Hj10 : (10 <= j)%nat).
  { destruct (Nat.ltb_spec j 10) as [Hlt|Hge]; [|exact Hge].
    exfalso. apply Hout. apply (nth_error_In _ j). rewrite nth_error_firstn.
    apply Nat.ltb_lt in Hlt. now rewrite Hlt. }
  split.
  { rewrite length_firstn. apply Nat.min_l.
    assert (j < List.length (orderBy value true (installationGroups data)))%nat
      by (apply nth_error_Some; congruence).
    lia. }
  apply (orderBy_desc_sorted value (installationGroups data) Hnan i j b g); auto. lia.
Qed.

Lemma installation_view_top10_witness :
  (Prototype.value bucketBragg <=? Prototype.value bucketSeven)%float = true.
Proof.
  refine (proj1 (proj1 (proj2 (proj2 (proj2 (installation_view_top10 eventsTied))))
                   _ 0%nat 1%nat bucketSeven bucketBragg (Nat.lt_0_succ 0) _ _)).
  - vm_compute. repeat constructor.
  - vm_compute. reflexivity.
  - vm_compute. reflexivity.
Defined.

End InstallationViewTop.

(* ===================================================================== *)
(** * Properties of the trend and of the category views                 *)
(* ===================================================================== *)

Section TrendFacts.
Import JS JSText Lodash Trend.

Context {E : Type} (Year Cost : E -> float).

Lemma trendGroups_names (data : list E) :
  map name (trendGroups Year Cost data) = map fst (groupBy (byYear Year) data).
Proof.
  unfold trendGroups. rewrite map_map. apply map_ext. now intros [k items].
Qed.

Lemma trendGroups_counts (data : list E) :
  map count (trendGroups Year Cost data)
  = map (fun g => List.length (snd g)) (groupBy (byYear Year) data).
Proof.
  unfold trendGroups. rewrite map_map. apply map_ext. now intros [k items].
Qed.

Lemma trendGroups_In (data : list E) (t : Entry) :
  In t (trendGroups Year Cost data) ->
  (1 <= count t)%nat /\
  count t = List.length (filter (fun e => String.eqb (name t) (byYear Year e)) data) /\
  value t = sumBy Cost (filter (fun e => String.eqb (name t) (byYear Year e)) data).
Proof.
  unfold trendGroups. rewrite in_map_iff. intros ([k items] & <- & Hg). simpl.
  apply groupBy_In in Hg as (_ & Hx & Hne). rewrite <- Hx.
  split; [|split; reflexivity]. destruct items; [contradiction | simpl; lia].
Qed.

End TrendFacts.

Section ViewFacts.
Import JS JSText Lodash Samples.

(** X11: the yearly trend, in both variants.  It has one entry for each
    year key that occurs in the filtered events and none besides; the
    entry of a year counts the events of exactly that year, at least one,
    and totals their costs; the counts of all the entries add up to the
    number of filtered events; and the entries stand in strictly
    ascending order of their year keys, compared as strings. *)
Theorem yearly_trend_partitions_events :
  forall (E : Type) (Year Cost : E -> float) (data : list E),
    NoDup (map Trend.name (Trend.costTrend Year Cost data)) /\
    (forall t, In t (Trend.costTrend Year Cost data) ->
       (1 <= Trend.count t)%nat /\
       Trend.count t
       = List.length (filter (fun e => String.eqb (Trend.name t) (Trend.byYear Year e)) data) /\
       Trend.value t
       = sumBy Cost (filter (fun e => String.eqb (Trend.name t) (Trend.byYear Year e)) data)) /\
    (forall e, In e data ->
       In (Trend.byYear Year e) (map Trend.name (Trend.costTrend Year Cost data))) /\
    list_sum (map Trend.count (Trend.costTrend Year Cost data)) = List.length data /\
    (forall i j a b,
        (i < j)%nat ->
        nth_error (Trend.costTrend Year Cost data) i = Some a ->
        nth_error (Trend.costTrend Year Cost data) j = Some b ->
        String.compare (Trend.name a) (Trend.name b) = Lt) /\
    DashboardViews.trendData = Trend.costTrend Dashboard.Year Dashboard.Cost /\
    PrototypeViews.costTrend = Trend.costTrend Prototype.Year Prototype.Cost.
Proof.
  intros E Year Cost data. unfold Trend.costTrend.
  pose proof (sortByString_perm Trend.name (Trend.trendGroups Year Cost data)) as Hp.
  assert (Hn : NoDup (map Trend.name
                       (sortByString Trend.name (Trend.trendGroups Year Cost data)))).
  { apply (Permutation_NoDup (Permutation_sym (Permutation_map Trend.name Hp))).
    rewrite trendGroups_names. apply groupBy_NoDup. }
  split; [exact Hn|]. split.
  { intros t Ht. apply (Permutation_in _ Hp) in Ht. now apply trendGroups_In. }
  split.
  { intros e He.
    apply (Permutation_in _ (Permutation_sym (Permutation_map Trend.name Hp))).
    rewrite trendGroups_names. now apply groupBy_complete. }
  split.
  { rewrite (list_sum_perm _ _ (Permutation_map Trend.count Hp)).
    rewrite trendGroups_counts. apply groupBy_size. }
  split; [|split; reflexivity].
  intros i j a b Hij Hi Hj.
  pose proof (sortByString_sorted Trend.name _ i j a b Hij Hi Hj) as Hle.
  destruct (String.compare (Trend.name a) (Trend.name b)) eqn:C;
    [|reflexivity|congruence].
  apply String.compare_eq_iff in C.
  rewrite NoDup_nth_error in Hn.
  assert (i = j); [|lia].
  apply Hn.
  - rewrite length_map. apply nth_error_Some. congruence.
  - rewrite !nth_error_map, Hi, Hj. simpl. now rewrite C.
Qed.

Lemma yearly_trend_partitions_events_witness :
  In (Trend.byYear Dashboard.Year eventIanPrimary)
     (map Trend.name (Trend.costTrend Dashboard.Year Dashboard.Cost [eventIanPrimary])).
Proof.
  apply (proj1 (proj2 (proj2 (yearly_trend_partitions_events
                                _ Dashboard.Year Dashboard.Cost [eventIanPrimary])))).
  now left.
Defined.

Lemma busiest_fold (l p1 p2 : list Trend.Entry) (m : Trend.Entry) :
  Forall (fun x => (Trend.count x < Trend.count m)%nat) p1 ->
  Forall (fun x => (Trend.count x <= Trend.count m)%nat) p2 ->
  exists l1 l2,
    (p1 ++ m :: p2 ++ l)%list
    = (l1 ++ fold_left (fun max current =>
                          if Nat.ltb (Trend.count max) (Trend.count current)
                          then current else max) l m :: l2)%list /\
    Forall (fun x => (Trend.count x
                      < Trend.count (fold_left (fun max current =>
                          if Nat.ltb (Trend.count max) (Trend.count current)
                          then current else max) l m))%nat) l1 /\
    Forall (fun x => (Trend.count x
                      <= Trend.count (fold_left (fun max current =>
                          if Nat.ltb (Trend.count max) (Trend.count current)
                          then current else max) l m))%nat) l2.
Proof.
  revert p1 p2 m. induction l as [|c l IH]; intros p1 p2 m H1 H2.
  - exists p1, p2. rewrite app_nil_r. auto.
  - cbn [fold_left]. destruct (Nat.ltb_spec (Trend.count m) (Trend.count c)) as [Hlt|Hge].
    + destruct (IH (p1 ++ m :: p2)%list [] c) as (l1 & l2 & E & F1 & F2).
      * apply Forall_app. split; [|constructor].
        -- eapply Forall_impl; [|exact H1]. simpl. intros; lia.
        -- exact Hlt.
        -- eapply Forall_impl; [|exact H2]. simpl. intros; lia.
      * constructor.
      * exists l1, l2. split; [|auto]. rewrite <- E. rewrite <- app_assoc. reflexivity.
    + destruct (IH p1 (p2 ++ [c])%list m) as (l1 & l2 & E & F1 & F2).
      * exact H1.
      * apply Forall_app. split; [exact H2|]. constructor; [exact Hge | constructor].
      * exists l1, l2. split; [|auto]. rewrite <- E. rewrite <- app_assoc. reflexivity.
Qed.

(** X12: the year that the trend insight names as having the highest
    number of events is the first entry of the trend whose count is the
    greatest: every entry before it has a smaller count and no entry
    after it has a greater one.  There is such a year exactly when the
    trend is not empty. *)
Theorem busiest_year_is_first_maximum :
  forall costTrend : list Trend.Entry,
    (Trend.busiestYear costTrend = None <-> costTrend = []) /\
    (forall year, Trend.busiestYear costTrend = Some year ->
       exists before e after,
         costTrend = (before ++ e :: after)%list /\ Trend.name e = year /\
         Forall (fun x => (Trend.count x < Trend.count e)%nat) before /\
         Forall (fun x => (Trend.count x <= Trend.count e)%nat) after).
Proof.
  intro costTrend. unfold Trend.busiestYear, Trend.busiest.
  destruct costTrend as [|first rest]; simpl.
  - split; [tauto|]. discriminate.
  - split; [split; discriminate|].
    intros year Hy. injection Hy as <-.
    rewrite Nat.ltb_irrefl.
    destruct (busiest_fold rest [] [] first (Forall_nil _) (Forall_nil _))
      as (l1 & l2 & E & F1 & F2).
    exists l1. eexists. exists l2. simpl in E. split; [exact E|]. auto.
Qed.

Lemma busiest_year_is_first_maximum_witness :
  exists before e after,
    [ {| Trend.name := "2021"; Trend.value := 10; Trend.count := 2 |};
      {| Trend.name := "2022"; Trend.value := 5; Trend.count := 3 |};
      {| Trend.name := "2023"; Trend.value := 7; Trend.count := 3 |} ]
    = (before ++ e :: after)%list /\ Trend.name e = "2022" /\
    Forall (fun x => (Trend.count x < Trend.count e)%nat) before /\
    Forall (fun x => (Trend.count x <= Trend.count e)%nat) after.
Proof.
  apply (proj2 (busiest_year_is_first_maximum _)). reflexivity.
Defined.

End ViewFacts.

Section CategoryViews.
Import JS JSText Lodash Classifier Samples.

Lemma number_leb_refl (x : float) : PrimFloat.is_nan x = false -> (x <=? x)%float = true.
Proof.
  intro H. rewrite leb_compare. unfold compareNumbers.
  rewrite SFcompare_refl; [reflexivity | now apply is_nan_false_spec].
Qed.

Lemma typeGroups_names (data : list Dashboard.Event) :
  map Prototype.name (DashboardViews.typeGroups data)
  = map fst (groupBy DashboardViews.byCategory data).
Proof.
  unfold DashboardViews.typeGroups. rewrite map_map. apply map_ext. now intros [k items].
Qed.

Lemma typeGroups_In (data : list Dashboard.Event) (b : Prototype.Bucket) :
  In b (DashboardViews.typeGroups data) ->
  In (Prototype.name b) (map DashboardViews.byCategory data) /\
  Prototype.value b
  = sumBy Dashboard.Cost
      (filter (fun e => String.eqb (Prototype.name b) (DashboardViews.byCategory e)) data) /\
  Prototype.percentage b
  = Some (Math_round (Prototype.value b / sumBy Dashboard.Cost data * 100)%float).
Proof.
  unfold DashboardViews.typeGroups. rewrite in_map_iff. intros ([k items] & <- & Hg). simpl.
  apply groupBy_In in Hg as (Hk & Hx & _). rewrite <- Hx. auto.
Qed.

Lemma weatherTypes_perm (data : list Dashboard.Event) :
  Permutation (DashboardViews.weatherTypes data)
              (uniq (map DashboardViews.byCategory data)).
Proof. apply sort_perm. Qed.


(** X13: the category view of the primary variant.  It has one entry for
    each derived category that occurs in the filtered events and none
    besides, so at most ten, each named by one of the ten categories; an
    entry totals the costs of exactly the events of its category, and its
    percentage is that total against the total of all the filtered
    events, rounded; when no total is NaN the entries stand in
    non-increasing order of their totals; and the names of the view of
    the whole event set are the entries of the list of types. *)
Theorem category_view_primary :
  forall data : list Dashboard.Event,
    NoDup (map Prototype.name (DashboardViews.typeData data)) /\
    (List.length (DashboardViews.typeData data) <= 10)%nat /\
    (forall b, In b (DashboardViews.typeData data) ->
       In (Prototype.name b) categories /\
       (exists e, In e data /\ DashboardViews.byCategory e = Prototype.name b) /\
       Prototype.value b
       = sumBy Dashboard.Cost
           (filter (fun e => String.eqb (Prototype.name b) (DashboardViews.byCategory e))
                   data) /\
       Prototype.percentage b
       = Some (Math_round (Prototype.value b / sumBy Dashboard.Cost data * 100)%float)) /\
    (forall e, In e data ->
       In (DashboardViews.byCategory e) (map Prototype.name (DashboardViews.typeData data))) /\
    (Forall (fun b => isNaN (Prototype.value b) = false) (DashboardViews.typeGroups data) ->
     forall i j a b,
       (i < j)%nat ->
       nth_error (DashboardViews.typeData data) i = Some a ->
       nth_error (DashboardViews.typeData data) j = Some b ->
       (Prototype.value b <=? Prototype.value a)%float = true) /\
    Permutation (map Prototype.name (DashboardViews.typeData data))
                (DashboardViews.weatherTypes data).
Proof.
  intro data. unfold DashboardViews.typeData.
  pose proof (orderBy_perm Prototype.value true (DashboardViews.typeGroups data)) as Hp.
  assert (Hnames : Permutation
                     (map Prototype.name
                          (orderBy Prototype.value true (DashboardViews.typeGroups data)))
                     (uniq (map DashboardViews.byCategory data))).
  { rewrite (Permutation_map Prototype.name Hp), typeGroups_names. apply groupBy_keys. }
  assert (Hn : NoDup (map Prototype.name
                        (orderBy Prototype.value true (DashboardViews.typeGroups data)))).
  { apply (Permutation_NoDup (Permutation_sym Hnames)), uniq_NoDup. }
  assert (Hc : forall b,
             In b (orderBy Prototype.value true (DashboardViews.typeGroups data)) ->
             In (Prototype.name b) categories).
  { intros b Hb. apply (Permutation_in _ Hp), typeGroups_In in Hb as (Hk & _).
    apply in_map_iff in Hk as (e & <- & _). apply normalizeWeatherType_category. }
  split; [exact Hn|]. split.
  { rewrite <- (length_map Prototype.name).
    change 10%nat with (List.length categories).
    apply NoDup_incl_length; [exact Hn|].
    intros k Hk. apply in_map_iff in Hk as (b & <- & Hb). now apply Hc. }
  split.
  { intros b Hb. split; [now apply Hc|].
    apply (Permutation_in _ Hp), typeGroups_In in Hb as (Hk & Hv & Hpc).
    split; [|auto]. apply in_map_iff in Hk as (e & E & He). now exists e. }
  split.
  { intros e He. apply (Permutation_in _ (Permutation_sym Hnames)).
    apply uniq_complete. now apply in_map. }
  split.
  { intros Hnan i j a b Hij Hi Hj.
    exact (proj1 (orderBy_desc_sorted Prototype.value _ Hnan i j a b Hij Hi Hj)). }
  rewrite Hnames. symmetry. apply weatherTypes_perm.
Qed.

Lemma category_view_primary_witness :
  In (Prototype.name
        {| Prototype.name := "Hurricane/Tropical Storm"; Prototype.value := 1000;
           Prototype.percentage := Some 100%float |}) categories.
Proof.
  refine (proj1 (proj1 (proj2 (proj2 (category_view_primary [eventIanPrimary]))) _ _)).
  vm_compute. left. reflexivity.
Defined.



Lemma costByWeatherType_names (data : list Prototype.Event) :
  map Prototype.name (Prototype.costByWeatherType data)
  = map fst (groupBy (fun e => toStr (Csv.Weather_Event (Prototype.fields e))) data).
Proof.
  unfold Prototype.costByWeatherType. rewrite map_map. apply map_ext. now intros [k items].
Qed.

Lemma costByWeatherType_In (data : list Prototype.Event) (b : Prototype.Bucket) :
  In b (Prototype.costByWeatherType data) ->
  In (Prototype.name b)
     (map (fun e => toStr (Csv.Weather_Event (Prototype.fields e))) data) /\
  Prototype.value b
  = sumBy Prototype.Cost
      (filter (fun e => String.eqb (Prototype.name b)
                                   (toStr (Csv.Weather_Event (Prototype.fields e)))) data).
Proof.
  unfold Prototype.costByWeatherType. rewrite in_map_iff. intros ([k items] & <- & Hg). simpl.
  apply groupBy_In in Hg as (Hk & Hx & _). rewrite <- Hx. auto.
Qed.

(** X15: the event-type views of the earlier variant.  The category view
    has one entry for each raw description that occurs in the filtered
    events (the events without a description fall under "undefined") and
    none besides, and an entry totals the costs of exactly the events of
    its description.  The bar chart shows the same names with the same
    totals, reordered; when no total is NaN it shows them in
    non-increasing order of the totals. *)
Theorem event_type_views_earlier :
  forall data : list Prototype.Event,
    NoDup (map Prototype.name (Prototype.costByWeatherType data)) /\
    (forall b, In b (Prototype.costByWeatherType data) ->
       (exists e, In e data /\
                  toStr (Csv.Weather_Event (Prototype.fields e)) = Prototype.name b) /\
       Prototype.value b
       = sumBy Prototype.Cost
           (filter (fun e => String.eqb (Prototype.name b)
                                        (toStr (Csv.Weather_Event (Prototype.fields e))))
                   data)) /\
    (forall e, In e data ->
       In (toStr (Csv.Weather_Event (Prototype.fields e)))
          (map Prototype.name (Prototype.costByWeatherType data))) /\
    Permutation
      (map (fun b => (Prototype.name b, Prototype.value b))
           (PrototypeViews.weatherEventsByCost data))
      (map (fun b => (Prototype.name b, Prototype.value b))
           (Prototype.costByWeatherType data)) /\
    (Forall (fun b => isNaN (Prototype.value b) = false) (Prototype.costByWeatherType data) ->
     forall i j a b,
       (i < j)%nat ->
       nth_error (PrototypeViews.weatherEventsByCost data) i = Some a ->
       nth_error (PrototypeViews.weatherEventsByCost data) j = Some b ->
       (Prototype.value b <=? Prototype.value a)%float = true).
Proof.
  intro data.
  split.
  { rewrite costByWeatherType_names. apply groupBy_NoDup. }
  split.
  { intros b Hb. apply costByWeatherType_In in Hb as (Hk & Hv). split; [|exact Hv].
    apply in_map_iff in Hk as (e & E & He). now exists e. }
  split.
  { intros e He. rewrite costByWeatherType_names.
    apply (groupBy_complete (fun e => toStr (Csv.Weather_Event (Prototype.fields e)))).
    exact He. }
  split.
  { unfold PrototypeViews.weatherEventsByCost. rewrite map_map. simpl.
    apply Permutation_map, orderBy_perm. }
  intros Hnan i j a b Hij Hi Hj.
  unfold PrototypeViews.weatherEventsByCost in Hi, Hj. rewrite nth_error_map in Hi, Hj.
  destruct (nth_error (orderBy Prototype.value true (Prototype.costByWeatherType data)) i)
    as [a0|] eqn:Ei; [|discriminate Hi].
  destruct (nth_error (orderBy Prototype.value true (Prototype.costByWeatherType data)) j)
    as [b0|] eqn:Ej; [|discriminate Hj].
  injection Hi as <-. injection Hj as <-. simpl.
  exact (proj1 (orderBy_desc_sorted Prototype.value _ Hnan i j a0 b0 Hij Ei Ej)).
Qed.

Lemma event_type_views_earlier_witness :
  In (toStr (Some "Hurricane Ian"))
     (map Prototype.name (Prototype.costByWeatherType eventIan)).
Proof.
  refine (proj1 (proj2 (proj2 (event_type_views_earlier eventIan)))
            {| Prototype.fields := rowIan; Prototype.Cost := 1000;
               Prototype.Year := nan; Prototype.date := nan |} _).
  vm_compute. left. reflexivity.
Defined.

Lemma groupBy_nil {A : Type} (key : A -> string) (l : list A) :
  groupBy key l = [] <-> l = [].
Proof.
  split.
  - intro H. pose proof (groupBy_size key l) as S. rewrite H in S.
    destruct l; [reflexivity | discriminate S].
  - intros ->. reflexivity.
Qed.

Lemma orderBy_nil {A : Type} (f : A -> float) (desc : bool) (l : list A) :
  orderBy f desc l = [] <-> l = [].
Proof.
  split.
  - intro H. pose proof (orderBy_perm f desc l) as P. rewrite H in P.
    now apply Permutation_nil in P.
  - intros ->. reflexivity.
Qed.

(** X16: the recommendation of the earlier variant.  It names an
    installation exactly when there is at least one filtered event; and
    when no installation total is NaN, the installation it names occurs
    in the filtered events and its total cost is at least the total cost
    of the installation of every filtered event. *)
Theorem recommendation_is_costliest :
  forall data : list Prototype.Event,
    (PrototypeViews.recommended data = None <-> data = []) /\
    (Forall (fun b => isNaN (Prototype.value b) = false) (Prototype.installationGroups data) ->
     forall n, PrototypeViews.recommended data = Some n ->
       In n (map Prototype.byInstallation data) /\
       forall e, In e data ->
         (sumBy Prototype.Cost
            (filter (fun x => String.eqb (Prototype.byInstallation e)
                                         (Prototype.byInstallation x)) data)
          <=? sumBy Prototype.Cost
                (filter (fun x => String.eqb n (Prototype.byInstallation x)) data))%float
         = true).
Proof.
  intro data. unfold PrototypeViews.recommended, Prototype.costByInstallation, slice0.
  set (groups := Prototype.installationGroups data).
  destruct (orderBy Prototype.value true groups) as [|first rest] eqn:Ev.
  - apply orderBy_nil in Ev. unfold groups, Prototype.installationGroups in Ev.
    apply map_eq_nil, groupBy_nil in Ev. subst data.
    split; [tauto|]. intros _ n Hn. discriminate Hn.
  - cbn [firstn]. split.
    + split; [discriminate|]. intros ->. discriminate Ev.
    + intros Hnan n Hn. injection Hn as <-.
      assert (Hf : In first groups).
      { apply (Permutation_in _ (orderBy_perm Prototype.value true groups)).
        rewrite Ev. now left. }
      destruct (installationGroups_In data first Hf) as (Hk & Hv).
      split; [exact Hk|]. intros e He. rewrite <- Hv.
      pose proof (groupBy_complete Prototype.byInstallation data e He) as Hg.
      rewrite <- installationGroups_names in Hg. fold groups in Hg.
      apply in_map_iff in Hg as (b & Eb & Hb).
      destruct (installationGroups_In data b Hb) as (_ & Hvb).
      rewrite <- Eb, <- Hvb.
      apply (Permutation_in _ (Permutation_sym (orderBy_perm Prototype.value true groups)))
        in Hb.
      apply In_nth_error in Hb as (j & Hj).
      destruct j as [|j].
      * rewrite Ev in Hj. injection Hj as <-. apply number_leb_refl.
        rewrite Forall_forall in Hnan. now apply Hnan.
      * refine (proj1 (orderBy_desc_sorted Prototype.value groups Hnan 0 (S j) first b
                         (Nat.lt_0_succ j) _ Hj)).
        now rewrite Ev.
Qed.

Lemma recommendation_is_costliest_witness :
  In "7" (map Prototype.byInstallation eventsTied).
Proof.
  refine (proj1 (proj2 (recommendation_is_costliest eventsTied) _ "7" _)).
  - vm_compute. repeat constructor.
  - vm_compute. reflexivity.
Defined.

End CategoryViews.

Section YearOption.
Import JS JSText Calendar YearMenu.
Local Open Scope Z_scope.

Lemma year_checked : forallb yearOk (range 1900 201) = true.
Proof. vm_compute. reflexivity. Qed.

Lemma yearOk_spec (y : Z) :
  1900 <= y <= 2100 ->
  parseFloat (optionValue (ofZ y)) = ofZ y /\
  String.eqb (optionValue (ofZ y)) "all" = false /\
  strictEq (ofZ y) (ofZ y) = true.
Proof.
  intro H. pose proof (range_check _ _ _ year_checked y ltac:(lia)) as K.
  unfold yearOk in K. apply andb_prop in K as [K K3]. apply andb_prop in K as [K1 K2].
  split; [now apply FloatAxioms.Leibniz.eqb_spec|]. split; [now apply negb_true_iff | exact K3].
Qed.

(** X17: choosing the menu entry of a year retains the events of that
    year and no others.  For an integer year from 1900 to 2100 the value
    of its entry is read back as that year, so the filter retains exactly
    the events whose year is equal to it and that satisfy the type
    selector; in particular an event with such a year is retained when
    the entry of its own year is chosen. *)
Theorem year_option_selects_its_year :
  forall y : Z,
    1900 <= y <= 2100 ->
    (forall data t,
        Prototype.filteredData data (optionValue (ofZ y)) t
        = filter (fun e => strictEq (Prototype.Year e) (ofZ y))
                 (Prototype.filteredData data "all" t)) /\
    (forall data t,
        Dashboard.filteredData data (optionValue (ofZ y)) t
        = filter (fun e => strictEq (Dashboard.Year e) (ofZ y))
                 (Dashboard.filteredData data "all" t)) /\
    (forall data e,
        In e data -> Prototype.Year e = ofZ y ->
        In e (Prototype.filteredData data (optionValue (Prototype.Year e)) "all")) /\
    (forall data e,
        In e data -> Dashboard.Year e = ofZ y ->
        In e (Dashboard.filteredData data (optionValue (Dashboard.Year e)) "all")).
Proof.
  intros y Hy. destruct (yearOk_spec y Hy) as (Hp & Ha & Hs).
  split; [|split; [|split]].
  - intros data t. unfold Prototype.filteredData. rewrite filter_filter_and.
    apply filter_ext. intro e. unfold Prototype.passesFilter.
    rewrite Hp, Ha. change (String.eqb "all" "all") with true. cbn [negb andb].
    destruct (strictEq (Prototype.Year e) (ofZ y)); cbn [negb andb];
      repeat match goal with
             | |- context [if ?c then _ else _] => destruct c
             end; reflexivity.
  - intros data t. unfold Dashboard.filteredData. rewrite filter_filter_and.
    apply filter_ext. intro e. unfold Dashboard.passesFilter.
    rewrite Hp, Ha. change (String.eqb "all" "all") with true. cbn [negb andb].
    destruct (strictEq (Dashboard.Year e) (ofZ y)); cbn [negb andb];
      repeat match goal with
             | |- context [if ?c then _ else _] => destruct c
             end; reflexivity.
  - intros data e He Ey. unfold Prototype.filteredData. apply filter_In.
    split; [exact He|]. unfold Prototype.passesFilter.
    rewrite Ey, Hp, Ha, Hs. reflexivity.
  - intros data e He Ey. unfold Dashboard.filteredData. apply filter_In.
    split; [exact He|]. unfold Dashboard.passesFilter.
    rewrite Ey, Hp, Ha, Hs. reflexivity.
Qed.

Lemma year_option_selects_its_year_witness :
  In Samples.eventIanPrimary
     (Dashboard.filteredData [Samples.eventIanPrimary]
        (optionValue (Dashboard.Year Samples.eventIanPrimary)) "all").
Proof.
  refine (proj2 (proj2 (proj2 (year_option_selects_its_year 2023 _)))
            [Samples.eventIanPrimary] Samples.eventIanPrimary _ _).
  - lia.
  - now left.
  - reflexivity.
Defined.

End YearOption.

(* ===================================================================== *)
(** * Properties of the bar chart of the events                         *)
(* ===================================================================== *)

Section EventChartFacts.
Import JS JSText Lodash Classifier Samples EventChart.

Lemma eventGroups_names (data : list Dashboard.Event) :
  map name (eventGroups data) = map fst (groupBy byFullName data).
Proof.
  unfold eventGroups. rewrite map_map. apply map_ext. now intros [k items].
Qed.

Lemma eventGroups_In (data : list Dashboard.Event) (b : Entry) :
  In b (eventGroups data) ->
  exists first rest,
    filter (fun e => String.eqb (name b) (byFullName e)) data = first :: rest /\
    value b = sumBy Dashboard.Cost (first :: rest) /\
    normalizedType b = DashboardViews.byCategory first.
Proof.
  unfold eventGroups. rewrite in_map_iff. intros ([k items] & <- & Hg). simpl.
  apply groupBy_In in Hg as (_ & Hx & Hne). rewrite <- Hx.
  destruct items as [|first rest]; [contradiction|].
  exists first, rest. auto.
Qed.

(** X18: the bar chart of the events in the primary variant.  It has one
    bar for each full event name that occurs in the filtered events and
    none besides; a bar totals the costs of exactly the events of its
    name, of which there is at least one, and its category is the derived
    category of the first of them in the order of the file; when no total
    is NaN the bars stand in non-increasing order of their totals. *)
Theorem event_chart_primary :
  forall data : list Dashboard.Event,
    NoDup (map name (eventsByCost data)) /\
    (forall b, In b (eventsByCost data) ->
       exists first rest,
         filter (fun e => String.eqb (name b) (byFullName e)) data = first :: rest /\
         value b = sumBy Dashboard.Cost (first :: rest) /\
         normalizedType b = DashboardViews.byCategory first) /\
    (forall e, In e data -> In (byFullName e) (map name (eventsByCost data))) /\
    (Forall (fun b => isNaN (value b) = false) (eventGroups data) ->
     forall i j a b,
       (i < j)%nat ->
       nth_error (eventsByCost data) i = Some a ->
       nth_error (eventsByCost data) j = Some b ->
       (value b <=? value a)%float = true).
Proof.
  intro data. unfold eventsByCost.
  pose proof (orderBy_perm value true (eventGroups data)) as Hp.
  split.
  { apply (Permutation_NoDup (Permutation_sym (Permutation_map name Hp))).
    rewrite eventGroups_names. apply groupBy_NoDup. }
  split.
  { intros b Hb. apply (Permutation_in _ Hp) in Hb. now apply eventGroups_In. }
  split.
  { intros e He. apply (Permutation_in _ (Permutation_sym (Permutation_map name Hp))).
    rewrite eventGroups_names. now apply groupBy_complete. }
  intros Hnan i j a b Hij Hi Hj.
  exact (proj1 (orderBy_desc_sorted value _ Hnan i j a b Hij Hi Hj)).
Qed.

Lemma event_chart_primary_witness :
  In (byFullName eventIanPrimary) (map name (eventsByCost [eventIanPrimary])).
Proof.
  apply (proj1 (proj2 (proj2 (event_chart_primary [eventIanPrimary])))).
  now left.
Defined.

End EventChartFacts.
